(** * hexrd fit-grains: the worker pool, the two-stage refinement loop and
      the grains.out report of [hexrd/fitgrains.py]

    The development embeds the Python module shallowly.

    - Floating-point values are idealised as rationals ([Q]); every Python
      float other than inf/nan is one.  Values that are only passed around
      are compared with Leibniz equality.
    - The numerical routines imported from other modules ([pullSpots],
      [fitGrain], [objFuncFitGrain], [logm], [inv], [vecMVToSymm],
      [mapAngle], [np.radians], the quaternion conversions and the [%g]
      conversion of floats) are the fields of the class [Externals]: the
      worker only calls them, so every theorem holds for any implementation.
      Arguments that are fixed for a whole batch (detector geometry, plane
      data, frames, tolerances, distortion) are folded into these fields.
      The fields are functions: what is proved about a job that is
      completed is about calls of these routines that return.
    - [np.loadtxt], which decides the shape of the array that [fit_grains]
      indexes, is written out ([np_loadtxt]): blank lines skipped,
      ValueError on lines of different lengths, and the squeeze of its
      default [ndmin=0].
    - A worker is a program in a state-and-exception monad over the
      objects it holds: the job queue, the result list, the spots files and
      its private parameter dictionary [_p]. *)

From Stdlib Require Import QArith Qreals Reals Lra Lia List Ascii String DecimalString.
From stdpp Require Import relations gmap list sorting.
Import ListNotations.

Local Open Scope nat_scope.

(** ** Python values and exceptions *)

Inductive exn : Type :=
| Empty        (* Queue.Empty, raised by get(False) *)
| IOError      (* np.loadtxt on a missing file *)
| IndexError   (* subscript out of range, or too many subscripts *)
| KeyError     (* missing dictionary key *)
| ValueError.  (* task_done() called too often; comparison of arrays;
                  np.loadtxt on lines of different lengths *)

Inductive result (A : Type) : Type :=
| Ok (a : A)
| Raise (e : exn).
Arguments Ok {A} a.
Arguments Raise {A} e.

Definition rbind {A B} (r : result A) (k : A -> result B) : result B :=
  match r with
  | Ok a => k a
  | Raise e => Raise e
  end.

(** A two-dimensional float array, by rows. *)
Definition array2 : Type := list (list Q).
(** A one-dimensional float array. *)
Definition array1 : Type := list Q.

Definition Qltb (a b : Q) : bool := negb (Qle_bool b a).

Lemma Qltb_lt (a b : Q) : Qltb a b = true <-> (a < b)%Q.
Proof.
  unfold Qltb. rewrite negb_true_iff. split.
  - intros H. apply Qnot_le_lt. intros Hle.
    apply Qle_bool_iff in Hle. congruence.
  - intros H. destruct (Qle_bool b a) eqn:E; [|reflexivity].
    apply Qle_bool_iff in E. exfalso. exact (Qlt_not_le _ _ H E).
Qed.

(** [a[:, k]]: column [k] of a two-dimensional array; numpy raises
    IndexError when the array has no such column. *)
Definition column (k : nat) (a : array2) : result array1 :=
  if forallb (fun r => k <? length r) a
  then Ok (map (fun r => nth k r 0%Q) a)
  else Raise IndexError.

(** [a[idx, :]]: the rows selected by a boolean mask. *)
Fixpoint select_rows (idx : list bool) (a : array2) : array2 :=
  match idx, a with
  | b :: idx', r :: a' =>
      if b then r :: select_rows idx' a' else select_rows idx' a'
  | _, _ => []
  end.

(** [v[mask]] on a one-dimensional array. *)
Fixpoint select (mask : list bool) (v : array1) : array1 :=
  match mask, v with
  | b :: mask', x :: v' => if b then x :: select mask' v' else select mask' v'
  | _, _ => []
  end.

(** Python's [sum] over a boolean array: starts from 0 and adds. *)
Definition sum_bool (idx : list bool) : nat :=
  fold_left (fun acc (b : bool) => acc + (if b then 1 else 0)) idx 0.

(** Python's [sum] over floats. *)
Definition sum_Q (v : array1) : Q := fold_left Qplus v 0%Q.

(** [a[:, 1:4].T]: columns 1, 2, 3 as three row vectors. *)
Definition hkl_columns (a : array2) : array2 :=
  [ map (fun r => nth 1 r 0%Q) a;
    map (fun r => nth 2 r 0%Q) a;
    map (fun r => nth 3 r 0%Q) a ].

(** [r[-3:]] on one row. *)
Definition last3 (r : list Q) : list Q := skipn (length r - 3) r.

(** ** [np.loadtxt]

    A text file of floats is the list of its lines, each the list of the
    floats on it.  [np.loadtxt(fname)] is called with its default
    [ndmin=0]: it skips the lines without a field, raises ValueError when
    the remaining lines differ in their number of fields, and squeezes what
    it has read, so that a file with one data line, with one column or
    without data comes back with fewer than two dimensions. *)

Inductive ndarray : Type :=
| Arr1 (v : array1)    (* one dimension, or none *)
| Arr2 (a : array2).   (* two dimensions, by rows *)

Definition data_lines (lines : array2) : array2 :=
  List.filter (fun r => negb (length r =? 0)) lines.

(** Every line has as many fields as the first. *)
Definition same_columns (X : array2) : bool :=
  match X with
  | [] => true
  | r :: X' => forallb (fun r' => length r' =? length r) X'
  end.

(** [np.squeeze] on the rows read: the axes of length one are dropped. *)
Definition squeeze (X : array2) : ndarray :=
  match X with
  | [] => Arr1 []
  | [r] => Arr1 r
  | r :: _ :: _ =>
      if length r =? 1 then Arr1 (map (fun r' => nth 0 r' 0%Q) X)
      else Arr2 X
  end.

Definition np_loadtxt (lines : array2) : result ndarray :=
  let X := data_lines lines in
  if same_columns X then Ok (squeeze X) else Raise ValueError.

(** [a[:, k]], [a[idx, 1:4]], [a[idx, -3:]]: two subscripts need an array
    of two dimensions; on an array of fewer numpy raises IndexError. *)
Definition two_dim (a : ndarray) : result array2 :=
  match a with
  | Arr2 t => Ok t
  | Arr1 _ => Raise IndexError
  end.

(** ** The imported numerical routines *)

Class Externals : Type := {
  (* np.radians *)
  radians : Q -> Q;
  (* hexrd.xrd.transforms.mapAngle(ang, period), on one angle *)
  mapAngle : Q -> list Q -> Q;
  (* the lines of the file that hexrd.xrd.xrdutil.pullSpots writes for
     these grain parameters with the tolerances of the given iteration *)
  pullSpots : array1 -> nat -> array2;
  (* hexrd.xrd.fitting.fitGrain(xyo_det, hkls, ..., expmap, tvec, vinv,
     gFlag=, gScl=, omePeriod=) *)
  fitGrain : array2 -> array2 -> array1 -> array1 -> array1 ->
             list bool -> array1 -> list Q -> array1;
  (* hexrd.xrd.fitting.objFuncFitGrain(gFit, gFull, gFlag, ..., xyo_det,
     hkls, ..., omePeriod, simOnly=) *)
  objFuncFitGrain : array1 -> array1 -> list bool -> array2 -> array2 ->
                    list Q -> bool -> array1;
  (* scipy.linalg.logm, np.linalg.inv, hexrd.matrixutil.vecMVToSymm *)
  logm : array2 -> array2;
  inv : array2 -> array2;
  vecMVToSymm : array1 -> array2;
  (* hexrd.xrd.rotations: rotMatOfQuat on a 4 x n array of quaternions,
     angleAxisOfRotMat giving the angles phi (n) and the axes n (3 x n) *)
  rotMatOfQuat : array2 -> list array2;
  angleAxisOfRotMat : list array2 -> array1 * array2;
  (* the conversion '%<width>.7g' of one float *)
  fmt_g : nat -> Q -> string
}.

(** ** Module constants *)

(** grain parameter refinement flags *)
Definition gFlag : list bool :=
  [true; true; true; true; true; true;
   true; true; true; true; true; true].

(** grain parameter scalings *)
Definition gScl : array1 :=
  [1; 1; 1; 1; 1; 1; 1; 1; 1; 1 # 100; 1 # 100; 1 # 100]%Q.

(** ** Jobs, results and the objects a worker holds *)

Definition job : Type := nat * array1.

(** The tuple [(id, grain_params, compl, eMat, sum(resd**2))]. *)
Record FitResult : Type := mkFitResult {
  grain_id : nat;
  g_refined : array1;
  compl : Q;
  eMat : array2;
  resd : Q
}.

(** mp.JoinableQueue: the items and the count of unfinished tasks. *)
Record JoinableQueue : Type := mkQueue {
  items : list job;
  unfinished_tasks : nat
}.

(** The entries of the dictionary [_p] that the worker reads or writes
    itself; 'hkls' and 'xyo_det' are absent until [fit_grains] sets them. *)
Record pkwargs : Type := mkP {
  omega_start : Q;
  omega_step : Q;
  omega_stop : Q;
  omega_period : list Q;
  hkls : option array2;
  xyo_det : option array2
}.

Definition set_hkls (v : array2) (p : pkwargs) : pkwargs :=
  mkP (omega_start p) (omega_step p) (omega_stop p) (omega_period p)
      (Some v) (xyo_det p).

Definition set_xyo_det (v : array2) (p : pkwargs) : pkwargs :=
  mkP (omega_start p) (omega_step p) (omega_stop p) (omega_period p)
      (hkls p) (Some v).

(** A worker process, with the shared objects it reaches: the queue, the
    managed result list and the spots files (one per grain id, named
    [spots_stem % grain_id]). *)
Record FitGrainsWorker : Type := mkWorker {
  _jobs : JoinableQueue;
  _results : list FitResult;
  spots : gmap nat array2;
  _p : pkwargs
}.

Definition with_jobs (q : JoinableQueue) (w : FitGrainsWorker) :=
  mkWorker q (_results w) (spots w) (_p w).
Definition with_results (r : list FitResult) (w : FitGrainsWorker) :=
  mkWorker (_jobs w) r (spots w) (_p w).
Definition with_spots (f : gmap nat array2) (w : FitGrainsWorker) :=
  mkWorker (_jobs w) (_results w) f (_p w).
Definition with_p (p : pkwargs) (w : FitGrainsWorker) :=
  mkWorker (_jobs w) (_results w) (spots w) p.

(** ** The worker monad: state and exceptions *)

Definition M (A : Type) : Type := FitGrainsWorker -> result A * FitGrainsWorker.

Definition ret {A} (a : A) : M A := fun w => (Ok a, w).

Definition raise {A} (e : exn) : M A := fun w => (Raise e, w).

Definition bind {A B} (m : M A) (k : A -> M B) : M B :=
  fun w =>
    match m w with
    | (Ok a, w') => k a w'
    | (Raise e, w') => (Raise e, w')
    end.

Definition lift {A} (r : result A) : M A := fun w => (r, w).

Definition gets {A} (f : FitGrainsWorker -> A) : M A := fun w => (Ok (f w), w).

Definition modify (f : FitGrainsWorker -> FitGrainsWorker) : M unit :=
  fun w => (Ok tt, f w).

Declare Scope worker_scope.
Delimit Scope worker_scope with worker.
Notation "x <- m ; k" := (bind m (fun x => k))
  (at level 20, m at level 100, k at level 200, only parsing) : worker_scope.
Local Open Scope worker_scope.

(** ** FitGrainsWorker *)

Section Worker.

Context {E : Externals}.

(** [pull_spots]: pullSpots writes the spots file of the grain. *)
Definition pull_spots (grain_id : nat) (grain_params : array1)
    (iteration : nat) : M unit :=
  modify (fun w =>
    with_spots (<[grain_id := pullSpots grain_params iteration]> (spots w)) w).

(** [np.loadtxt(self._p['spots_stem'] % grain_id)] *)
Definition loadtxt (grain_id : nat) : M ndarray :=
  fun w => match spots w !! grain_id with
           | Some lines => (np_loadtxt lines, w)
           | None => (Raise IOError, w)
           end.

(** The mask [idx_ome] of [fit_grains], on one predicted omega. *)
Definition in_scan (p : pkwargs) (pred_ome : Q) : bool :=
  if Qltb (omega_step p) 0
  then Qltb pred_ome (radians (omega_start p + 2 * omega_step p))
       && Qltb (radians (omega_stop p - 2 * omega_step p)) pred_ome
  else Qltb (radians (omega_start p + 2 * omega_step p)) pred_ome
       && Qltb pred_ome (radians (omega_stop p - 2 * omega_step p)).

(** The mask [idx = logical_and(valid_refl_ids, idx_ome)]. *)
Definition refl_idx (p : pkwargs) (gtable : array2) : result (list bool) :=
  rbind (column 0 gtable) (fun ids =>
  let valid_refl_ids := map (fun x => Qle_bool 0 x) ids in
  rbind (column 6 gtable) (fun pred_ome =>
  let idx_ome := map (in_scan p) pred_ome in
  Ok (zip_with andb valid_refl_ids idx_ome))).

(** [xyo_det = gtable[idx, -3:]] with its omega column mapped into the
    period. *)
Definition centroids (p : pkwargs) (idx : list bool) (gtable : array2)
    : array2 :=
  map (fun r => let r3 := last3 r in
                <[2 := mapAngle (nth 2 r3 0%Q) (omega_period p)]> r3)
      (select_rows idx gtable).

Definition completeness_of (idx : list bool) : Q :=
  inject_Z (Z.of_nat (sum_bool idx)) / inject_Z (Z.of_nat (length idx)).

Definition fit_grains (grain_id : nat) (grain_params : array1)
    : M (array1 * Q) :=
  p <- gets _p ;
  loaded <- loadtxt grain_id ;
  gtable <- lift (two_dim loaded) ;
  idx <- lift (refl_idx p gtable) ;
  let hkls := hkl_columns (select_rows idx gtable) in
  _ <- modify (fun w => with_p (set_hkls hkls (_p w)) w) ;
  let xyo_det := centroids p idx gtable in
  _ <- modify (fun w => with_p (set_xyo_det xyo_det (_p w)) w) ;
  if sum_bool idx <=? 12 then ret (grain_params, 0%Q)
  else
    let grain_params' :=
      fitGrain xyo_det hkls
               (firstn 3 grain_params) (firstn 3 (skipn 3 grain_params))
               (skipn 6 grain_params) gFlag gScl (omega_period p) in
    ret (grain_params', completeness_of idx).

(** The body of [for iteration in range(2)], from iteration [it] on, with
    [rest] the iterations after it. *)
Fixpoint stages (it : nat) (rest : list nat) (id : nat)
    (grain_params : array1) : M (array1 * Q) :=
  _ <- pull_spots id grain_params it ;
  r <- fit_grains id grain_params ;
  if Qeq_bool (snd r) 0 then ret r
  else match rest with
       | [] => ret r
       | it' :: rest' => stages it' rest' id (fst r)
       end.

(** [self._jobs.get(False)]: the non-blocking dequeue. *)
Definition get_nowait : M job :=
  fun w =>
    match items (_jobs w) with
    | [] => (Raise Empty, w)
    | j :: q => (Ok j, with_jobs (mkQueue q (unfinished_tasks (_jobs w))) w)
    end.

(** [self._jobs.task_done()] *)
Definition task_done : M unit :=
  fun w =>
    match unfinished_tasks (_jobs w) with
    | O => (Raise ValueError, w)
    | S n => (Ok tt, with_jobs (mkQueue (items (_jobs w)) n) w)
    end.

(** [self._p[key]] for the two keys that may be absent. *)
Definition getitem {A} (key : pkwargs -> option A) : M A :=
  fun w =>
    match key (_p w) with
    | Some v => (Ok v, w)
    | None => (Raise KeyError, w)
    end.

(** [sum(resd**2)] *)
Definition sum_sq (resd : array1) : Q := sum_Q (map (fun x => x ^ 2)%Q resd).

(** The part of [loop] after the [for]: strain tensor, residual, append,
    task_done. *)
Definition finalize (id : nat) (grain_params : array1) (compl : Q)
    : M unit :=
  let eMat := logm (inv (vecMVToSymm (skipn 6 grain_params))) in
  xyo <- getitem xyo_det ;
  hk <- getitem hkls ;
  p <- gets _p ;
  let resd :=
    objFuncFitGrain (select gFlag grain_params) grain_params gFlag
                    xyo hk (omega_period p) false in
  _ <- modify (fun w =>
         with_results
           (_results w ++ [mkFitResult id grain_params compl eMat (sum_sq resd)])
           w) ;
  task_done.

(** [loop] after the dequeue. *)
Definition process (j : job) : M unit :=
  r <- stages 0 [1] (fst j) (snd j) ;
  finalize (fst j) (fst r) (snd r).

Definition loop : M unit :=
  j <- get_nowait ;
  process j.

(** [run]: [while True: try: self.loop() except Empty: break].  Every
    iteration that does not raise takes one job off the queue; [n] bounds
    the number of iterations and [None] means the bound was too small. *)
Fixpoint run_iter (n : nat) (w : FitGrainsWorker)
    : option (result unit * FitGrainsWorker) :=
  match n with
  | O => None
  | S n' =>
      match loop w with
      | (Ok _, w') => run_iter n' w'
      | (Raise Empty, w') => Some (Ok tt, w')
      | (Raise e, w') => Some (Raise e, w')
      end
  end.

(** [run] with one iteration more than there are jobs in the queue, which
    is as many as it can need. *)
Definition run (w : FitGrainsWorker) : result unit * FitGrainsWorker :=
  match run_iter (S (length (items (_jobs w)))) w with
  | Some rw => rw
  | None => (Ok tt, w)
  end.

End Worker.

(** ** The orchestrator [fit_grains(cfg)] *)

(** [v[k]] and [m[i, j]] *)
Definition index1 (v : array1) (k : nat) : result Q :=
  match nth_error v k with
  | Some x => Ok x
  | None => Raise IndexError
  end.

Definition index2 (m : array2) (i j : nat) : result Q :=
  match nth_error m i with
  | Some r => index1 r j
  | None => Raise IndexError
  end.

Fixpoint collect {A} (l : list (result A)) : result (list A) :=
  match l with
  | [] => Ok []
  | r :: l' => rbind r (fun a => rbind (collect l') (fun al => Ok (a :: al)))
  end.

(** [a.T] of a rectangular array with at least one row. *)
Definition transpose (a : array2) : array2 :=
  map (fun k => map (fun r => nth k r 0%Q) a)
      (seq 0 (length (hd [] a))).

(** [enumerate] *)
Definition enumerate {A} (l : list A) : list (nat * A) :=
  combine (seq 0 (length l)) l.

(** [job_queue.put(j)] *)
Definition put (j : job) (q : JoinableQueue) : JoinableQueue :=
  mkQueue (items q ++ [j]) (S (unfinished_tasks q)).

(** The part of the configuration the orchestrator reads for the claims:
    [cfg.image_series.omega.start/step], the number of frames read,
    [np.radians(cfg.find_orientations.omega.period)] and
    [cfg.multiprocessing]. *)
Record config : Type := mkConfig {
  cfg_omega_start : Q;
  cfg_omega_step : Q;
  n_frames : nat;
  cfg_omega_period : list Q;
  multiprocessing : nat
}.

(** The dictionary [pkwargs] built before the workers start. *)
Definition make_pkwargs (cfg : config) : pkwargs :=
  mkP (cfg_omega_start cfg) (cfg_omega_step cfg)
      (cfg_omega_start cfg
       + inject_Z (Z.of_nat (n_frames cfg)) * cfg_omega_step cfg)%Q
      (cfg_omega_period cfg) None None.

Section Orchestrator.

Context {E : Externals}.

(** [np.hstack([exp_map.flatten(), 0., 0., 0., 1., 1., 1., 0., 0., 0.])]
    with [exp_map = phi[i]*n[:, i]]. *)
Definition initial_grain_params (phi : array1) (n : array2) (i : nat)
    : result array1 :=
  rbind (index1 phi i) (fun phi_i =>
  rbind (column i n) (fun n_i =>
  let exp_map := map (fun x => phi_i * x)%Q n_i in
  Ok (exp_map ++ [0; 0; 0; 1; 1; 1; 0; 0; 0]%Q))).

Fixpoint load_jobs (phi : array1) (n : array2) (en : list (nat * list Q))
    (q : JoinableQueue) : result JoinableQueue :=
  match en with
  | [] => Ok q
  | (i, _) :: en' =>
      rbind (initial_grain_params phi n i) (fun grain_params =>
      load_jobs phi n en' (put (i, grain_params) q))
  end.

(** "load the queue": [quats] is the table of quats.out, one quaternion
    per row, before the orchestrator transposes it. *)
Definition load_queue (quats : array2) (q : JoinableQueue)
    : result JoinableQueue :=
  let quatsT := transpose quats in
  let '(phi, n) := angleAxisOfRotMat (rotMatOfQuat quatsT) in
  load_jobs phi n (enumerate quats) q.

End Orchestrator.

(** ** The report grains.out *)

Definition header_items : list string :=
  [ "grain ID"; "completeness"; "sum(resd**2)/nrefl";
    "xi[0]"; "xi[1]"; "xi[2]"; "tVec_c[0]"; "tVec_c[1]"; "tVec_c[2]";
    "vInv_s[0]"; "vInv_s[1]"; "vInv_s[2]"; "vInv_s[4]*sqrt(2)";
    "vInv_s[5]*sqrt(2)"; "vInv_s[6]*sqrt(2)"; "ln(V[0,0])";
    "ln(V[1,1])"; "ln(V[2,2])"; "ln(V[1,2])"; "ln(V[0,2])"; "ln(V[0,1])" ]%string.

Definition len_items : list nat :=
  map (fun i => let temp := String.length i in
                if 14 <? temp then temp else 14)
      (tl header_items).

Definition newline : string := String (Ascii.ascii_of_nat 10) EmptyString.

Fixpoint spaces (n : nat) : string :=
  match n with
  | O => EmptyString
  | S n' => String " "%char (spaces n')
  end.

(** ['%<width>s' % s] *)
Definition fmt_s (width : nat) (s : string) : string :=
  (spaces (width - String.length s) ++ s)%string.

(** ['%<width>d' % n] for a non-negative integer *)
Definition fmt_d (width : nat) (n : nat) : string :=
  fmt_s width (NilEmpty.string_of_uint (Nat.to_uint n)).

Definition header_line : string :=
  ("#" ++ fmt_s 8 (hd EmptyString header_items) ++ "  "
   ++ String.concat "  " (zip_with fmt_s len_items (tl header_items))
   ++ newline)%string.

(** Python compares the result tuples lexicographically.  Different ids
    decide the comparison; equal ids send it to the two parameter arrays,
    where comparing numpy arrays of 12 entries raises ValueError. *)
Definition tuple_lt (a b : FitResult) : result bool :=
  if grain_id a =? grain_id b then Raise ValueError
  else Ok (grain_id a <? grain_id b).

(** [sorted(results)].  Python's sort is modelled by insertion with the
    same comparison. *)
Fixpoint insert_result (x : FitResult) (l : list FitResult)
    : result (list FitResult) :=
  match l with
  | [] => Ok [x]
  | y :: l' =>
      rbind (tuple_lt x y) (fun lt =>
      if lt then Ok (x :: y :: l')
      else rbind (insert_result x l') (fun r => Ok (y :: r)))
  end.

Fixpoint sorted (l : list FitResult) : result (list FitResult) :=
  match l with
  | [] => Ok []
  | x :: l' => rbind (sorted l') (insert_result x)
  end.

(** The floats of the tuple [res_items], after the id. *)
Definition res_items (r : FitResult) : result (list Q) :=
  rbind (collect (map (index1 (g_refined r)) (seq 0 12))) (fun g =>
  rbind (collect (map (fun ij => index2 (eMat r) (fst ij) (snd ij))
                      [(0, 0); (1, 1); (2, 2); (1, 2); (0, 2); (0, 1)]))
        (fun e =>
  Ok (compl r :: resd r :: g ++ e))).

Section Report.

Context {E : Externals}.

(** One data line: [fmtstr % res_items]. *)
Definition row_line (r : FitResult) : result string :=
  rbind (res_items r) (fun fl =>
  Ok (fmt_d 9 (grain_id r) ++ "  "
      ++ String.concat "  " (zip_with fmt_g len_items fl)
      ++ newline)%string).

(** The text written to grains.out for a result collection. *)
Definition report (results : list FitResult) : result string :=
  rbind (sorted results) (fun rows =>
  rbind (collect (map row_line rows)) (fun lines =>
  Ok (header_line ++ String.concat "" lines)%string)).

End Report.

(** ** The worker pool

    The processes share the queue, the result list and the spots files and
    each owns a deep copy of [pkwargs].  A process is between two calls of
    [loop] ([Idle]), has dequeued a job and is working on it ([Busy]), has
    left [run] on Empty ([Stopped]), or died on another exception with its
    job ([Crashed]).  The dequeue and the rest of [loop] are the atomic
    actions; a job's spots file is touched only by the process holding the
    job. *)

Inductive status : Type :=
| Idle
| Busy (j : job)
| Stopped
| Crashed (e : exn) (j : job).

Record system : Type := mkSystem {
  job_queue : JoinableQueue;
  results : list FitResult;
  files : gmap nat array2;
  workers : list (pkwargs * status)
}.

(** The objects process [p] sees, and the state after one of its actions. *)
Definition view (s : system) (p : pkwargs) : FitGrainsWorker :=
  mkWorker (job_queue s) (results s) (files s) p.

Definition commit (k : nat) (w : FitGrainsWorker) (st : status) (s : system)
    : system :=
  mkSystem (_jobs w) (_results w) (spots w) (<[k := (_p w, st)]> (workers s)).

Section Pool.

Context {E : Externals}.

(** The next action of process [k], if it has one. *)
Definition fire (k : nat) (s : system) : option system :=
  match workers s !! k with
  | Some (p, Idle) =>
      match get_nowait (view s p) with
      | (Ok j, w') => Some (commit k w' (Busy j) s)
      | (Raise _, w') => Some (commit k w' Stopped s)
      end
  | Some (p, Busy j) =>
      match process j (view s p) with
      | (Ok _, w') => Some (commit k w' Idle s)
      | (Raise e, w') => Some (commit k w' (Crashed e j) s)
      end
  | _ => None
  end.

Definition step (s s' : system) : Prop := exists k, fire k s = Some s'.

(** A schedule names the process that acts next. *)
Fixpoint exec (schedule : list nat) (s : system) : option system :=
  match schedule with
  | [] => Some s
  | k :: schedule' =>
      match fire k s with
      | Some s' => exec schedule' s'
      | None => None
      end
  end.

(** The state in which the orchestrator starts the processes: the queue
    loaded, no result, [cfg.multiprocessing] workers. *)
Definition start (cfg : config) (quats : array2) : result system :=
  rbind (load_queue quats (mkQueue [] 0)) (fun q =>
  Ok (mkSystem q [] ∅
        (replicate (multiprocessing cfg) (make_pkwargs cfg, Idle)))).

End Pool.

(** Grain ids of the jobs a process holds. *)
Definition held (st : status) : list nat :=
  match st with
  | Busy j => [fst j]
  | Crashed _ j => [fst j]
  | _ => []
  end.

Definition in_flight (ws : list (pkwargs * status)) : list nat :=
  flat_map (fun w => held (snd w)) ws.

(** No process holds a job. *)
Definition quiescent (ws : list (pkwargs * status)) : Prop :=
  Forall (fun w => snd w = Idle \/ snd w = Stopped) ws.

(** The orchestrator passes its wait loop and [job_queue.join()]. *)
Definition barrier (n_quats : nat) (s : system) : Prop :=
  length (results s) = n_quats /\ unfinished_tasks (job_queue s) = 0.

(** ** Sample implementations of the imported routines and sample data

    They serve to run the model on concrete inputs.  The numerical routines
    are simple rational stand-ins of the right shape. *)

Module Sample.

Definition entry (m : array2) (i j : nat) : Q := nth j (nth i m []) 0%Q.

Definition det3 (m : array2) : Q :=
  (entry m 0 0 * (entry m 1 1 * entry m 2 2 - entry m 1 2 * entry m 2 1)
   - entry m 0 1 * (entry m 1 0 * entry m 2 2 - entry m 1 2 * entry m 2 0)
   + entry m 0 2 * (entry m 1 0 * entry m 2 1 - entry m 1 1 * entry m 2 0))%Q.

(** The inverse of a 3 x 3 matrix by its adjugate. *)
Definition inv3 (m : array2) : array2 :=
  let d := det3 m in
  let c (a b c' d' : Q) := Qred ((a * b - c' * d') / d) in
  [ [ c (entry m 1 1) (entry m 2 2) (entry m 1 2) (entry m 2 1);
      c (entry m 0 2) (entry m 2 1) (entry m 0 1) (entry m 2 2);
      c (entry m 0 1) (entry m 1 2) (entry m 0 2) (entry m 1 1) ];
    [ c (entry m 1 2) (entry m 2 0) (entry m 1 0) (entry m 2 2);
      c (entry m 0 0) (entry m 2 2) (entry m 0 2) (entry m 2 0);
      c (entry m 0 2) (entry m 1 0) (entry m 0 0) (entry m 1 2) ];
    [ c (entry m 1 0) (entry m 2 1) (entry m 1 1) (entry m 2 0);
      c (entry m 0 1) (entry m 2 0) (entry m 0 0) (entry m 2 1);
      c (entry m 0 0) (entry m 1 1) (entry m 0 1) (entry m 1 0) ] ].

(** First-order term of the logarithm series, [M - I]. *)
Definition log1 (m : array2) : array2 :=
  imap (fun i r => imap (fun j x => Qred (x - (if i =? j then 1 else 0))) r) m.

(** The symmetric matrix of a 6-vector, shears taken with factor 1. *)
Definition symm (v : array1) : array2 :=
  let a k := nth k v 0%Q in
  [ [a 0; a 5; a 4]; [a 5; a 1; a 3]; [a 4; a 3; a 2] ].

(** One spots row of 10 columns: id, hkl, predicted tth, eta, omega,
    measured x, y, omega. *)
Definition row (id ome : Q) : list Q :=
  [id; 1; 0; 0; 1 # 10; 0; ome; 5; 7; ome]%Q.

(** 16 rows: 14 valid inside the scan, one not indexed (id -999), one at
    omega 0, inside the two-step margin at the scan start. *)
Definition big_table : array2 :=
  map (fun k => row (inject_Z (Z.of_nat k))
                    (Qred (1 + inject_Z (Z.of_nat k) / 4)))
      (seq 0 14)
  ++ [row (-999) 2; row 14 0].

(** 3 rows, 2 of them valid inside the scan. *)
Definition small_table : array2 := [row 0 1; row 1 2; row (-999) 3].

Definition q_str (x : Q) : string :=
  (NilEmpty.string_of_int (Z.to_int (Qnum x)) ++ "/"
   ++ NilEmpty.string_of_uint (Pos.to_uint (Qden x)))%string.

Definition externals : Externals := {|
  radians x := (x * (355 # 20340))%Q;
  mapAngle ang period := ang;
  pullSpots gp it :=
    let g0 := nth 0 gp 0%Q in
    if Qeq_bool g0 0 || (Qeq_bool g0 1 && (it =? 0))
    then big_table else small_table;
  fitGrain xyo hk expmap tvec vinv flags scl period :=
    expmap ++ tvec ++ <[3 := (1 # 10)%Q]> vinv;
  objFuncFitGrain gFit gFull flags xyo hk period simOnly :=
    if simOnly then [] else flat_map (fun _ => [1 # 2; 0; 0]%Q) xyo;
  logm := log1;
  inv := inv3;
  vecMVToSymm := symm;
  rotMatOfQuat quatsT := map (fun q => [q]) (transpose quatsT);
  angleAxisOfRotMat rmats :=
    (map (fun r => entry r 0 0) rmats,
     [ map (fun r => entry r 0 1) rmats;
       map (fun r => entry r 0 2) rmats;
       map (fun r => entry r 0 3) rmats ]);
  fmt_g width x := fmt_s width (q_str x)
|}.

Definition cfg : config :=
  mkConfig 0 (1 # 4) 1440 [-(355 # 113); 355 # 113]%Q 2.

Definition p0 : pkwargs := make_pkwargs cfg.

Definition quats : array2 := [ [0; 1; 0; 0]; [1; 1; 0; 0]; [2; 1; 0; 0] ]%Q.

(** A worker that has dequeued nothing yet, with the three jobs loaded. *)
Definition worker0 : FitGrainsWorker :=
  match load_queue (E := externals) quats (mkQueue [] 0) with
  | Ok q => mkWorker q [] ∅ p0
  | Raise _ => mkWorker (mkQueue [] 0) [] ∅ p0
  end.

End Sample.

(** * Properties *)

(** ** Arrays and masks *)

Lemma sum_bool_acc (idx : list bool) (a : nat) :
  fold_left (fun acc (b : bool) => acc + (if b then 1 else 0)) idx a
  = a + sum_bool idx.
Proof.
  unfold sum_bool. revert a.
  induction idx as [|b idx IH]; intros a; simpl; [lia|].
  rewrite (IH (a + _)), (IH (if b then 1 else 0)). lia.
Qed.

Lemma sum_bool_cons (b : bool) (idx : list bool) :
  sum_bool (b :: idx) = (if b then 1 else 0) + sum_bool idx.
Proof. unfold sum_bool at 1. simpl. apply sum_bool_acc. Qed.

Lemma sum_bool_count (idx : list bool) :
  sum_bool idx = length (List.filter (fun b => b) idx).
Proof.
  induction idx as [|b idx IH]; [reflexivity|].
  rewrite sum_bool_cons, IH. destruct b; reflexivity.
Qed.

Lemma sum_bool_le (idx : list bool) : sum_bool idx <= length idx.
Proof.
  induction idx as [|b idx IH]; [reflexivity|].
  rewrite sum_bool_cons. destruct b; simpl; lia.
Qed.

Lemma column_ok (k : nat) (a : array2) (c : array1) :
  column k a = Ok c -> c = map (fun r => nth k r 0%Q) a.
Proof.
  unfold column. destruct (forallb _ a); [|discriminate].
  intros H. injection H as <-. reflexivity.
Qed.

(** ** Loading a spots file *)

(** The table [fit_grains] works on: what [np.loadtxt] returns for the
    lines of the file, used with two subscripts. *)
Definition load_table (lines : array2) : result array2 :=
  rbind (np_loadtxt lines) two_dim.

Lemma data_lines_id (t : array2) :
  Forall (fun r => 0 < length r) t -> data_lines t = t.
Proof.
  unfold data_lines. induction 1 as [|r t Hr _ IH]; [reflexivity|].
  simpl. destruct (length r) eqn:Hl; [lia|]. simpl. f_equal. exact IH.
Qed.

Lemma data_lines_length (lines : array2) :
  length (data_lines lines) <= length lines.
Proof.
  unfold data_lines. induction lines as [|r t IH]; simpl; [lia|].
  destruct (negb _); simpl; lia.
Qed.

(** Fewer than two data lines: one dimension at most, and the first
    [gtable[:, 0]] raises IndexError. *)
Lemma load_table_few (lines : array2) :
  length (data_lines lines) < 2 -> load_table lines = Raise IndexError.
Proof.
  unfold load_table, np_loadtxt. intros H.
  destruct (data_lines lines) as [|r [|r' X]]; simpl in *;
    [reflexivity | reflexivity | lia].
Qed.

(** Lines of different lengths: [np.loadtxt] raises ValueError. *)
Lemma load_table_ragged (lines : array2) :
  same_columns (data_lines lines) = false ->
  load_table lines = Raise ValueError.
Proof. unfold load_table, np_loadtxt. intros ->. reflexivity. Qed.

(** At least two lines, all of one length, with at least two columns: the
    table is the file. *)
Lemma load_table_ok (t : array2) :
  2 <= length t -> same_columns t = true ->
  Forall (fun r => 2 <= length r) t ->
  load_table t = Ok t.
Proof.
  intros Hlen Hsame Hcols. unfold load_table, np_loadtxt.
  rewrite data_lines_id
    by (eapply Forall_impl; [exact Hcols|]; simpl; intros; lia).
  rewrite Hsame. simpl.
  destruct t as [|r [|r' X]]; simpl in Hlen; try lia.
  apply Forall_cons in Hcols as [Hr _]. simpl.
  destruct (Nat.eqb_spec (length r) 1) as [H1|_]; [lia|reflexivity].
Qed.

Lemma load_table_inv (lines t : array2) :
  load_table lines = Ok t ->
  t = data_lines lines /\ 2 <= length t /\ same_columns t = true.
Proof.
  unfold load_table, np_loadtxt.
  destruct (same_columns (data_lines lines)) eqn:Hsame; [|discriminate].
  simpl. destruct (data_lines lines) as [|r [|r' X]]; simpl;
    try discriminate.
  destruct (length r =? 1); simpl; [discriminate|].
  intros H. injection H as <-. simpl. split; [reflexivity|].
  split; [lia | exact Hsame].
Qed.

Lemma load_table_raise (lines : array2) (e : exn) :
  load_table lines = Raise e -> e = IndexError \/ e = ValueError.
Proof.
  unfold load_table, np_loadtxt.
  destruct (same_columns (data_lines lines));
    [|simpl; intros H; injection H as <-; auto].
  simpl. destruct (squeeze (data_lines lines)); simpl; [|discriminate].
  intros H. injection H as <-. auto.
Qed.

Section WorkerFacts.

Context {E : Externals}.

Lemma refl_idx_ok(p : pkwargs) (gtable : array2) (idx : list bool) :
  refl_idx p gtable = Ok idx ->
  idx = map (fun r => Qle_bool 0 (nth 0 r 0%Q) && in_scan p (nth 6 r 0%Q))
            gtable.
Proof.
  unfold refl_idx. intros H.
  destruct (column 0 gtable) as [ids|] eqn:E0; [|discriminate].
  destruct (column 6 gtable) as [ome|] eqn:E6; [|discriminate].
  simpl in H. injection H as <-.
  rewrite (column_ok _ _ _ E0), (column_ok _ _ _ E6).
  clear. induction gtable as [|r t IH]; [reflexivity|].
  simpl. f_equal. exact IH.
Qed.

Lemma refl_idx_length (p : pkwargs) (gtable : array2) (idx : list bool) :
  refl_idx p gtable = Ok idx -> length idx = length gtable.
Proof.
  intros H. rewrite (refl_idx_ok _ _ _ H). apply length_map.
Qed.

Lemma refl_idx_rows (p : pkwargs) (t : array2) (idx : list bool) :
  refl_idx p t = Ok idx -> Forall (fun r => 7 <= length r) t.
Proof.
  unfold refl_idx, column. intros H.
  destruct (forallb (fun r => 0 <? length r) t); [|discriminate].
  simpl in H.
  destruct (forallb (fun r => 6 <? length r) t) eqn:H6; [|discriminate].
  apply Forall_forall. intros r Hr. rewrite forallb_forall in H6.
  apply list_elem_of_In, H6, Nat.ltb_lt in Hr. lia.
Qed.

(** A file of at least two lines of one length whose columns 0 and 6 exist
    is loaded as the table of its lines. *)
Lemma table_loads (p : pkwargs) (t : array2) (idx : list bool) :
  same_columns t = true -> refl_idx p t = Ok idx -> 2 <= length t ->
  load_table t = Ok t.
Proof.
  intros Hsame Hidx Hlen. apply load_table_ok; [exact Hlen | exact Hsame|].
  eapply Forall_impl; [exact (refl_idx_rows _ _ _ Hidx)|].
  simpl. intros. lia.
Qed.

(** The scan window, shrunk by two steps at each end, on a predicted
    omega; the bounds are converted from degrees as the code does. *)
Definition scan_window (p : pkwargs) (pred_ome : Q) : Prop :=
  let lo := radians (omega_start p + 2 * omega_step p) in
  let hi := radians (omega_stop p - 2 * omega_step p) in
  ((omega_step p < 0)%Q /\ (pred_ome < lo)%Q /\ (hi < pred_ome)%Q)
  \/ ((0 <= omega_step p)%Q /\ (lo < pred_ome)%Q /\ (pred_ome < hi)%Q).

Lemma in_scan_window (p : pkwargs) (pred_ome : Q) :
  in_scan p pred_ome = true <-> scan_window p pred_ome.
Proof.
  unfold in_scan, scan_window.
  destruct (Qltb (omega_step p) 0) eqn:Hs;
    rewrite andb_true_iff, !Qltb_lt.
  - apply Qltb_lt in Hs. split; [intros H; left; tauto|].
    intros [H|[H _]]; [tauto|]. exfalso. exact (Qlt_not_le _ _ Hs H).
  - assert (Hge : (0 <= omega_step p)%Q).
    { apply Qnot_lt_le. intros H. apply Qltb_lt in H. congruence. }
    split; [intros H; right; tauto|].
    intros [[H _]|H]; [|tauto]. exfalso. exact (Qlt_not_le _ _ H Hge).
Qed.

(** What one call of [fit_grains] does once the spots file is there, is
    loaded as a table, and the columns 0 and 6 of the table exist. *)
Definition stored (p : pkwargs) (idx : list bool) (gtable : array2)
    (w : FitGrainsWorker) : FitGrainsWorker :=
  with_p (set_xyo_det (centroids p idx gtable)
            (set_hkls (hkl_columns (select_rows idx gtable)) p)) w.

Lemma fit_grains_load (id : nat) (gp : array1) (w : FitGrainsWorker)
    (lines : array2) :
  spots w !! id = Some lines ->
  fit_grains id gp w
  = bind (lift (load_table lines))
      (fun gtable =>
         bind (lift (refl_idx (_p w) gtable))
           (fun idx w' =>
              (Ok (if sum_bool idx <=? 12 then (gp, 0%Q)
                   else (fitGrain (centroids (_p w) idx gtable)
                           (hkl_columns (select_rows idx gtable))
                           (firstn 3 gp) (firstn 3 (skipn 3 gp))
                           (skipn 6 gp) gFlag gScl (omega_period (_p w)),
                         completeness_of idx)),
               stored (_p w) idx gtable w'))) w.
Proof.
  intros Hf.
  unfold fit_grains, bind, gets, loadtxt, lift, modify, ret, load_table.
  rewrite Hf. destruct (np_loadtxt lines) as [[v|t]|e]; simpl; try reflexivity.
  destruct (refl_idx (_p w) t) as [idx|e]; simpl; [|reflexivity].
  destruct (sum_bool idx <=? 12); reflexivity.
Qed.

Lemma fit_grains_eq (id : nat) (gp : array1) (w : FitGrainsWorker)
    (lines gtable : array2) (idx : list bool) :
  spots w !! id = Some lines ->
  load_table lines = Ok gtable ->
  refl_idx (_p w) gtable = Ok idx ->
  fit_grains id gp w =
    (Ok (if sum_bool idx <=? 12 then (gp, 0%Q)
         else (fitGrain (centroids (_p w) idx gtable)
                        (hkl_columns (select_rows idx gtable))
                        (firstn 3 gp) (firstn 3 (skipn 3 gp)) (skipn 6 gp)
                        gFlag gScl (omega_period (_p w)),
               completeness_of idx)),
     stored (_p w) idx gtable w).
Proof.
  intros Hf Hl Hi. rewrite (fit_grains_load _ _ _ _ Hf).
  unfold bind, lift. rewrite Hl, Hi. reflexivity.
Qed.

(** A file that gives no table, or a table without its columns. *)
Lemma fit_grains_raise (id : nat) (gp : array1) (w : FitGrainsWorker)
    (lines : array2) (e : exn) :
  spots w !! id = Some lines ->
  rbind (load_table lines) (refl_idx (_p w)) = Raise e ->
  fit_grains id gp w = (Raise e, w).
Proof.
  intros Hf Hi. rewrite (fit_grains_load _ _ _ _ Hf). unfold bind, lift.
  destruct (load_table lines) as [t|e']; simpl in Hi.
  - rewrite Hi. reflexivity.
  - injection Hi as <-. reflexivity.
Qed.

End WorkerFacts.

(** ** One refinement stage *)

Section Stage.

Context {E : Externals}.

(** The state in which a stage's association leaves the worker: spots
    file written, 'hkls' and 'xyo_det' stored. *)
Definition associated (id : nat) (lines gtable : array2) (idx : list bool)
    (w : FitGrainsWorker) : FitGrainsWorker :=
  stored (_p w) idx gtable (with_spots (<[id := lines]> (spots w)) w).

Lemma stage_eq (it : nat) (rest : list nat) (id : nat) (gp : array1)
    (w : FitGrainsWorker) (gtable : array2) (idx : list bool) :
  load_table (pullSpots gp it) = Ok gtable ->
  refl_idx (_p w) gtable = Ok idx ->
  stages it rest id gp w =
    if sum_bool idx <=? 12
    then (Ok (gp, 0%Q), associated id (pullSpots gp it) gtable idx w)
    else
      let gp' := fitGrain (centroids (_p w) idx gtable)
                          (hkl_columns (select_rows idx gtable))
                          (firstn 3 gp) (firstn 3 (skipn 3 gp)) (skipn 6 gp)
                          gFlag gScl (omega_period (_p w)) in
      let w' := associated id (pullSpots gp it) gtable idx w in
      if Qeq_bool (completeness_of idx) 0
      then (Ok (gp', completeness_of idx), w')
      else match rest with
           | [] => (Ok (gp', completeness_of idx), w')
           | it' :: rest' => stages it' rest' id gp' w'
           end.
Proof.
  intros Hload Hidx.
  assert (Hfit := fun gq => fit_grains_eq id gq
            (with_spots (<[id := pullSpots gp it]> (spots w)) w)
            (pullSpots gp it) gtable idx (lookup_insert_eq _ _ _) Hload Hidx).
  destruct rest as [|it' rest']; simpl;
    unfold bind, pull_spots, modify; rewrite Hfit;
    destruct (sum_bool idx <=? 12); simpl; try reflexivity;
    destruct (Qeq_bool (completeness_of idx) 0); reflexivity.
Qed.

Lemma stage_exit (it id : nat) (gp : array1) (w : FitGrainsWorker)
    (gtable : array2) (idx : list bool) :
  load_table (pullSpots gp it) = Ok gtable ->
  refl_idx (_p w) gtable = Ok idx ->
  sum_bool idx <= 12 ->
  forall rest,
    stages it rest id gp w
    = (Ok (gp, 0%Q), associated id (pullSpots gp it) gtable idx w).
Proof.
  intros Hload Hidx Hle rest. rewrite (stage_eq _ _ _ _ _ _ _ Hload Hidx).
  apply Nat.leb_le in Hle. rewrite Hle. reflexivity.
Qed.

(** A stage whose file gives no table, or a table without its columns,
    raises right after the file is written. *)
Lemma stage_raise (it id : nat) (gp : array1) (w : FitGrainsWorker)
    (e : exn) :
  rbind (load_table (pullSpots gp it)) (refl_idx (_p w)) = Raise e ->
  forall rest,
    stages it rest id gp w
    = (Raise e, with_spots (<[id := pullSpots gp it]> (spots w)) w).
Proof.
  intros Hr rest.
  assert (Hfit := fun gq => fit_grains_raise id gq
            (with_spots (<[id := pullSpots gp it]> (spots w)) w)
            (pullSpots gp it) e (lookup_insert_eq _ _ _) Hr).
  destruct rest as [|it' rest']; simpl;
    unfold bind, pull_spots, modify; rewrite Hfit; reflexivity.
Qed.

End Stage.

Lemma lookup_map {A B} (f : A -> B) (l : list A) (k : nat) (x : A) :
  l !! k = Some x -> map f l !! k = Some (f x).
Proof.
  revert k. induction l as [|a l IH]; intros [|k] H; simpl in *;
    try discriminate.
  - injection H as ->. reflexivity.
  - apply IH. exact H.
Qed.

Section StageClaims.

Context {E : Externals}.

(** C5.  In a refinement stage, row [k] of the spots table is counted as a
    valid reflection exactly when its flag (column 0) is non-negative and
    its predicted omega (column 6) lies strictly inside the scan range
    shrunk by two steps at each end: above [start + 2 step] and below
    [stop - 2 step] for a non-negative step, the inequalities reversed for
    a negative step.  The count compared with 12 is the number of such
    rows. *)
Theorem valid_reflection_window (p : pkwargs) (gtable : array2)
    (idx : list bool) :
  refl_idx p gtable = Ok idx ->
  length idx = length gtable
  /\ sum_bool idx = length (List.filter (fun b => b) idx)
  /\ forall k row, gtable !! k = Some row ->
       (idx !! k = Some true
        <-> (0 <= nth 0 row 0)%Q /\ scan_window p (nth 6 row 0%Q)).
Proof.
  intros H. split; [exact (refl_idx_length _ _ _ H)|].
  split; [apply sum_bool_count|].
  intros k row Hrow. rewrite (refl_idx_ok _ _ _ H).
  rewrite (lookup_map _ _ _ _ Hrow).
  rewrite <- in_scan_window, <- Qle_bool_iff.
  rewrite <- andb_true_iff. split; [congruence|intros ->; reflexivity].
Qed.

Lemma completeness_bounds (idx : list bool) :
  0 < sum_bool idx ->
  (0 < completeness_of idx)%Q /\ (completeness_of idx <= 1)%Q.
Proof.
  intros Hpos. unfold completeness_of.
  assert (Hle := sum_bool_le idx).
  assert (Hlen : (0 < inject_Z (Z.of_nat (length idx)))%Q).
  { change 0%Q with (inject_Z 0). rewrite <- Zlt_Qlt. lia. }
  split.
  - apply Qlt_shift_div_l; [exact Hlen|]. rewrite Qmult_0_l.
    change 0%Q with (inject_Z 0). rewrite <- Zlt_Qlt. lia.
  - apply Qle_shift_div_r; [exact Hlen|]. rewrite Qmult_1_l.
    rewrite <- Zle_Qle. lia.
Qed.

(** C3.  When a stage runs the fit (more than 12 valid reflections in a
    spots table, which is a file whose lines have one length), the
    completeness it returns is the number of valid reflections divided by
    the number of rows of the stage's spots table, and lies in [0, 1]. *)
Theorem completeness_ratio (id : nat) (gp : array1) (w : FitGrainsWorker)
    (gtable : array2) (idx : list bool) :
  spots w !! id = Some gtable ->
  same_columns gtable = true ->
  refl_idx (_p w) gtable = Ok idx ->
  12 < sum_bool idx ->
  exists gp' c,
    fst (fit_grains id gp w) = Ok (gp', c)
    /\ c = (inject_Z (Z.of_nat (sum_bool idx))
            / inject_Z (Z.of_nat (length gtable)))%Q
    /\ (0 <= c)%Q /\ (c <= 1)%Q.
Proof.
  intros Hf Hsame Hi Hn.
  assert (Hload : load_table gtable = Ok gtable).
  { apply (table_loads _ _ _ Hsame Hi).
    rewrite <- (refl_idx_length _ _ _ Hi).
    pose proof (sum_bool_le idx). lia. }
  rewrite (fit_grains_eq _ _ _ _ _ _ Hf Hload Hi).
  destruct (Nat.leb_spec (sum_bool idx) 12) as [Hle|_]; [lia|].
  eexists _, _. split; [reflexivity|].
  destruct (completeness_bounds idx) as [H0 H1]; [lia|].
  split; [|split; [apply Qlt_le_weak; exact H0 | exact H1]].
  unfold completeness_of. rewrite (refl_idx_length _ _ _ Hi). reflexivity.
Qed.

(** The early exit, where the stage's file is loaded as a table with its
    columns: if the association leaves at most 12 valid reflections, the
    stage returns completeness 0 and the parameters it was given, and the
    loop over the stages ends there: whatever stages [rest] were still to
    come, the worker goes on to the finalization with these parameters and
    the state the association left. *)
Lemma early_exit (it id : nat) (gp : array1) (w : FitGrainsWorker)
    (gtable : array2) (idx : list bool) :
  load_table (pullSpots gp it) = Ok gtable ->
  refl_idx (_p w) gtable = Ok idx ->
  sum_bool idx <= 12 ->
  let w1 := with_spots (<[id := pullSpots gp it]> (spots w)) w in
  let w2 := associated id (pullSpots gp it) gtable idx w in
  fit_grains id gp w1 = (Ok (gp, 0%Q), w2)
  /\ (forall rest, stages it rest id gp w = (Ok (gp, 0%Q), w2))
  /\ (forall rest,
        bind (stages it rest id gp)
             (fun r => finalize id (fst r) (snd r)) w
        = finalize id gp 0%Q w2).
Proof.
  intros Hload Hidx Hle w1 w2.
  assert (Hb : (sum_bool idx <=? 12) = true) by (apply Nat.leb_le; exact Hle).
  assert (Hst := stage_exit it id gp w gtable idx Hload Hidx Hle).
  fold w2 in Hst.
  split; [|split].
  - unfold w1.
    rewrite (fit_grains_eq id gp _ (pullSpots gp it) gtable idx).
    + rewrite Hb. reflexivity.
    + apply lookup_insert_eq.
    + exact Hload.
    + exact Hidx.
  - exact Hst.
  - intros rest. unfold bind at 1. rewrite Hst. reflexivity.
Qed.

(** C1.  The early exit is missed for a spots file of fewer than two data
    lines.  Such a file holds at most one reflection, so at most 12 valid
    ones, but [np.loadtxt] returns it with fewer than two dimensions and
    [gtable[:, 0]] raises IndexError: the stage returns neither
    completeness 0 nor the parameters, the worker does not reach the
    finalization, and nothing but the spots file has changed. *)
Theorem too_few_rows_no_early_exit (it id : nat) (gp : array1)
    (w : FitGrainsWorker) :
  length (data_lines (pullSpots gp it)) < 2 ->
  let w1 := with_spots (<[id := pullSpots gp it]> (spots w)) w in
  (forall idx, refl_idx (_p w) (data_lines (pullSpots gp it)) = Ok idx ->
               sum_bool idx <= 12)
  /\ fit_grains id gp w1 = (Raise IndexError, w1)
  /\ (forall rest, stages it rest id gp w = (Raise IndexError, w1))
  /\ (forall rest,
        bind (stages it rest id gp)
             (fun r => finalize id (fst r) (snd r)) w
        = (Raise IndexError, w1)).
Proof.
  intros Hfew w1.
  assert (Hr : rbind (load_table (pullSpots gp it)) (refl_idx (_p w))
               = Raise IndexError)
    by (rewrite (load_table_few _ Hfew); reflexivity).
  split; [|split; [|split]].
  - intros idx Hidx. apply refl_idx_length in Hidx.
    pose proof (sum_bool_le idx). lia.
  - apply (fit_grains_raise id gp w1 (pullSpots gp it));
      [apply lookup_insert_eq | exact Hr].
  - exact (stage_raise it id gp w _ Hr).
  - intros rest. unfold bind at 1.
    rewrite (stage_raise it id gp w _ Hr rest). reflexivity.
Qed.

(** The early exit at the worker's second stage: the first stage has
    fitted [gp1]; the second association leaves too few reflections, and
    [gp1] goes to the finalization with completeness 0. *)
Lemma second_stage_exit (id : nat) (gp : array1) (w : FitGrainsWorker)
    (t0 t1 : array2) (idx0 idx1 : list bool) :
  load_table (pullSpots gp 0) = Ok t0 ->
  refl_idx (_p w) t0 = Ok idx0 ->
  12 < sum_bool idx0 ->
  let gp1 := fitGrain (centroids (_p w) idx0 t0)
                      (hkl_columns (select_rows idx0 t0))
                      (firstn 3 gp) (firstn 3 (skipn 3 gp)) (skipn 6 gp)
                      gFlag gScl (omega_period (_p w)) in
  let w1 := associated id (pullSpots gp 0) t0 idx0 w in
  load_table (pullSpots gp1 1) = Ok t1 ->
  refl_idx (_p w1) t1 = Ok idx1 ->
  sum_bool idx1 <= 12 ->
  process (id, gp) w
  = finalize id gp1 0%Q (associated id (pullSpots gp1 1) t1 idx1 w1).
Proof.
  intros Hl0 Hidx0 Hn gp1 w1 Hl1 Hidx1 Hle.
  unfold process, bind. simpl fst. simpl snd.
  rewrite (stage_eq _ _ _ _ _ _ _ Hl0 Hidx0).
  destruct (Nat.leb_spec (sum_bool idx0) 12) as [H|_]; [lia|].
  destruct (completeness_bounds idx0) as [Hpos _]; [lia|].
  destruct (Qeq_bool (completeness_of idx0) 0) eqn:Hz.
  { apply Qeq_bool_eq in Hz. rewrite Hz in Hpos.
    exfalso. exact (Qlt_irrefl _ Hpos). }
  cbv zeta. fold gp1. fold w1.
  rewrite (stage_exit 1 id gp1 w1 t1 idx1 Hl1 Hidx1 Hle []). reflexivity.
Qed.

End StageClaims.

(** *** The stage claims on the sample data *)

Definition sample_idx_big : list bool :=
  [true; true; true; true; true; true; true; true; true; true; true;
   true; true; true; false; false].

Definition sample_idx_small : list bool := [true; true; false].

Lemma valid_reflection_window_sample :
  refl_idx (E := Sample.externals) Sample.p0 Sample.big_table
    = Ok sample_idx_big
  /\ (length sample_idx_big = length Sample.big_table
      /\ sum_bool sample_idx_big
         = length (List.filter (fun b => b) sample_idx_big)
      /\ forall k row, Sample.big_table !! k = Some row ->
           (sample_idx_big !! k = Some true
            <-> (0 <= nth 0 row 0)%Q
                /\ scan_window (E := Sample.externals) Sample.p0
                     (nth 6 row 0%Q))).
Proof.
  split.
  - vm_compute. reflexivity.
  - apply (valid_reflection_window (E := Sample.externals)).
    vm_compute. reflexivity.
Defined.

(** A worker whose spots file for grain 0 holds the big sample table. *)
Definition sample_worker_big : FitGrainsWorker :=
  with_spots {[ 0 := Sample.big_table ]} Sample.worker0.

Lemma completeness_ratio_sample :
  (spots sample_worker_big !! 0 = Some Sample.big_table
   /\ same_columns Sample.big_table = true
   /\ refl_idx (E := Sample.externals) (_p sample_worker_big)
        Sample.big_table = Ok sample_idx_big
   /\ 12 < sum_bool sample_idx_big)
  /\ exists gp' c,
       fst (fit_grains (E := Sample.externals) 0
              [0; 0; 0; 0; 0; 0; 1; 1; 1; 0; 0; 0]%Q sample_worker_big)
         = Ok (gp', c)
       /\ c = (inject_Z (Z.of_nat (sum_bool sample_idx_big))
               / inject_Z (Z.of_nat (length Sample.big_table)))%Q
       /\ (0 <= c)%Q /\ (c <= 1)%Q.
Proof.
  assert (H1 : spots sample_worker_big !! 0 = Some Sample.big_table)
    by (vm_compute; reflexivity).
  assert (H0 : same_columns Sample.big_table = true)
    by (vm_compute; reflexivity).
  assert (H2 : refl_idx (E := Sample.externals) (_p sample_worker_big)
                 Sample.big_table = Ok sample_idx_big)
    by (vm_compute; reflexivity).
  assert (H3 : 12 < sum_bool sample_idx_big) by (vm_compute; lia).
  split; [split; [exact H1 | split; [exact H0 | split; [exact H2 | exact H3]]]|].
  exact (completeness_ratio (E := Sample.externals) 0 _ _ _ _ H1 H0 H2 H3).
Defined.

Definition sample_gp2 : array1 := [2; 0; 0; 0; 0; 0; 1; 1; 1; 0; 0; 0]%Q.

Example sample_early_exit :
  let w2 := associated (E := Sample.externals) 2 Sample.small_table
              Sample.small_table sample_idx_small Sample.worker0 in
  (forall rest,
     stages (E := Sample.externals) 0 rest 2 sample_gp2 Sample.worker0
     = (Ok (sample_gp2, 0%Q), w2))
  /\ process (E := Sample.externals) (2, sample_gp2) Sample.worker0
     = finalize (E := Sample.externals) 2 sample_gp2 0%Q w2.
Proof.
  assert (H0 : load_table
                 (pullSpots (Externals := Sample.externals) sample_gp2 0)
               = Ok Sample.small_table)
    by (vm_compute; reflexivity).
  assert (H1 : refl_idx (E := Sample.externals) (_p Sample.worker0)
                 Sample.small_table = Ok sample_idx_small)
    by (vm_compute; reflexivity).
  assert (H2 : sum_bool sample_idx_small <= 12) by (vm_compute; lia).
  destruct (early_exit (E := Sample.externals) 0 2 sample_gp2
              Sample.worker0 _ sample_idx_small H0 H1 H2) as (_ & Hst & Hfin).
  split; [exact Hst | exact (Hfin [1])].
Qed.

(** The sample routines with a [pullSpots] that writes the given lines,
    whatever the grain. *)
Definition sample_externals_with (lines : array2) : Externals := {|
  radians := radians (Externals := Sample.externals);
  mapAngle := mapAngle (Externals := Sample.externals);
  pullSpots gp it := lines;
  fitGrain := fitGrain (Externals := Sample.externals);
  objFuncFitGrain := objFuncFitGrain (Externals := Sample.externals);
  logm := logm (Externals := Sample.externals);
  inv := inv (Externals := Sample.externals);
  vecMVToSymm := vecMVToSymm (Externals := Sample.externals);
  rotMatOfQuat := rotMatOfQuat (Externals := Sample.externals);
  angleAxisOfRotMat := angleAxisOfRotMat (Externals := Sample.externals);
  fmt_g := fmt_g (Externals := Sample.externals)
|}.

(** [pullSpots] finds one reflection: the spots file has one data line. *)
Definition sample_externals_one_row : Externals :=
  sample_externals_with [Sample.row 0 1].

Definition sample_worker_one_row : FitGrainsWorker :=
  with_spots {[ 2 := [Sample.row 0 1] ]} Sample.worker0.

Lemma too_few_rows_no_early_exit_sample :
  length (data_lines
            (pullSpots (Externals := sample_externals_one_row) sample_gp2 0))
    < 2
  /\ refl_idx (E := sample_externals_one_row) (_p Sample.worker0)
       [Sample.row 0 1] = Ok [true]
  /\ (forall rest,
        stages (E := sample_externals_one_row) 0 rest 2 sample_gp2
          Sample.worker0
        = (Raise IndexError, sample_worker_one_row))
  /\ process (E := sample_externals_one_row) (2, sample_gp2) Sample.worker0
     = (Raise IndexError, sample_worker_one_row).
Proof.
  assert (H : length (data_lines
                        (pullSpots (Externals := sample_externals_one_row)
                           sample_gp2 0)) < 2)
    by (vm_compute; lia).
  split; [exact H|]. split; [vm_compute; reflexivity|].
  destruct (too_few_rows_no_early_exit (E := sample_externals_one_row)
              0 2 sample_gp2 Sample.worker0 H) as (_ & _ & Hst & Hfin).
  split; [exact Hst | exact (Hfin [1])].
Defined.

Example sample_second_stage_exit :
  exists w',
    process (E := Sample.externals)
      (1, [1; 0; 0; 0; 0; 0; 1; 1; 1; 0; 0; 0]%Q) Sample.worker0
      = (Ok tt, w')
    /\ map g_refined (_results w')
       = [[1; 0; 0; 0; 0; 0; 1; 1; 1; 1 # 10; 0; 0]%Q]
    /\ map compl (_results w') = [0%Q].
Proof. eexists. vm_compute. repeat split; reflexivity. Qed.

(** ** Finalization and the whole of [loop] *)

Section LoopFacts.

Context {E : Externals}.

(** The result tuple [loop] builds from the final parameters, the
    completeness and the reflection data stored in [_p]. *)
Definition result_of (id : nat) (gp : array1) (c : Q) (p : pkwargs)
    (xyo hk : array2) : FitResult :=
  mkFitResult id gp c
    (logm (inv (vecMVToSymm (skipn 6 gp))))
    (sum_sq (objFuncFitGrain (select gFlag gp) gp gFlag xyo hk
                             (omega_period p) false)).

Lemma finalize_eq (id : nat) (gp : array1) (c : Q) (w : FitGrainsWorker)
    (xyo hk : array2) :
  xyo_det (_p w) = Some xyo ->
  hkls (_p w) = Some hk ->
  finalize id gp c w =
    task_done
      (with_results (_results w ++ [result_of id gp c (_p w) xyo hk]) w).
Proof.
  intros Hx Hh. unfold finalize, bind, getitem, gets, modify.
  rewrite Hx, Hh. reflexivity.
Qed.

Lemma refl_idx_raise (p : pkwargs) (t : array2) (e : exn) :
  refl_idx p t = Raise e -> e = IndexError.
Proof.
  unfold refl_idx, column.
  destruct (forallb _ t); simpl; [|congruence].
  destruct (forallb _ t); simpl; congruence.
Qed.

(** What a computation leaves alone: the queue and the result list; it
    does not raise Empty; when it returns, 'hkls' and 'xyo_det' are set. *)
Definition association_only {A} (m : M A) : Prop :=
  forall w,
    _jobs (snd (m w)) = _jobs w
    /\ _results (snd (m w)) = _results w
    /\ match fst (m w) with
       | Ok _ => is_Some (hkls (_p (snd (m w))))
                 /\ is_Some (xyo_det (_p (snd (m w))))
       | Raise e => e <> Empty
       end.

Lemma fit_grains_association (id : nat) (gp : array1) :
  association_only (fit_grains id gp).
Proof.
  intros w. unfold fit_grains, bind, gets, loadtxt, lift, modify, ret.
  destruct (spots w !! id) as [lines|]; simpl; [|auto].
  destruct (load_table lines) as [t'|e] eqn:Hl; unfold load_table in Hl.
  - destruct (np_loadtxt lines) as [[v|t]|e]; simpl in Hl; try discriminate.
    simpl. destruct (refl_idx (_p w) t) as [idx|e] eqn:Hi; simpl.
    + destruct (sum_bool idx <=? 12); simpl; eauto.
    + apply refl_idx_raise in Hi. subst e. auto.
  - fold (load_table lines) in Hl.
    destruct (load_table_raise _ _ Hl) as [-> | ->]; unfold load_table in Hl;
      destruct (np_loadtxt lines) as [[v|t]|e]; simpl in *;
      try discriminate; auto; injection Hl as ->; auto.
Qed.

Lemma stages_association (rest : list nat) :
  forall it id gp, association_only (stages it rest id gp).
Proof.
  induction rest as [|it' rest IH]; intros it id gp w.
  - simpl. unfold bind at 1. unfold pull_spots, modify. unfold bind.
    destruct (fit_grains_association id gp
                (with_spots (<[id := pullSpots gp it]> (spots w)) w))
      as (Hj & Hr & Hres).
    destruct (fit_grains id gp _) as [[r|e] w1]; simpl in *.
    + destruct (Qeq_bool (snd r) 0); simpl; auto.
    + auto.
  - simpl. unfold bind at 1. unfold pull_spots, modify. unfold bind.
    destruct (fit_grains_association id gp
                (with_spots (<[id := pullSpots gp it]> (spots w)) w))
      as (Hj & Hr & Hres).
    destruct (fit_grains id gp _) as [[r|e] w1]; simpl in *.
    + destruct (Qeq_bool (snd r) 0); simpl; [auto|].
      destruct (IH it' id (fst r) w1) as (Hj' & Hr' & Hres').
      rewrite Hj', Hr'. auto.
    + auto.
Qed.

(** [process] either appends exactly one result, carrying the job's id,
    and acknowledges the task, or raises something other than Empty. *)
Lemma process_cases (j : job) (w : FitGrainsWorker) :
  items (_jobs (snd (process j w))) = items (_jobs w)
  /\ match fst (process j w) with
     | Ok _ =>
         exists r, _results (snd (process j w)) = _results w ++ [r]
                   /\ grain_id r = fst j
                   /\ S (unfinished_tasks (_jobs (snd (process j w))))
                      = unfinished_tasks (_jobs w)
     | Raise e =>
         e <> Empty
         /\ (unfinished_tasks (_jobs w) <> 0 ->
             _results (snd (process j w)) = _results w
             /\ _jobs (snd (process j w)) = _jobs w)
     end.
Proof.
  unfold process, bind.
  destruct (stages_association [1] 0 (fst j) (snd j) w) as (Hj & Hr & Hres).
  destruct (stages 0 [1] (fst j) (snd j) w) as [[r|e] w1]; simpl in *.
  - destruct Hres as [[hk Hh] [xyo Hx]].
    rewrite (finalize_eq _ _ _ _ _ _ Hx Hh).
    rewrite <- Hj, <- Hr. unfold task_done. simpl.
    destruct (unfinished_tasks (_jobs w1)) as [|n]; simpl.
    + split; [reflexivity|]. split; [discriminate|]. intros H. congruence.
    + split; [reflexivity|]. eexists. split; [reflexivity|].
      split; reflexivity.
  - rewrite Hj, Hr. auto.
Qed.

End LoopFacts.

Section LoopClaims.

Context {E : Externals}.

(** The sum of the squares, written out. *)
Lemma sum_Q_acc (v : array1) (a : Q) :
  (fold_left Qplus v a == a + sum_Q v)%Q.
Proof.
  unfold sum_Q. revert a.
  induction v as [|x v IH]; intros a; simpl; [ring|].
  rewrite (IH (a + x)%Q), (IH (0 + x)%Q). ring.
Qed.

Lemma sum_sq_spec (resd : array1) :
  (sum_sq resd == fold_right (fun x acc => x * x + acc) 0 resd)%Q.
Proof.
  unfold sum_sq. induction resd as [|x v IH]; [reflexivity|].
  simpl map. simpl fold_right. rewrite <- IH.
  unfold sum_Q at 1. simpl fold_left. rewrite sum_Q_acc.
  simpl. ring.
Qed.

(** The degraded result, where the stage's file is loaded as a table with
    its columns: when the association leaves at most 12 valid reflections,
    the worker still finishes the job: it appends the tuple made of the
    job's id, the unchanged parameters, completeness 0, the strain tensor
    [logm(inv(vecMVToSymm(grain_params[6:])))] and the sum of the squared
    residuals that [objFuncFitGrain] returns for the hkls and centroids of
    that association, which [fit_grains] stored before its test on the
    count. *)
Lemma degraded_result (it id : nat) (gp : array1) (w : FitGrainsWorker)
    (gtable : array2) (idx : list bool) (n : nat) :
  load_table (pullSpots gp it) = Ok gtable ->
  refl_idx (_p w) gtable = Ok idx ->
  sum_bool idx <= 12 ->
  unfinished_tasks (_jobs w) = S n ->
  let stored_hkls := hkl_columns (select_rows idx gtable) in
  let stored_xyo := centroids (_p w) idx gtable in
  let residuals := objFuncFitGrain (select gFlag gp) gp gFlag
                     stored_xyo stored_hkls (omega_period (_p w)) false in
  forall rest, exists w' r,
    bind (stages it rest id gp) (fun r => finalize id (fst r) (snd r)) w
      = (Ok tt, w')
    /\ hkls (_p w') = Some stored_hkls
    /\ xyo_det (_p w') = Some stored_xyo
    /\ _results w' = _results w ++ [r]
    /\ grain_id r = id /\ g_refined r = gp /\ compl r = 0%Q
    /\ eMat r = logm (inv (vecMVToSymm (skipn 6 gp)))
    /\ (resd r == fold_right (fun x acc => x * x + acc) 0 residuals)%Q.
Proof.
  intros Hload Hidx Hle Hn stored_hkls stored_xyo residuals rest.
  unfold bind at 1.
  rewrite (stage_exit it id gp w gtable idx Hload Hidx Hle rest).
  cbv beta iota. simpl fst. simpl snd.
  rewrite (finalize_eq id gp 0%Q _ stored_xyo stored_hkls);
    [|reflexivity|reflexivity].
  unfold task_done. simpl. rewrite Hn.
  eexists _, _. split; [reflexivity|]. simpl.
  repeat (split; [reflexivity|]). apply sum_sq_spec.
Qed.

End LoopClaims.

Example sample_degraded_result :
  exists w' r,
    process (E := Sample.externals) (2, sample_gp2) Sample.worker0
      = (Ok tt, w')
    /\ hkls (_p w') = Some [[1; 1]; [0; 0]; [0; 0]]%Q
    /\ xyo_det (_p w') = Some [[5; 7; 1]; [5; 7; 2]]%Q
    /\ _results w' = [r]
    /\ grain_id r = 2 /\ g_refined r = sample_gp2 /\ compl r = 0%Q
    /\ (resd r == 1 # 2)%Q.
Proof.
  assert (H0 : load_table
                 (pullSpots (Externals := Sample.externals) sample_gp2 0)
               = Ok Sample.small_table)
    by (vm_compute; reflexivity).
  assert (H1 : refl_idx (E := Sample.externals) (_p Sample.worker0)
                 Sample.small_table = Ok sample_idx_small)
    by (vm_compute; reflexivity).
  assert (H2 : sum_bool sample_idx_small <= 12) by (vm_compute; lia).
  assert (H3 : unfinished_tasks (_jobs Sample.worker0) = 3)
    by (vm_compute; reflexivity).
  destruct (degraded_result (E := Sample.externals) 0 2 sample_gp2
              Sample.worker0 _ sample_idx_small 2 H0 H1 H2 H3 [1])
    as (w' & r & Hp & Hh & Hx & Hr & Hid & Hg & Hc & _ & Hs).
  exists w', r. split; [exact Hp|]. split; [exact Hh|]. split; [exact Hx|].
  split; [exact Hr|]. split; [exact Hid|]. split; [exact Hg|].
  split; [exact Hc|]. rewrite Hs. vm_compute. reflexivity.
Qed.

(** ** The run loop of one worker *)

Section RunClaims.

Context {E : Externals}.

Lemma loop_empty (w : FitGrainsWorker) :
  items (_jobs w) = [] -> loop w = (Raise Empty, w).
Proof. intros H. unfold loop, bind, get_nowait. rewrite H. reflexivity. Qed.

Lemma loop_cons (w : FitGrainsWorker) (j : job) (q : list job) :
  items (_jobs w) = j :: q ->
  loop w = process j (with_jobs (mkQueue q (unfinished_tasks (_jobs w))) w).
Proof. intros H. unfold loop, bind, get_nowait. rewrite H. reflexivity. Qed.





End RunClaims.

Example sample_run :
  fst (run (E := Sample.externals) Sample.worker0) = Ok tt
  /\ items (_jobs (snd (run (E := Sample.externals) Sample.worker0))) = []
  /\ map grain_id (_results (snd (run (E := Sample.externals) Sample.worker0)))
     = [0; 1; 2].
Proof. vm_compute. repeat split; reflexivity. Qed.

(** ** A job whose spots file has fewer than two data lines *)

Section LostJob.

Context {E : Externals}.

(** C10.  No result tuple is appended for a job whose first spots file has
    fewer than two data lines, although such a file holds at most 12 valid
    reflections: [fit_grains] raises IndexError at [gtable[:, 0]], before
    it stores 'hkls' and 'xyo_det' and before its test on the count.
    [loop] ends with that exception after the dequeue: the job is off the
    queue, nothing is appended, the task is not acknowledged, the
    dictionary is as before; [run], which catches Empty only, ends with
    the exception too. *)
Theorem too_few_rows_no_result (id : nat) (gp : array1) (q : list job)
    (w : FitGrainsWorker) :
  items (_jobs w) = (id, gp) :: q ->
  length (data_lines (pullSpots gp 0)) < 2 ->
  let w' := mkWorker (mkQueue q (unfinished_tasks (_jobs w))) (_results w)
              (<[id := pullSpots gp 0]> (spots w)) (_p w) in
  (forall idx, refl_idx (_p w) (data_lines (pullSpots gp 0)) = Ok idx ->
               sum_bool idx <= 12)
  /\ loop w = (Raise IndexError, w')
  /\ run w = (Raise IndexError, w')
  /\ _results w' = _results w
  /\ unfinished_tasks (_jobs w') = unfinished_tasks (_jobs w)
  /\ hkls (_p w') = hkls (_p w)
  /\ xyo_det (_p w') = xyo_det (_p w).
Proof.
  intros Hq Hfew w'.
  assert (Hloop : loop w = (Raise IndexError, w')).
  { rewrite (loop_cons _ _ _ Hq). unfold process, bind. cbn [fst snd].
    rewrite (stage_raise 0 id gp _ IndexError); [reflexivity|].
    rewrite (load_table_few _ Hfew). reflexivity. }
  split.
  { intros idx Hidx. apply refl_idx_length in Hidx.
    pose proof (sum_bool_le idx). lia. }
  split; [exact Hloop|]. split; [|repeat split].
  unfold run. rewrite Hq.
  change (run_iter (S (length ((id, gp) :: q))) w)
    with (match loop w with
          | (Ok _, w1) => run_iter (length ((id, gp) :: q)) w1
          | (Raise Empty, w1) => Some (Ok tt, w1)
          | (Raise e, w1) => Some (Raise e, w1)
          end).
  rewrite Hloop. reflexivity.
Qed.

End LostJob.

Lemma too_few_rows_no_result_sample :
  (items (_jobs Sample.worker0)
   = (0, [0; 0; 0; 0; 0; 0; 1; 1; 1; 0; 0; 0]%Q)
     :: [(1, [1; 0; 0; 0; 0; 0; 1; 1; 1; 0; 0; 0]%Q); (2, sample_gp2)]
   /\ length (data_lines
                (pullSpots (Externals := sample_externals_one_row)
                   [0; 0; 0; 0; 0; 0; 1; 1; 1; 0; 0; 0]%Q 0)) < 2)
  /\ refl_idx (E := sample_externals_one_row) (_p Sample.worker0)
       [Sample.row 0 1] = Ok [true]
  /\ fst (run (E := sample_externals_one_row) Sample.worker0)
     = Raise IndexError
  /\ _results (snd (run (E := sample_externals_one_row) Sample.worker0)) = []
  /\ map fst (items (_jobs (snd (run (E := sample_externals_one_row)
                                   Sample.worker0)))) = [1; 2]
  /\ unfinished_tasks
       (_jobs (snd (run (E := sample_externals_one_row) Sample.worker0))) = 3.
Proof.
  assert (H1 : items (_jobs Sample.worker0)
               = (0, [0; 0; 0; 0; 0; 0; 1; 1; 1; 0; 0; 0]%Q)
                 :: [(1, [1; 0; 0; 0; 0; 0; 1; 1; 1; 0; 0; 0]%Q);
                     (2, sample_gp2)])
    by (vm_compute; reflexivity).
  assert (H2 : length (data_lines
                         (pullSpots (Externals := sample_externals_one_row)
                            [0; 0; 0; 0; 0; 0; 1; 1; 1; 0; 0; 0]%Q 0)) < 2)
    by (vm_compute; lia).
  split; [split; [exact H1 | exact H2]|].
  split; [vm_compute; reflexivity|].
  destruct (too_few_rows_no_result (E := sample_externals_one_row) 0 _ _
              Sample.worker0 H1 H2) as (_ & _ & Hrun & _).
  rewrite Hrun. repeat split.
Defined.

(** ** Loading the queue *)

Section QueueClaims.

Context {E : Externals}.

(** The 12 initial parameters of grain [i]. *)
Definition initial_params_spec (phi n0 n1 n2 : array1) (i : nat) : array1 :=
  [ nth i phi 0 * nth i n0 0; nth i phi 0 * nth i n1 0;
    nth i phi 0 * nth i n2 0;
    0; 0; 0; 1; 1; 1; 0; 0; 0 ]%Q.

Lemma index1_nth (v : array1) (i : nat) :
  i < length v -> index1 v i = Ok (nth i v 0%Q).
Proof.
  intros H. unfold index1.
  destruct (nth_error v i) as [x|] eqn:Hx.
  - rewrite (nth_error_nth _ _ _ Hx). reflexivity.
  - apply nth_error_None in Hx. lia.
Qed.

Lemma initial_grain_params_eq (phi n0 n1 n2 : array1) (i : nat) :
  i < length phi -> i < length n0 -> i < length n1 -> i < length n2 ->
  initial_grain_params phi [n0; n1; n2] i
  = Ok (initial_params_spec phi n0 n1 n2 i).
Proof.
  intros Hp H0 H1 H2. unfold initial_grain_params.
  rewrite (index1_nth _ _ Hp). simpl. unfold column. simpl.
  apply Nat.ltb_lt in H0, H1, H2. rewrite H0, H1, H2. reflexivity.
Qed.

Lemma load_jobs_eq (phi n0 n1 n2 : array1) (quats : array2) :
  forall (a : nat) (q : JoinableQueue),
    a + length quats <= length phi ->
    a + length quats <= length n0 ->
    a + length quats <= length n1 ->
    a + length quats <= length n2 ->
    load_jobs phi [n0; n1; n2] (combine (seq a (length quats)) quats) q
    = Ok (mkQueue
            (items q
             ++ map (fun i => (i, initial_params_spec phi n0 n1 n2 i))
                    (seq a (length quats)))
            (unfinished_tasks q + length quats)).
Proof.
  induction quats as [|x quats IH]; intros a q Hp H0 H1 H2; simpl in *.
  - rewrite app_nil_r, Nat.add_0_r. destruct q; reflexivity.
  - rewrite initial_grain_params_eq by lia. simpl.
    rewrite IH by lia. simpl. rewrite <- app_assoc. simpl.
    f_equal. f_equal. lia.
Qed.

(** C6.  When the quaternion conversion returns an angle and a 3-vector
    axis for each of the [n] quaternions, the queue is loaded with one job
    per quaternion, in order; job [i] has id [i] and exactly 12 parameters:
    the angle times the axis, then three zeros for the translation, then
    (1, 1, 1, 0, 0, 0) for the stretch. *)
Theorem initial_grain_parameters (quats : array2) (q0 : JoinableQueue)
    (phi n0 n1 n2 : array1) :
  angleAxisOfRotMat (rotMatOfQuat (transpose quats)) = (phi, [n0; n1; n2]) ->
  length phi = length quats ->
  length n0 = length quats ->
  length n1 = length quats ->
  length n2 = length quats ->
  exists q,
    load_queue quats q0 = Ok q
    /\ unfinished_tasks q = unfinished_tasks q0 + length quats
    /\ (exists jobs, items q = items q0 ++ jobs
        /\ length jobs = length quats
        /\ forall i j, jobs !! i = Some j ->
             fst j = i
             /\ length (snd j) = 12
             /\ snd j = [ nth i phi 0 * nth i n0 0;
                          nth i phi 0 * nth i n1 0;
                          nth i phi 0 * nth i n2 0;
                          0; 0; 0; 1; 1; 1; 0; 0; 0 ]%Q).
Proof.
  intros Hconv Hp H0 H1 H2. unfold load_queue, enumerate. rewrite Hconv.
  rewrite (load_jobs_eq phi n0 n1 n2 quats 0 q0) by (simpl; lia).
  eexists. split; [reflexivity|]. simpl. split; [reflexivity|].
  eexists. split; [reflexivity|]. split.
  - rewrite length_map, length_seq. reflexivity.
  - intros i j Hj.
    assert (Hi : i < length quats).
    { apply lookup_lt_Some in Hj.
      rewrite length_map, length_seq in Hj. exact Hj. }
    assert (Hs : seq 0 (length quats) !! i = Some i).
    { rewrite lookup_seq. auto. }
    rewrite (lookup_map _ _ _ _ Hs) in Hj. injection Hj as <-.
    simpl. auto.
Qed.

End QueueClaims.

Lemma initial_grain_parameters_sample :
  (angleAxisOfRotMat (Externals := Sample.externals)
     (rotMatOfQuat (Externals := Sample.externals)
        (transpose Sample.quats))
     = ([0; 1; 2]%Q, [[1; 1; 1]; [0; 0; 0]; [0; 0; 0]]%Q)
   /\ length [0; 1; 2]%Q = length Sample.quats
   /\ length [1; 1; 1]%Q = length Sample.quats
   /\ length [0; 0; 0]%Q = length Sample.quats)
  /\ exists q,
       load_queue (E := Sample.externals) Sample.quats (mkQueue [] 0) = Ok q
       /\ unfinished_tasks q = 3
       /\ map fst (items q) = [0; 1; 2]
       /\ map (fun j => length (snd j)) (items q) = [12; 12; 12].
Proof.
  assert (Hc : angleAxisOfRotMat (Externals := Sample.externals)
                 (rotMatOfQuat (Externals := Sample.externals)
                    (transpose Sample.quats))
               = ([0; 1; 2]%Q, [[1; 1; 1]; [0; 0; 0]; [0; 0; 0]]%Q))
    by (vm_compute; reflexivity).
  split; [repeat split; try reflexivity; exact Hc|].
  destruct (initial_grain_parameters (E := Sample.externals) Sample.quats
              (mkQueue [] 0) _ _ _ _ Hc eq_refl eq_refl eq_refl eq_refl)
    as (q & Hq & Hu & _).
  exists q. split; [exact Hq|]. split; [exact Hu|].
  vm_compute in Hq. injection Hq as <-.
  vm_compute. split; reflexivity.
Defined.

(** ** The report: row order *)

Definition id_lt (a b : FitResult) : Prop := grain_id a < grain_id b.

#[local] Instance id_lt_trans : Transitive id_lt.
Proof. unfold id_lt. intros a b c. lia. Qed.

#[local] Instance id_lt_antisymm : AntiSymm (=) id_lt.
Proof. unfold id_lt. intros a b H1 H2. lia. Qed.

Lemma insert_result_sorted (x : FitResult) (l : list FitResult) :
  Forall (fun y => grain_id y <> grain_id x) l ->
  StronglySorted id_lt l ->
  exists l', insert_result x l = Ok l'
             /\ l' ≡ₚ x :: l
             /\ StronglySorted id_lt l'.
Proof.
  induction l as [|y l IH]; intros Hne Hs; simpl.
  - exists [x]. repeat split; auto. repeat constructor.
  - apply Forall_cons in Hne as [Hy Hne].
    apply StronglySorted_inv in Hs as [Hs Hyl].
    unfold tuple_lt.
    destruct (Nat.eqb_spec (grain_id x) (grain_id y)) as [Heq|Hneq];
      [congruence|]. simpl.
    destruct (Nat.ltb_spec (grain_id x) (grain_id y)) as [Hlt|Hge].
    + exists (x :: y :: l). split; [reflexivity|]. split; [reflexivity|].
      constructor; [constructor; assumption|].
      constructor; [exact Hlt|].
      eapply Forall_impl; [exact Hyl|].
      intros z Hz. unfold id_lt in *. lia.
    + destruct (IH Hne Hs) as (l' & Hins & Hperm & Hs').
      rewrite Hins. simpl. exists (y :: l').
      split; [reflexivity|]. split.
      * rewrite Hperm. apply perm_swap.
      * constructor; [exact Hs'|].
        rewrite Hperm. constructor; [unfold id_lt; lia | exact Hyl].
Qed.

Lemma sorted_sorted (l : list FitResult) :
  NoDup (map grain_id l) ->
  exists rows, sorted l = Ok rows
               /\ rows ≡ₚ l
               /\ StronglySorted id_lt rows.
Proof.
  induction l as [|x l IH]; intros Hnd; simpl in *.
  - exists []. repeat split; auto. constructor.
  - apply NoDup_cons in Hnd as [Hx Hnd].
    destruct (IH Hnd) as (rows & Hs & Hperm & Hsorted).
    rewrite Hs. simpl.
    destruct (insert_result_sorted x rows) as (l' & Hins & Hperm' & Hs').
    + apply Forall_forall. intros y Hy Heq. apply Hx.
      rewrite <- Heq. apply list_elem_of_In, in_map, list_elem_of_In.
      rewrite <- Hperm. exact Hy.
    + exact Hsorted.
    + exists l'. split; [exact Hins|]. split; [|exact Hs'].
      rewrite Hperm', Hperm. reflexivity.
Qed.

Lemma ascending_ids (rows : list FitResult) :
  StronglySorted id_lt rows -> StronglySorted lt (map grain_id rows).
Proof.
  induction 1 as [|x l Hs IH Hx]; simpl; constructor; [exact IH|].
  apply Forall_forall. intros i Hi.
  apply list_elem_of_In, in_map_iff in Hi as (y & <- & Hy).
  rewrite Forall_forall in Hx. apply Hx, list_elem_of_In, Hy.
Qed.

Section ReportClaims.

Context {E : Externals}.

(** C7.  For results with pairwise distinct grain ids, [sorted] returns
    them in strictly ascending order of grain id, the report lists its rows
    in that order, and any other order of the same results gives the same
    rows and the same report. *)
Theorem report_order_deterministic (rs rs' : list FitResult) :
  NoDup (map grain_id rs) ->
  rs ≡ₚ rs' ->
  exists rows,
    sorted rs = Ok rows
    /\ rows ≡ₚ rs
    /\ StronglySorted lt (map grain_id rows)
    /\ report rs
       = rbind (collect (map row_line rows)) (fun lines =>
           Ok (header_line ++ String.concat "" lines)%string)
    /\ sorted rs' = Ok rows
    /\ report rs' = report rs.
Proof.
  intros Hnd Hperm.
  destruct (sorted_sorted rs Hnd) as (rows & Hs & Hp & Hsorted).
  assert (Hnd' : NoDup (map grain_id rs')).
  { change (NoDup (grain_id <$> rs')). rewrite <- Hperm. exact Hnd. }
  destruct (sorted_sorted rs' Hnd') as (rows' & Hs' & Hp' & Hsorted').
  assert (Heq : rows' = rows).
  { apply (StronglySorted_unique id_lt); [assumption..|].
    rewrite Hp', Hp. symmetry. exact Hperm. }
  subst rows'. exists rows.
  split; [exact Hs|]. split; [exact Hp|].
  split; [apply ascending_ids; exact Hsorted|].
  unfold report. rewrite Hs, Hs'. simpl. auto.
Qed.

End ReportClaims.

(** The results of the sample batch as one worker alone appends them, and
    as two workers append them under an interleaved schedule. *)
Definition sample_results_run : list FitResult :=
  match run_iter (E := Sample.externals) 4 Sample.worker0 with
  | Some (_, w) => _results w
  | None => []
  end.

Definition sample_schedule : list nat := [0; 1; 1; 0; 0; 1; 0; 0].

Definition sample_results_pool : list FitResult :=
  match start (E := Sample.externals) Sample.cfg Sample.quats with
  | Ok s =>
      match exec (E := Sample.externals) sample_schedule s with
      | Some s' => results s'
      | None => []
      end
  | Raise _ => []
  end.

Example sample_pool_completion_order :
  map grain_id sample_results_pool = [1; 0; 2]
  /\ map grain_id sample_results_run = [0; 1; 2].
Proof. vm_compute. split; reflexivity. Qed.

Lemma report_order_deterministic_sample :
  (NoDup (map grain_id sample_results_pool)
   /\ sample_results_pool ≡ₚ sample_results_run)
  /\ sorted sample_results_pool = Ok sample_results_run
  /\ report (E := Sample.externals) sample_results_run
     = report (E := Sample.externals) sample_results_pool.
Proof.
  assert (H1 : NoDup (map grain_id sample_results_pool)).
  { apply NoDup_ListNoDup. vm_compute.
    repeat (constructor; [simpl; intuition discriminate|]). constructor. }
  assert (H2 : sample_results_pool ≡ₚ sample_results_run).
  { vm_compute. apply perm_swap. }
  split; [split; [exact H1 | exact H2]|].
  destruct (report_order_deterministic (E := Sample.externals)
              sample_results_pool sample_results_run H1 H2)
    as (rows & Hs & _ & _ & _ & _ & Hr).
  split; [|exact Hr].
  rewrite Hs. f_equal.
  vm_compute in Hs. injection Hs as <-. vm_compute. reflexivity.
Defined.

(** ** The pool: every job is held in exactly one place *)

Lemma in_flight_app (ws1 ws2 : list (pkwargs * status)) :
  in_flight (ws1 ++ ws2) = in_flight ws1 ++ in_flight ws2.
Proof. unfold in_flight. apply flat_map_app. Qed.

(** Replacing the state of process [k] exchanges what it holds. *)
Lemma in_flight_insert (ws : list (pkwargs * status)) (k : nat)
    (p p' : pkwargs) (st st' : status) :
  ws !! k = Some (p, st) ->
  exists others,
    in_flight ws ≡ₚ held st ++ others
    /\ in_flight (<[k := (p', st')]> ws) ≡ₚ held st' ++ others.
Proof.
  intros Hk.
  exists (in_flight (take k ws) ++ in_flight (drop (S k) ws)).
  split.
  - rewrite <- (take_drop_middle ws k (p, st) Hk) at 1.
    rewrite in_flight_app. simpl.
    change (in_flight (take k ws)
            ++ held st ++ in_flight (drop (S k) ws)
            ≡ₚ held st ++ in_flight (take k ws) ++ in_flight (drop (S k) ws)).
    rewrite !app_assoc. apply Permutation_app_tail, Permutation_app_comm.
  - rewrite insert_take_drop by (eapply lookup_lt_Some; exact Hk).
    rewrite in_flight_app. simpl.
    change (in_flight (take k ws)
            ++ held st' ++ in_flight (drop (S k) ws)
            ≡ₚ held st' ++ in_flight (take k ws) ++ in_flight (drop (S k) ws)).
    rewrite !app_assoc. apply Permutation_app_tail, Permutation_app_comm.
Qed.

Lemma quiescent_in_flight (ws : list (pkwargs * status)) :
  quiescent ws -> in_flight ws = [].
Proof.
  induction 1 as [|[p st] ws Hst _ IH]; [reflexivity|].
  simpl in *. rewrite IH. destruct Hst as [-> | ->]; reflexivity.
Qed.

(** The ids of the batch are spread, without repetition, over the queue,
    the processes and the result list; the queue's count of unfinished
    tasks is the number of jobs not yet acknowledged. *)
Definition pool_inv (n : nat) (s : system) : Prop :=
  map fst (items (job_queue s)) ++ in_flight (workers s)
    ++ map grain_id (results s) ≡ₚ seq 0 n
  /\ unfinished_tasks (job_queue s)
     = length (items (job_queue s)) + length (in_flight (workers s)).

Section PoolFacts.

Context {E : Externals}.

Lemma fire_inv (n k : nat) (s s' : system) :
  pool_inv n s -> fire k s = Some s' -> pool_inv n s'.
Proof.
  intros [Hperm Hcount] Hfire. unfold fire in Hfire.
  destruct (workers s !! k) as [[p st]|] eqn:Hk; [|discriminate].
  destruct st as [|j| |e j]; try discriminate.
  - (* the dequeue *)
    unfold get_nowait, view in Hfire. simpl in Hfire.
    destruct (items (job_queue s)) as [|j q] eqn:Hq;
      injection Hfire as <-; unfold pool_inv, commit; simpl.
    + destruct (in_flight_insert _ k p p Idle Stopped Hk)
        as (others & Ho & Ho').
      rewrite Hq. simpl in *. rewrite Ho', <- Ho. auto.
    + destruct (in_flight_insert _ k p p Idle (Busy j) Hk)
        as (others & Ho & Ho').
      simpl in *. rewrite Ho'. rewrite Ho in Hperm, Hcount. split.
      * rewrite <- Hperm. simpl. symmetry. apply Permutation_middle.
      * rewrite Hcount. simpl. lia.
  - (* the rest of loop *)
    destruct (process_cases j (view s p)) as [Hi Hc].
    destruct (in_flight_insert _ k p (_p (snd (process j (view s p))))
                (Busy j) Idle Hk) as (others & Ho & Ho').
    destruct (in_flight_insert _ k p (_p (snd (process j (view s p))))
                (Busy j) (Crashed (match fst (process j (view s p)) with
                                   | Raise e => e
                                   | Ok _ => Empty
                                   end) j) Hk)
      as (others2 & Ho2 & Ho2').
    destruct (process j (view s p)) as [[u|e] w'] eqn:Hproc;
      simpl in *; injection Hfire as <-; unfold pool_inv, commit; simpl.
    + destruct Hc as (r & Hr & Hid & Hu).
      rewrite Hi, Hr, map_app. simpl. rewrite Hid, Ho'.
      rewrite Ho in Hperm, Hcount. simpl in *. split.
      * rewrite <- Hperm. apply Permutation_app_head.
        rewrite app_assoc. symmetry. apply Permutation_cons_append.
      * lia.
    + destruct Hc as [_ Hc].
      assert (Hpos : unfinished_tasks (job_queue s) <> 0).
      { rewrite Hcount, Ho. simpl. lia. }
      destruct (Hc Hpos) as [Hr Hj]. rewrite Hr, Hj, Ho2', <- Ho2. auto.
Qed.

(** The state from which the processes start satisfies the invariant. *)
Lemma load_jobs_ids (phi : array1) (n : array2) (quats : array2) :
  forall (a : nat) (q q' : JoinableQueue),
    load_jobs phi n (combine (seq a (length quats)) quats) q = Ok q' ->
    map fst (items q') = map fst (items q) ++ seq a (length quats)
    /\ unfinished_tasks q' = unfinished_tasks q + length quats.
Proof.
  induction quats as [|x quats IH]; intros a q q' H; simpl in *.
  - injection H as <-. rewrite app_nil_r. auto.
  - destruct (initial_grain_params phi n a) as [gp|e]; [|discriminate].
    simpl in H. apply IH in H as [Hi Hu]. simpl in *.
    rewrite Hi, Hu, map_app, <- app_assoc. simpl. split; [reflexivity|lia].
Qed.

Lemma start_inv (cfg : config) (quats : array2) (s : system) :
  start cfg quats = Ok s -> pool_inv (length quats) s.
Proof.
  unfold start, load_queue, enumerate.
  destruct (angleAxisOfRotMat _) as [phi n].
  destruct (load_jobs _ _ _ _) as [q|e] eqn:Hq; [|discriminate].
  simpl. intros H. injection H as <-.
  apply load_jobs_ids in Hq as [Hi Hu]. unfold pool_inv. simpl in *.
  assert (Hfl : in_flight (replicate (multiprocessing cfg)
                             (make_pkwargs cfg, Idle)) = []).
  { induction (multiprocessing cfg); [reflexivity|exact IHn0]. }
  rewrite Hfl, Hi, app_nil_r. simpl. split; [reflexivity|].
  assert (Hl : length (items q) = length quats).
  { transitivity (length (map fst (items q)));
      [symmetry; apply length_map | rewrite Hi; apply length_seq]. }
  rewrite Hl. simpl. lia.
Qed.

Lemma reachable_inv (n : nat) (s s' : system) :
  pool_inv n s -> rtc step s s' -> pool_inv n s'.
Proof.
  intros Hinv Hsteps. induction Hsteps as [s|s s1 s2 [k Hk] _ IH];
    [exact Hinv|].
  apply IH. exact (fire_inv n k s s1 Hinv Hk).
Qed.

Lemma exec_rtc (schedule : list nat) :
  forall s s', exec schedule s = Some s' -> rtc step s s'.
Proof.
  induction schedule as [|k schedule IH]; intros s s' H; simpl in H.
  - injection H as <-. apply rtc_refl.
  - destruct (fire k s) as [s1|] eqn:Hk; [|discriminate].
    eapply rtc_l; [exists k; exact Hk | apply IH; exact H].
Qed.

End PoolFacts.

Section PoolClaims.

Context {E : Externals}.

(** C9.  In every state the pool reaches from the start of a batch of [n]
    jobs, the result list has at most [n] entries, with pairwise distinct
    grain ids below [n].  When every worker has completed its jobs (the
    queue is empty and no process holds a job), and likewise when the
    orchestrator's wait ends because the list has [n] entries, the list has
    exactly [n] entries and its grain ids are exactly 0 .. n-1. *)
Theorem results_cover_batch (cfg : config) (quats : array2) (s0 s : system) :
  start cfg quats = Ok s0 ->
  rtc step s0 s ->
  let n := length quats in
  let ids := map grain_id (results s) in
  (NoDup ids /\ (forall i, i ∈ ids -> i < n) /\ length (results s) <= n)
  /\ (items (job_queue s) = [] -> quiescent (workers s) ->
      length (results s) = n /\ ids ≡ₚ seq 0 n
      /\ forall i, i ∈ ids <-> i < n)
  /\ (barrier n s ->
      (ids ≡ₚ seq 0 n /\ forall i, i ∈ ids <-> i < n)
      /\ items (job_queue s) = [] /\ in_flight (workers s) = []).
Proof.
  intros Hstart Hreach n ids.
  destruct (reachable_inv n s0 s (start_inv _ _ _ Hstart) Hreach)
    as [Hperm Hcount].
  fold ids in Hperm.
  assert (Hnd : NoDup (map fst (items (job_queue s))
                       ++ in_flight (workers s) ++ ids)).
  { rewrite Hperm. apply NoDup_seq. }
  assert (Hlen : length (map fst (items (job_queue s)))
                 + (length (in_flight (workers s)) + length ids) = n).
  { rewrite <- !length_app, Hperm. apply length_seq. }
  assert (Hids : length ids = length (results s)) by apply length_map.
  assert (Hcover : ids ≡ₚ seq 0 n -> forall i, i ∈ ids <-> i < n).
  { intros Hp i. rewrite Hp, elem_of_seq. lia. }
  split; [split; [|split]|split].
  - apply NoDup_app in Hnd as (_ & _ & Hnd).
    apply NoDup_app in Hnd as (_ & _ & Hnd). exact Hnd.
  - intros i Hi.
    assert (H : i ∈ seq 0 n).
    { rewrite <- Hperm, !elem_of_app. auto. }
    apply elem_of_seq in H. lia.
  - lia.
  - intros Hq Hquiet.
    rewrite Hq, (quiescent_in_flight _ Hquiet) in Hperm, Hlen.
    simpl in Hperm, Hlen. split; [lia|]. split; [exact Hperm|auto].
  - intros [Hn Hdone]. rewrite Hdone in Hcount.
    assert (Hq : items (job_queue s) = [])
      by (apply nil_length_inv; lia).
    assert (Hf : in_flight (workers s) = [])
      by (apply nil_length_inv; lia).
    rewrite Hq, Hf in Hperm. simpl in Hperm. auto.
Qed.

End PoolClaims.

(** The sample batch under the interleaved schedule: from the start of the
    pool to the state in which both workers have stopped. *)
Definition sample_system0 : system :=
  match start (E := Sample.externals) Sample.cfg Sample.quats with
  | Ok s => s
  | Raise _ => mkSystem (mkQueue [] 0) [] ∅ []
  end.

Definition sample_system_end : system :=
  match exec (E := Sample.externals) sample_schedule sample_system0 with
  | Some s => s
  | None => sample_system0
  end.

Lemma results_cover_batch_sample :
  (start (E := Sample.externals) Sample.cfg Sample.quats = Ok sample_system0
   /\ rtc (step (E := Sample.externals)) sample_system0 sample_system_end)
  /\ (items (job_queue sample_system_end) = []
      /\ quiescent (workers sample_system_end))
  /\ length (results sample_system_end) = 3
  /\ map grain_id (results sample_system_end) ≡ₚ [0; 1; 2].
Proof.
  assert (H1 : start (E := Sample.externals) Sample.cfg Sample.quats
               = Ok sample_system0) by (vm_compute; reflexivity).
  assert (H2 : rtc (step (E := Sample.externals))
                 sample_system0 sample_system_end).
  { apply (exec_rtc sample_schedule). vm_compute. reflexivity. }
  assert (H3 : items (job_queue sample_system_end) = [])
    by (vm_compute; reflexivity).
  assert (H4 : quiescent (workers sample_system_end)).
  { vm_compute. repeat constructor; right; reflexivity. }
  split; [split; [exact H1 | exact H2]|].
  split; [split; [exact H3 | exact H4]|].
  destruct (results_cover_batch (E := Sample.externals) Sample.cfg
              Sample.quats sample_system0 sample_system_end H1 H2)
    as (_ & Hdone & _).
  destruct (Hdone H3 H4) as (Hlen & Hperm & _).
  split; [exact Hlen | exact Hperm].
Defined.

(** ** The report: strain and residual columns *)

Lemma collect_length {A} (l : list (result A)) (xs : list A) :
  collect l = Ok xs -> length xs = length l.
Proof.
  revert xs. induction l as [|r l IH]; intros xs H; simpl in H.
  - injection H as <-. reflexivity.
  - destruct r as [a|e]; [|discriminate]. simpl in H.
    destruct (collect l) as [al|e]; [|discriminate]. simpl in H.
    injection H as <-. simpl. f_equal. apply IH. reflexivity.
Qed.

(** In a row that can be written, float [14 + k] is the entry of [eMat]
    at the k-th position of (0,0), (1,1), (2,2), (1,2), (0,2), (0,1), and
    float 1 is the tuple's residual. *)
Lemma res_items_columns (r : FitResult) (fl : list Q) :
  res_items r = Ok fl ->
  length fl = 20
  /\ nth 0 fl 0%Q = compl r
  /\ nth 1 fl 0%Q = resd r
  /\ index2 (eMat r) 0 0 = Ok (nth 14 fl 0%Q)
  /\ index2 (eMat r) 1 1 = Ok (nth 15 fl 0%Q)
  /\ index2 (eMat r) 2 2 = Ok (nth 16 fl 0%Q)
  /\ index2 (eMat r) 1 2 = Ok (nth 17 fl 0%Q)
  /\ index2 (eMat r) 0 2 = Ok (nth 18 fl 0%Q)
  /\ index2 (eMat r) 0 1 = Ok (nth 19 fl 0%Q).
Proof.
  unfold res_items. intros H.
  destruct (collect (map (index1 (g_refined r)) (seq 0 12))) as [g|e] eqn:Hg;
    [|discriminate].
  assert (Hlg : length g = 12)
    by (rewrite (collect_length _ _ Hg); reflexivity).
  simpl in H.
  destruct (index2 (eMat r) 0 0) as [e00|]; [|discriminate].
  destruct (index2 (eMat r) 1 1) as [e11|]; [|discriminate].
  destruct (index2 (eMat r) 2 2) as [e22|]; [|discriminate].
  destruct (index2 (eMat r) 1 2) as [e12|]; [|discriminate].
  destruct (index2 (eMat r) 0 2) as [e02|]; [|discriminate].
  destruct (index2 (eMat r) 0 1) as [e01|]; [|discriminate].
  simpl in H. injection H as <-.
  do 12 (destruct g as [|? g]; [discriminate Hlg|]).
  destruct g; [|discriminate Hlg].
  simpl. repeat split; reflexivity.
Qed.

Section ColumnClaims.

Context {E : Externals}.

Lemma finalize_ok (id : nat) (gp : array1) (c : Q) (w w' : FitGrainsWorker) :
  finalize id gp c w = (Ok tt, w') ->
  exists xyo hk,
    xyo_det (_p w) = Some xyo
    /\ hkls (_p w) = Some hk
    /\ _results w' = _results w ++ [result_of id gp c (_p w) xyo hk].
Proof.
  intros H.
  destruct (xyo_det (_p w)) as [xyo|] eqn:Hx.
  2:{ unfold finalize, bind, getitem in H. rewrite Hx in H. discriminate. }
  destruct (hkls (_p w)) as [hk|] eqn:Hh.
  2:{ unfold finalize, bind, getitem in H. rewrite Hx, Hh in H. discriminate. }
  rewrite (finalize_eq _ _ _ _ _ _ Hx Hh) in H.
  unfold task_done in H. simpl in H.
  destruct (unfinished_tasks (_jobs w)); [discriminate|].
  injection H as <-. exists xyo, hk. auto.
Qed.

(** C2, as the code has it.  The tuple a worker appends carries
    [logm(inv(vecMVToSymm(grain_params[6:])))] as its strain tensor, and a
    report row written from it shows, in its last six columns, the entries
    (0,0), (1,1), (2,2), (1,2), (0,2), (0,1) of that matrix as they are:
    the diagonal and the upper triangle, with no factor on the off-diagonal
    entries. *)
Theorem strain_columns (id : nat) (gp : array1) (c : Q)
    (w w' : FitGrainsWorker) :
  finalize id gp c w = (Ok tt, w') ->
  let L := logm (inv (vecMVToSymm (skipn 6 gp))) in
  exists r,
    _results w' = _results w ++ [r]
    /\ g_refined r = gp
    /\ eMat r = L
    /\ forall fl, res_items r = Ok fl ->
         index2 L 0 0 = Ok (nth 14 fl 0%Q)
         /\ index2 L 1 1 = Ok (nth 15 fl 0%Q)
         /\ index2 L 2 2 = Ok (nth 16 fl 0%Q)
         /\ index2 L 1 2 = Ok (nth 17 fl 0%Q)
         /\ index2 L 0 2 = Ok (nth 18 fl 0%Q)
         /\ index2 L 0 1 = Ok (nth 19 fl 0%Q).
Proof.
  intros H L.
  destruct (finalize_ok _ _ _ _ _ H) as (xyo & hk & _ & _ & Hr).
  eexists. split; [exact Hr|]. split; [reflexivity|]. split; [reflexivity|].
  intros fl Hfl. apply res_items_columns in Hfl. simpl in Hfl. tauto.
Qed.

(** C2 as the specification states it, for one result tuple: the diagonal
    columns are the diagonal of the matrix logarithm and the off-diagonal
    columns are sqrt 2 times its entries (1,2), (0,2), (0,1). *)
Definition strain_scaled_by_sqrt2 (r : FitResult) : Prop :=
  let L := logm (inv (vecMVToSymm (skipn 6 (g_refined r)))) in
  forall fl, res_items r = Ok fl ->
    (forall k i, In (k, i) [(14, 0); (15, 1); (16, 2)] ->
       forall x, index2 L i i = Ok x -> nth k fl 0%Q = x)
    /\ (forall k i j, In (k, (i, j)) [(17, (1, 2)); (18, (0, 2)); (19, (0, 1))] ->
          forall x, index2 L i j = Ok x ->
            Q2R (nth k fl 0%Q) = (sqrt 2 * Q2R x)%R).

End ColumnClaims.

(** The scaling can only hold for an entry that is zero. *)
Lemma sqrt2_scaling_zero (x : Q) :
  Q2R x = (sqrt 2 * Q2R x)%R <-> Q2R x = 0%R.
Proof.
  assert (Hs : (sqrt 2 * sqrt 2 = 2)%R) by (apply sqrt_sqrt; lra).
  split.
  - intros H. destruct (Req_dec (Q2R x) 0) as [H0|H0]; [exact H0|].
    exfalso. assert (H1 : (sqrt 2 = 1)%R).
    { apply Rmult_eq_reg_r with (Q2R x); [lra|exact H0]. }
    rewrite H1 in Hs. lra.
  - intros ->. lra.
Qed.

(** The sample result of grain 0. *)
Definition sample_r0 : FitResult :=
  nth 0 sample_results_run (mkFitResult 0 [] 0 [] 0).

Definition sample_row0 : list Q :=
  [ 14 # 16; sum_sq (flat_map (fun _ => [1 # 2; 0; 0]%Q) (seq 0 14));
    0; 0; 0; 0; 0; 0; 1; 1; 1; 1 # 10; 0; 0;
    0; 1 # 99; 1 # 99; -10 # 99; 0; 0 ]%Q.

(** Grain 0 of the sample batch has a shear component; its row shows the
    entry (1,2) of the logarithm, -10/99, not sqrt 2 times it. *)
Lemma strain_not_scaled_sample :
  ~ strain_scaled_by_sqrt2 (E := Sample.externals) sample_r0.
Proof.
  intros H.
  assert (Hfl : res_items sample_r0 = Ok sample_row0)
    by (vm_compute; reflexivity).
  destruct (H _ Hfl) as [_ Hoff].
  assert (Hx : index2 (logm (Externals := Sample.externals)
                         (inv (Externals := Sample.externals)
                            (vecMVToSymm (Externals := Sample.externals)
                               (skipn 6 (g_refined sample_r0))))) 1 2
               = Ok (-10 # 99)%Q)
    by (vm_compute; reflexivity).
  specialize (Hoff 17 1 2 (or_introl eq_refl) _ Hx).
  change (nth 17 sample_row0 0%Q) with (-10 # 99)%Q in Hoff.
  apply sqrt2_scaling_zero in Hoff.
  unfold Q2R in Hoff. simpl in Hoff. lra.
Qed.

(** The sample worker after the two stages of grain 0, and the parameters
    they leave. *)
Definition sample_gp0 : array1 := [0; 0; 0; 0; 0; 0; 1; 1; 1; 0; 0; 0]%Q.

Definition sample_gp0_refined : array1 :=
  [0; 0; 0; 0; 0; 0; 1; 1; 1; 1 # 10; 0; 0]%Q.

Definition sample_worker_fitted : FitGrainsWorker :=
  snd (stages (E := Sample.externals) 0 [1] 0 sample_gp0 Sample.worker0).

Definition sample_worker_finalized : FitGrainsWorker :=
  snd (finalize (E := Sample.externals) 0 sample_gp0_refined (14 # 16)
         sample_worker_fitted).

Example sample_stages_grain0 :
  fst (stages (E := Sample.externals) 0 [1] 0 sample_gp0 Sample.worker0)
  = Ok (sample_gp0_refined, (14 # 16)%Q).
Proof. vm_compute. reflexivity. Qed.

Lemma strain_columns_sample :
  finalize (E := Sample.externals) 0 sample_gp0_refined (14 # 16)
    sample_worker_fitted = (Ok tt, sample_worker_finalized)
  /\ exists r,
       _results sample_worker_finalized
         = _results sample_worker_fitted ++ [r]
       /\ g_refined r = sample_gp0_refined
       /\ eMat r = [[0; 0; 0]; [0; 1 # 99; -10 # 99]; [0; -10 # 99; 1 # 99]]%Q
       /\ forall fl, res_items r = Ok fl ->
            nth 14 fl 0%Q = 0%Q /\ nth 15 fl 0%Q = (1 # 99)%Q
            /\ nth 16 fl 0%Q = (1 # 99)%Q /\ nth 17 fl 0%Q = (-10 # 99)%Q
            /\ nth 18 fl 0%Q = 0%Q /\ nth 19 fl 0%Q = 0%Q.
Proof.
  assert (H : finalize (E := Sample.externals) 0 sample_gp0_refined (14 # 16)
                sample_worker_fitted = (Ok tt, sample_worker_finalized))
    by (vm_compute; reflexivity).
  split; [exact H|].
  destruct (strain_columns (E := Sample.externals) _ _ _ _ _ H)
    as (r & Hr & Hg & He & Hcols).
  exists r. split; [exact Hr|]. split; [exact Hg|].
  split; [rewrite He; vm_compute; reflexivity|].
  intros fl Hfl. destruct (Hcols fl Hfl) as (H0 & H1 & H2 & H3 & H4 & H5).
  generalize dependent (nth 14 fl 0%Q). generalize dependent (nth 15 fl 0%Q).
  generalize dependent (nth 16 fl 0%Q). generalize dependent (nth 17 fl 0%Q).
  generalize dependent (nth 18 fl 0%Q). generalize dependent (nth 19 fl 0%Q).
  intros v19 H5 v18 H4 v17 H3 v16 H2 v15 H1 v14 H0.
  vm_compute in H0, H1, H2, H3, H4, H5.
  injection H0 as <-. injection H1 as <-. injection H2 as <-.
  injection H3 as <-. injection H4 as <-. injection H5 as <-.
  repeat split; reflexivity.
Defined.

Lemma select_gFlag (gp : array1) : length gp <= 12 -> select gFlag gp = gp.
Proof.
  intros H.
  do 12 (destruct gp as [|? gp]; [reflexivity|]).
  destruct gp; [reflexivity|simpl in H; lia].
Qed.

Section ResidualFacts.

Context {E : Externals}.

(** The residual of the appended tuple: [objFuncFitGrain] evaluated at the
    final parameters, all 12 of them passed as the refined ones too (every
    flag of [gFlag] is set), with [simOnly=False], squared and summed.  The
    report's third column shows this sum as it is. *)
Lemma residual_plain_sum (id : nat) (gp : array1) (c : Q)
    (w w' : FitGrainsWorker) :
  finalize id gp c w = (Ok tt, w') ->
  length gp = 12 ->
  exists xyo hk r,
    xyo_det (_p w) = Some xyo
    /\ hkls (_p w) = Some hk
    /\ _results w' = _results w ++ [r]
    /\ resd r = sum_sq (objFuncFitGrain gp gp gFlag xyo hk
                          (omega_period (_p w)) false)
    /\ forall fl, res_items r = Ok fl -> nth 1 fl 0%Q = resd r.
Proof.
  intros H Hlen.
  destruct (finalize_ok _ _ _ _ _ H) as (xyo & hk & Hx & Hh & Hr).
  exists xyo, hk. eexists. split; [exact Hx|]. split; [exact Hh|].
  split; [exact Hr|]. split.
  - unfold result_of, resd. rewrite select_gFlag by lia. reflexivity.
  - intros fl Hfl. apply res_items_columns in Hfl. tauto.
Qed.

End ResidualFacts.

(** C4 on grain 2 of the sample batch.  Its association leaves 2
    reflections; the residual vector is (1/2, 0, 0, 1/2, 0, 0), the sum of
    its squares is 1/2, and the column headed sum(resd**2)/nrefl shows 1/2,
    not 1/2 divided by the 2 reflections. *)
Theorem residual_column_not_normalized :
  exists w' r fl hk xyo,
    process (E := Sample.externals) (2, sample_gp2) Sample.worker0
      = (Ok tt, w')
    /\ _results w' = [r]
    /\ hkls (_p w') = Some hk /\ xyo_det (_p w') = Some xyo
    /\ length (hd [] hk) = 2
    /\ objFuncFitGrain (Externals := Sample.externals)
         (select gFlag sample_gp2) sample_gp2 gFlag xyo hk
         (omega_period (_p w')) false
       = [1 # 2; 0; 0; 1 # 2; 0; 0]%Q
    /\ resd r = sum_sq [1 # 2; 0; 0; 1 # 2; 0; 0]%Q
    /\ nth 2 header_items EmptyString = "sum(resd**2)/nrefl"%string
    /\ res_items r = Ok fl
    /\ (nth 1 fl 0 == 1 # 2)%Q
    /\ ~ (nth 1 fl 0 == sum_sq [1 # 2; 0; 0; 1 # 2; 0; 0] / 2)%Q.
Proof.
  eexists _, _, _, _, _.
  split; [vm_compute; reflexivity|].
  split; [vm_compute; reflexivity|].
  split; [vm_compute; reflexivity|].
  split; [vm_compute; reflexivity|].
  split; [reflexivity|].
  split; [vm_compute; reflexivity|].
  split; [vm_compute; reflexivity|].
  split; [reflexivity|].
  split; [vm_compute; reflexivity|].
  split; [vm_compute; reflexivity|].
  vm_compute. discriminate.
Qed.

(** * Further properties of the module *)

(** ** What a job computes, apart from the objects it is computed on

    [stages_fun] follows [stages] on the worker's parameter dictionary
    alone; it returns what the loop over the stages returns, the lines of
    the spots file written last and the dictionary as the loop leaves
    it. *)

Section JobFunction.

Context {E : Externals}.

Fixpoint stages_fun (p : pkwargs) (it : nat) (rest : list nat)
    (gp : array1) : result (array1 * Q) * array2 * pkwargs :=
  let lines := pullSpots gp it in
  match load_table lines with
  | Raise e => (Raise e, lines, p)
  | Ok gtable =>
      match refl_idx p gtable with
      | Raise e => (Raise e, lines, p)
      | Ok idx =>
          let p' := set_xyo_det (centroids p idx gtable)
                      (set_hkls (hkl_columns (select_rows idx gtable)) p) in
          if sum_bool idx <=? 12 then (Ok (gp, 0%Q), lines, p')
          else
            let gp' := fitGrain (centroids p idx gtable)
                                (hkl_columns (select_rows idx gtable))
                                (firstn 3 gp) (firstn 3 (skipn 3 gp))
                                (skipn 6 gp) gFlag gScl (omega_period p) in
            if Qeq_bool (completeness_of idx) 0
            then (Ok (gp', completeness_of idx), lines, p')
            else match rest with
                 | [] => (Ok (gp', completeness_of idx), lines, p')
                 | it' :: rest' => stages_fun p' it' rest' gp'
                 end
      end
  end.

(** The tuple [loop] appends for a job, when it appends one. *)
Definition job_result (p : pkwargs) (j : job) : option FitResult :=
  match stages_fun p 0 [1] (snd j) with
  | (Ok (gp, c), _, p') =>
      match xyo_det p', hkls p' with
      | Some xyo, Some hk => Some (result_of (fst j) gp c p' xyo hk)
      | _, _ => None
      end
  | (Raise _, _, _) => None
  end.

(** The exception [loop] ends with for a job, when it appends nothing. *)
Definition job_exn (p : pkwargs) (j : job) : exn :=
  match fst (fst (stages_fun p 0 [1] (snd j))) with
  | Raise e => e
  | Ok _ => KeyError
  end.

(** Two dictionaries with the same scan description. *)
Definition same_scan (p p' : pkwargs) : Prop :=
  omega_start p = omega_start p' /\ omega_step p = omega_step p'
  /\ omega_stop p = omega_stop p' /\ omega_period p = omega_period p'.

Lemma stages_run (rest : list nat) :
  forall (it id : nat) (gp : array1) (w : FitGrainsWorker),
    stages it rest id gp w =
      (fst (fst (stages_fun (_p w) it rest gp)),
       mkWorker (_jobs w) (_results w)
                (<[id := snd (fst (stages_fun (_p w) it rest gp))]> (spots w))
                (snd (stages_fun (_p w) it rest gp))).
Proof.
  induction rest as [|it' rest IH]; intros it id gp w.
  - destruct (rbind (load_table (pullSpots gp it)) (refl_idx (_p w)))
      as [idx|e] eqn:Hr.
    + destruct (load_table (pullSpots gp it)) as [t|e] eqn:Hl;
        [|discriminate]. simpl in Hr.
      rewrite (stage_eq _ _ _ _ _ _ _ Hl Hr). simpl. rewrite Hl, Hr.
      destruct (sum_bool idx <=? 12); [reflexivity|].
      destruct (Qeq_bool (completeness_of idx) 0); reflexivity.
    + rewrite (stage_raise _ _ _ _ _ Hr). simpl.
      destruct (load_table (pullSpots gp it)) as [t|e'];
        simpl in Hr; [rewrite Hr | injection Hr as ->]; reflexivity.
  - destruct (rbind (load_table (pullSpots gp it)) (refl_idx (_p w)))
      as [idx|e] eqn:Hr.
    + destruct (load_table (pullSpots gp it)) as [t|e] eqn:Hl;
        [|discriminate]. simpl in Hr.
      rewrite (stage_eq _ _ _ _ _ _ _ Hl Hr). simpl stages_fun.
      rewrite Hl, Hr.
      destruct (sum_bool idx <=? 12); [reflexivity|].
      destruct (Qeq_bool (completeness_of idx) 0); [reflexivity|].
      cbv zeta. rewrite IH. unfold associated, stored. simpl.
      rewrite insert_insert_eq. reflexivity.
    + rewrite (stage_raise _ _ _ _ _ Hr). simpl stages_fun.
      destruct (load_table (pullSpots gp it)) as [t|e'];
        simpl in Hr; [rewrite Hr | injection Hr as ->]; reflexivity.
Qed.

End JobFunction.

Section JobFunctionFacts.

Context {E : Externals}.

Lemma same_scan_refl (p : pkwargs) : same_scan p p.
Proof. repeat split. Qed.

Lemma same_scan_trans (p1 p2 p3 : pkwargs) :
  same_scan p1 p2 -> same_scan p2 p3 -> same_scan p1 p3.
Proof.
  intros (H1 & H2 & H3 & H4) (K1 & K2 & K3 & K4).
  repeat split; congruence.
Qed.

Lemma same_scan_sym (p1 p2 : pkwargs) : same_scan p1 p2 -> same_scan p2 p1.
Proof. intros (H1 & H2 & H3 & H4). repeat split; congruence. Qed.

Lemma refl_idx_same_scan (p p' : pkwargs) (t : array2) :
  same_scan p p' -> refl_idx p t = refl_idx p' t.
Proof.
  intros (H1 & H2 & H3 & _). unfold refl_idx.
  destruct (column 0 t); [|reflexivity]. simpl.
  destruct (column 6 t) as [ome|]; [|reflexivity]. simpl.
  do 2 f_equal. apply map_ext. intros x. unfold in_scan.
  rewrite H1, H2, H3. reflexivity.
Qed.

Lemma stored_same_scan (p p' : pkwargs) (idx : list bool) (t : array2) :
  same_scan p p' ->
  set_xyo_det (centroids p idx t)
    (set_hkls (hkl_columns (select_rows idx t)) p)
  = set_xyo_det (centroids p' idx t)
      (set_hkls (hkl_columns (select_rows idx t)) p').
Proof.
  intros (H1 & H2 & H3 & H4). unfold set_xyo_det, set_hkls, centroids.
  simpl. rewrite H1, H2, H3, H4. reflexivity.
Qed.

(** The loop over the stages gives the same return value and writes the
    same table for two dictionaries with the same scan description; when
    it returns, it also leaves the same dictionary. *)
Lemma stages_fun_same_scan (rest : list nat) :
  forall (p p' : pkwargs) (it : nat) (gp : array1),
    same_scan p p' ->
    fst (stages_fun p it rest gp) = fst (stages_fun p' it rest gp)
    /\ (forall r, fst (fst (stages_fun p it rest gp)) = Ok r ->
        snd (stages_fun p it rest gp) = snd (stages_fun p' it rest gp)).
Proof.
  destruct rest as [|it' rest]; intros p p' it gp Hs; simpl;
    (destruct (load_table (pullSpots gp it)) as [t|e];
     [|split; [reflexivity|discriminate]]);
    rewrite <- (refl_idx_same_scan p p' _ Hs);
    (destruct (refl_idx p t) as [idx|e];
     [|split; [reflexivity|discriminate]]);
    rewrite <- (stored_same_scan p p' idx _ Hs);
    assert (Hc : centroids p' idx t = centroids p idx t)
      by (unfold centroids; destruct Hs as (_ & _ & _ & <-); reflexivity);
    rewrite Hc;
    assert (Hp : omega_period p' = omega_period p)
      by (destruct Hs as (_ & _ & _ & <-); reflexivity);
    rewrite Hp;
    destruct (sum_bool idx <=? 12); try (split; reflexivity);
    destruct (Qeq_bool (completeness_of idx) 0); split; reflexivity.
Qed.

Lemma job_result_same_scan (p p' : pkwargs) (j : job) :
  same_scan p p' -> job_result p j = job_result p' j.
Proof.
  intros Hs. unfold job_result.
  destruct (stages_fun_same_scan [1] p p' 0 (snd j) Hs) as [Hfst Hsnd].
  destruct (stages_fun p 0 [1] (snd j)) as [[r t] p1].
  destruct (stages_fun p' 0 [1] (snd j)) as [[r' t'] p1'].
  simpl in *. injection Hfst as <- <-.
  destruct r as [[gp c]|e]; [|reflexivity].
  rewrite (Hsnd _ eq_refl). reflexivity.
Qed.

Lemma job_exn_same_scan (p p' : pkwargs) (j : job) :
  same_scan p p' -> job_exn p j = job_exn p' j.
Proof.
  intros Hs. unfold job_exn.
  destruct (stages_fun_same_scan [1] p p' 0 (snd j) Hs) as [-> _].
  reflexivity.
Qed.

(** The stages keep the scan description, raise nothing but the
    IndexError and the ValueError of a file that gives no table with its
    columns, and leave 'hkls' and 'xyo_det' in the dictionary when they
    return. *)
Lemma stages_fun_keeps (rest : list nat) :
  forall (p : pkwargs) (it : nat) (gp : array1),
    same_scan p (snd (stages_fun p it rest gp))
    /\ match fst (fst (stages_fun p it rest gp)) with
       | Ok _ => is_Some (hkls (snd (stages_fun p it rest gp)))
                 /\ is_Some (xyo_det (snd (stages_fun p it rest gp)))
       | Raise e => e = IndexError \/ e = ValueError
       end.
Proof.
  induction rest as [|it' rest IH]; intros p it gp; simpl;
    (destruct (load_table (pullSpots gp it)) as [t|e] eqn:Hl;
     [|split; [apply same_scan_refl | exact (load_table_raise _ _ Hl)]]);
    destruct (refl_idx p t) as [idx|e] eqn:Hi;
    try (split; [apply same_scan_refl
                | left; exact (refl_idx_raise _ _ _ Hi)]);
    destruct (sum_bool idx <=? 12);
    try (split; [repeat split | split; eexists; reflexivity]);
    destruct (Qeq_bool (completeness_of idx) 0);
    try (split; [repeat split | split; eexists; reflexivity]).
  destruct (IH (set_xyo_det (centroids p idx t)
                  (set_hkls (hkl_columns (select_rows idx t)) p)) it'
              (fitGrain (centroids p idx t)
                 (hkl_columns (select_rows idx t))
                 (firstn 3 gp) (firstn 3 (skipn 3 gp)) (skipn 6 gp)
                 gFlag gScl (omega_period p))) as [Hs Hr].
  split; [|exact Hr].
  eapply same_scan_trans; [|exact Hs]. repeat split.
Qed.

(** [process] on a worker, by what the job computes. *)
Lemma process_run (j : job) (w : FitGrainsWorker) (n : nat) :
  unfinished_tasks (_jobs w) = S n ->
  let t := snd (fst (stages_fun (_p w) 0 [1] (snd j))) in
  let p' := snd (stages_fun (_p w) 0 [1] (snd j)) in
  process j w =
    match job_result (_p w) j with
    | Some r =>
        (Ok tt,
         mkWorker (mkQueue (items (_jobs w)) n) (_results w ++ [r])
                  (<[fst j := t]> (spots w)) p')
    | None =>
        (Raise (job_exn (_p w) j),
         mkWorker (_jobs w) (_results w) (<[fst j := t]> (spots w)) p')
    end.
Proof.
  intros Hn t p'. unfold process, bind. rewrite stages_run.
  unfold job_result. fold t. fold p'.
  destruct (stages_fun_keeps [1] (_p w) 0 (snd j)) as [_ Hk].
  fold p' in Hk.
  destruct (fst (fst (stages_fun (_p w) 0 [1] (snd j)))) as [[gp c]|e] eqn:Hr.
  - destruct Hk as [[hk Hh] [xyo Hx]].
    assert (Hdec : stages_fun (_p w) 0 [1] (snd j) = (Ok (gp, c), t, p')).
    { unfold t, p'. rewrite <- Hr.
      destruct (stages_fun (_p w) 0 [1] (snd j)) as [[? ?] ?]. reflexivity. }
    rewrite Hdec, Hx, Hh. simpl fst. simpl snd.
    rewrite (finalize_eq _ _ _ _ xyo hk) by assumption.
    unfold task_done. simpl. rewrite Hn. reflexivity.
  - clear Hk.
    assert (Hdec : stages_fun (_p w) 0 [1] (snd j) = (Raise e, t, p')).
    { unfold t, p'. rewrite <- Hr.
      destruct (stages_fun (_p w) 0 [1] (snd j)) as [[? ?] ?]. reflexivity. }
    unfold job_exn. rewrite Hdec. reflexivity.
Qed.

End JobFunctionFacts.

(** ** One stage: tables, masks and stored reflections *)

Lemma column_raise (k : nat) (a : array2) :
  (exists r, In r a /\ length r <= k) -> column k a = Raise IndexError.
Proof.
  intros (r & Hin & Hlen). unfold column.
  destruct (forallb (fun r => k <? length r) a) eqn:Hf; [|reflexivity].
  rewrite forallb_forall in Hf. specialize (Hf r Hin).
  apply Nat.ltb_lt in Hf. lia.
Qed.

Lemma column_some (k : nat) (a : array2) :
  Forall (fun r => k < length r) a ->
  column k a = Ok (map (fun r => nth k r 0%Q) a).
Proof.
  intros H. unfold column.
  destruct (forallb (fun r => k <? length r) a) eqn:Hf; [reflexivity|].
  exfalso. apply not_true_iff_false in Hf. apply Hf.
  apply forallb_forall. intros r Hr. apply Nat.ltb_lt.
  rewrite Forall_forall in H. apply H, list_elem_of_In, Hr.
Qed.

Lemma select_rows_length (idx : list bool) (a : array2) :
  length idx = length a -> length (select_rows idx a) = sum_bool idx.
Proof.
  revert a. induction idx as [|b idx IH]; intros [|r a] H; simpl in *;
    try discriminate; try reflexivity.
  rewrite sum_bool_cons. destruct b; simpl; rewrite IH by lia; reflexivity.
Qed.

Lemma select_rows_In (idx : list bool) (a : array2) (r : list Q) :
  In r (select_rows idx a) -> In r a.
Proof.
  revert a. induction idx as [|b idx IH]; intros [|x a] H; simpl in *;
    try contradiction.
  destruct b; simpl in H; [destruct H as [->|H]|]; auto.
Qed.

Lemma last3_app (l : list Q) (a b c : Q) :
  last3 (l ++ [a; b; c]) = [a; b; c]
  /\ nth (length (l ++ [a; b; c]) - 3) (l ++ [a; b; c]) 0%Q = a
  /\ nth (length (l ++ [a; b; c]) - 2) (l ++ [a; b; c]) 0%Q = b
  /\ nth (length (l ++ [a; b; c]) - 1) (l ++ [a; b; c]) 0%Q = c.
Proof.
  unfold last3. rewrite length_app. simpl length.
  replace (length l + 3 - 3) with (length l + 0) by lia.
  replace (length l + 3 - 2) with (length l + 1) by lia.
  replace (length l + 3 - 1) with (length l + 2) by lia.
  rewrite skipn_app, skipn_all2 by lia.
  replace (length l + 0 - length l) with 0 by lia.
  rewrite !app_nth2_plus. auto.
Qed.

Lemma last3_eq (r : list Q) :
  3 <= length r ->
  last3 r = [ nth (length r - 3) r 0%Q; nth (length r - 2) r 0%Q;
              nth (length r - 1) r 0%Q ].
Proof.
  intros H.
  assert (Hs : length (skipn (length r - 3) r) = 3)
    by (rewrite length_skipn; lia).
  rewrite <- (firstn_skipn (length r - 3) r).
  destruct (skipn (length r - 3) r) as [|a [|b [|c [|d l]]]];
    try discriminate.
  destruct (last3_app (firstn (length r - 3) r) a b c)
    as (-> & -> & -> & ->).
  reflexivity.
Qed.

Section StageExtras.

Context {E : Externals}.

(** The table has its columns 0 and 6 exactly when every row has at least
    7 entries. *)
Lemma refl_idx_wf (p : pkwargs) (t : array2) :
  Forall (fun r => 7 <= length r) t -> exists idx, refl_idx p t = Ok idx.
Proof.
  intros H. unfold refl_idx.
  rewrite (column_some 0), (column_some 6).
  - simpl. eauto.
  - eapply Forall_impl; [exact H|]. simpl. intros. lia.
  - eapply Forall_impl; [exact H|]. simpl. intros. lia.
Qed.

Lemma refl_idx_short (p : pkwargs) (t : array2) :
  (exists r, In r t /\ length r < 7) -> refl_idx p t = Raise IndexError.
Proof.
  intros (r & Hin & Hlen). unfold refl_idx.
  destruct (column 0 t) as [ids|e] eqn:H0.
  - simpl. rewrite (column_raise 6); [reflexivity|].
    exists r. split; [exact Hin|lia].
  - unfold column in H0. destruct (forallb _ t); [discriminate|].
    injection H0 as <-. reflexivity.
Qed.

(** X1.  For a spots file of at least two lines, all of one length, whose
    table has its columns 0 and 6, [fit_grains] returns completeness 0
    exactly when at most 12 reflections are valid; when the fit is run the
    completeness is strictly positive, so the test [compl == 0] of [loop]
    never ends the loop after a stage that ran the fit. *)
Theorem compl_zero_iff_insufficient (id : nat) (gp : array1)
    (w : FitGrainsWorker) (gtable : array2) (idx : list bool) :
  spots w !! id = Some gtable ->
  2 <= length gtable ->
  same_columns gtable = true ->
  refl_idx (_p w) gtable = Ok idx ->
  exists gp' c,
    fst (fit_grains id gp w) = Ok (gp', c)
    /\ (Qeq_bool c 0 = true <-> sum_bool idx <= 12)
    /\ (12 < sum_bool idx -> (0 < c)%Q).
Proof.
  intros Hf Hlen Hsame Hi.
  rewrite (fit_grains_eq _ _ _ _ _ _ Hf (table_loads _ _ _ Hsame Hi Hlen) Hi).
  destruct (Nat.leb_spec (sum_bool idx) 12) as [Hle|Hgt]; simpl.
  - exists gp, 0%Q. split; [reflexivity|]. split; [|lia].
    split; [intros _; exact Hle | reflexivity].
  - eexists _, _. split; [reflexivity|].
    destruct (completeness_bounds idx) as [Hpos _]; [lia|].
    split; [|intros _; exact Hpos]. split; [|lia].
    intros Hz. apply Qeq_bool_eq in Hz. rewrite Hz in Hpos.
    exfalso. exact (Qlt_irrefl _ Hpos).
Qed.

(** X2.  What [fit_grains] stores for a table that has its columns: 'hkls'
    is 3 rows of as many entries as there are valid reflections, 'xyo_det'
    is one row of 3 entries per valid reflection, and the row of the k-th
    valid reflection holds its last-but-two and last-but-one table entries
    unchanged and [mapAngle] of its last entry. *)
Theorem stored_reflection_shapes (p : pkwargs) (gtable : array2)
    (idx : list bool) :
  refl_idx p gtable = Ok idx ->
  let rows := select_rows idx gtable in
  length rows = sum_bool idx
  /\ Forall (fun h => length h = sum_bool idx) (hkl_columns rows)
  /\ length (hkl_columns rows) = 3
  /\ length (centroids p idx gtable) = sum_bool idx
  /\ forall k r, rows !! k = Some r ->
       centroids p idx gtable !! k
       = Some [ nth (length r - 3) r 0%Q; nth (length r - 2) r 0%Q;
                mapAngle (nth (length r - 1) r 0%Q) (omega_period p) ].
Proof.
  intros H rows.
  assert (Hlen : length rows = sum_bool idx).
  { apply select_rows_length, (refl_idx_length _ _ _ H). }
  split; [exact Hlen|]. split.
  { unfold hkl_columns. repeat constructor; rewrite length_map; exact Hlen. }
  split; [reflexivity|]. split.
  { unfold centroids. rewrite length_map. exact Hlen. }
  intros k r Hr. unfold rows in Hr.
  etransitivity;
    [exact (lookup_map
              (fun r => let r3 := last3 r in
                        <[2 := mapAngle (nth 2 r3 0%Q) (omega_period p)]> r3)
              _ _ _ Hr)|].
  cbv zeta. f_equal.
  assert (Hr7 : 7 <= length r).
  { pose proof (refl_idx_rows _ _ _ H) as Hall.
    rewrite Forall_forall in Hall. apply Hall, list_elem_of_In.
    apply (select_rows_In idx). apply list_elem_of_In.
    eapply list_elem_of_lookup_2. exact Hr. }
  rewrite last3_eq by lia. reflexivity.
Qed.

End StageExtras.

(** ** One job *)

Section JobExtras.

Context {E : Externals}.

Lemma process_eq (j : job) (w : FitGrainsWorker) :
  let t := snd (fst (stages_fun (_p w) 0 [1] (snd j))) in
  let p' := snd (stages_fun (_p w) 0 [1] (snd j)) in
  process j w =
    match job_result (_p w) j with
    | Some r =>
        task_done (mkWorker (_jobs w) (_results w ++ [r])
                            (<[fst j := t]> (spots w)) p')
    | None =>
        (Raise (job_exn (_p w) j),
         mkWorker (_jobs w) (_results w) (<[fst j := t]> (spots w)) p')
    end.
Proof.
  intros t p'. unfold process, bind. rewrite stages_run.
  unfold job_result. fold t. fold p'.
  destruct (stages_fun_keeps [1] (_p w) 0 (snd j)) as [_ Hk].
  fold p' in Hk.
  destruct (fst (fst (stages_fun (_p w) 0 [1] (snd j)))) as [[gp c]|e] eqn:Hr.
  - destruct Hk as [[hk Hh] [xyo Hx]].
    assert (Hdec : stages_fun (_p w) 0 [1] (snd j) = (Ok (gp, c), t, p')).
    { unfold t, p'. rewrite <- Hr.
      destruct (stages_fun (_p w) 0 [1] (snd j)) as [[? ?] ?]. reflexivity. }
    rewrite Hdec, Hx, Hh. simpl fst. simpl snd.
    rewrite (finalize_eq _ _ _ _ xyo hk) by assumption. reflexivity.
  - clear Hk.
    assert (Hdec : stages_fun (_p w) 0 [1] (snd j) = (Raise e, t, p')).
    { unfold t, p'. rewrite <- Hr.
      destruct (stages_fun (_p w) 0 [1] (snd j)) as [[? ?] ?]. reflexivity. }
    unfold job_exn. rewrite Hdec. reflexivity.
Qed.

(** X3.  A spots file that gives no table with its columns loses the job.
    When the data lines of the file of the first association differ in
    length, [np.loadtxt] raises ValueError; when they have one length but
    are fewer than two, or have fewer than 7 entries, the subscripts of
    [fit_grains] raise IndexError.  Either way [loop] raises after the
    spots file is written and before anything else changes: no result is
    appended, the task is not acknowledged, the dictionary is as before. *)
Theorem short_row_loses_job (id : nat) (gp : array1) (w : FitGrainsWorker) :
  let lines := data_lines (pullSpots gp 0) in
  let w1 := with_spots (<[id := pullSpots gp 0]> (spots w)) w in
  (same_columns lines = false ->
   process (id, gp) w = (Raise ValueError, w1))
  /\ (same_columns lines = true ->
      length lines < 2 \/ (exists r, In r lines /\ length r < 7) ->
      process (id, gp) w = (Raise IndexError, w1)).
Proof.
  intros lines w1.
  assert (Hp : forall e,
            rbind (load_table (pullSpots gp 0)) (refl_idx (_p w)) = Raise e ->
            process (id, gp) w = (Raise e, w1)).
  { intros e He. unfold process, bind. cbn [fst snd].
    rewrite (stage_raise 0 id gp w e He [1]). reflexivity. }
  split.
  - intros Hrag. apply Hp. rewrite (load_table_ragged _ Hrag). reflexivity.
  - intros Hsame Hbad. apply Hp.
    destruct (load_table (pullSpots gp 0)) as [t|e] eqn:Hl.
    + apply load_table_inv in Hl as (-> & Hlen & _). fold lines in Hlen.
      destruct Hbad as [Hfew|Hshort]; [lia|].
      simpl. apply refl_idx_short. exact Hshort.
    + simpl. f_equal. unfold load_table, np_loadtxt in Hl.
      fold lines in Hl. rewrite Hsame in Hl. simpl in Hl.
      destruct (squeeze lines); simpl in Hl; [|discriminate].
      injection Hl as <-. reflexivity.
Qed.

(** X5.  [loop], after its dequeue, changes nothing but: the spots file of
    its own grain, the entries 'hkls' and 'xyo_det' of its dictionary, the
    count of unfinished tasks, and the end of the result list, where it
    appends at most one tuple.  The queue's items, the other grains' spots
    files, the results already there and the scan description stay. *)
Theorem process_touches_only_its_own (j : job) (w : FitGrainsWorker) :
  items (_jobs (snd (process j w))) = items (_jobs w)
  /\ (forall id', id' <> fst j ->
        spots (snd (process j w)) !! id' = spots w !! id')
  /\ same_scan (_p w) (_p (snd (process j w)))
  /\ exists new, _results (snd (process j w)) = _results w ++ new
                 /\ length new <= 1.
Proof.
  rewrite process_eq.
  destruct (stages_fun_keeps [1] (_p w) 0 (snd j)) as [Hs _].
  destruct (job_result (_p w) j) as [r|]; simpl.
  - unfold task_done. simpl.
    destruct (unfinished_tasks (_jobs w)); simpl;
      (split; [reflexivity|]);
      (split; [intros id' Hne; apply lookup_insert_ne; congruence|]);
      (split; [exact Hs|]); exists [r]; auto.
  - split; [reflexivity|].
    split; [intros id' Hne; apply lookup_insert_ne; congruence|].
    split; [exact Hs|]. exists []. rewrite app_nil_r. auto.
Qed.

(** X6.  What [loop] appends for a job does not depend on the worker that
    runs it, nor on what is in the queue, the result list, the spots files
    or the entries 'hkls' and 'xyo_det' left by an earlier job: two workers
    with the same scan description end the job the same way and append the
    same tuple. *)
Theorem result_independent_of_worker (j : job) (w1 w2 : FitGrainsWorker) :
  same_scan (_p w1) (_p w2) ->
  unfinished_tasks (_jobs w1) <> 0 ->
  unfinished_tasks (_jobs w2) <> 0 ->
  fst (process j w1) = fst (process j w2)
  /\ exists new,
       _results (snd (process j w1)) = _results w1 ++ new
       /\ _results (snd (process j w2)) = _results w2 ++ new.
Proof.
  intros Hs H1 H2. rewrite !process_eq.
  rewrite <- (job_result_same_scan _ _ j Hs).
  rewrite <- (job_exn_same_scan _ _ j Hs).
  destruct (job_result (_p w1) j) as [r|]; simpl.
  - unfold task_done. simpl.
    destruct (unfinished_tasks (_jobs w1)); [congruence|].
    destruct (unfinished_tasks (_jobs w2)); [congruence|].
    simpl. split; [reflexivity|]. exists [r]. auto.
  - split; [reflexivity|]. exists []. rewrite !app_nil_r. auto.
Qed.

End JobExtras.

Section TwoStages.

Context {E : Externals}.

(** X7.  When both associations leave more than 12 valid reflections, each
    in a table whose lines have one length, the job goes through both
    fits: the second association starts from the
    parameters of the first fit, and the tuple appended carries the
    parameters of the second fit, the completeness of the second
    association and the residual over the reflections of the second
    association.  The spots file is the table of the second association and
    the task is acknowledged. *)
Theorem both_stages_result (id : nat) (gp : array1) (w : FitGrainsWorker)
    (idx0 idx1 : list bool) (n : nat) :
  let p := _p w in
  let t0 := pullSpots gp 0 in
  let gp1 := fitGrain (centroids p idx0 t0)
                      (hkl_columns (select_rows idx0 t0))
                      (firstn 3 gp) (firstn 3 (skipn 3 gp)) (skipn 6 gp)
                      gFlag gScl (omega_period p) in
  let t1 := pullSpots gp1 1 in
  let gp2 := fitGrain (centroids p idx1 t1)
                      (hkl_columns (select_rows idx1 t1))
                      (firstn 3 gp1) (firstn 3 (skipn 3 gp1)) (skipn 6 gp1)
                      gFlag gScl (omega_period p) in
  same_columns t0 = true ->
  refl_idx p t0 = Ok idx0 -> 12 < sum_bool idx0 ->
  same_columns t1 = true ->
  refl_idx p t1 = Ok idx1 -> 12 < sum_bool idx1 ->
  unfinished_tasks (_jobs w) = S n ->
  exists w',
    process (id, gp) w = (Ok tt, w')
    /\ _results w'
       = _results w
         ++ [mkFitResult id gp2 (completeness_of idx1)
               (logm (inv (vecMVToSymm (skipn 6 gp2))))
               (sum_sq (objFuncFitGrain (select gFlag gp2) gp2 gFlag
                          (centroids p idx1 t1)
                          (hkl_columns (select_rows idx1 t1))
                          (omega_period p) false))]
    /\ spots w' !! id = Some t1
    /\ unfinished_tasks (_jobs w') = n.
Proof.
  intros p t0 gp1 t1 gp2 Hsame0 Hidx0 Hn0 Hsame1 Hidx1 Hn1 Hn.
  assert (Hl0 : load_table t0 = Ok t0).
  { apply (table_loads _ _ _ Hsame0 Hidx0).
    rewrite <- (refl_idx_length _ _ _ Hidx0).
    pose proof (sum_bool_le idx0). lia. }
  assert (Hl1 : load_table t1 = Ok t1).
  { apply (table_loads _ _ _ Hsame1 Hidx1).
    rewrite <- (refl_idx_length _ _ _ Hidx1).
    pose proof (sum_bool_le idx1). lia. }
  assert (Hsf : stages_fun p 0 [1] gp
                = (Ok (gp2, completeness_of idx1), t1,
                   set_xyo_det (centroids p idx1 t1)
                     (set_hkls (hkl_columns (select_rows idx1 t1)) p))).
  { simpl stages_fun. fold t0. rewrite Hl0, Hidx0.
    destruct (Nat.leb_spec (sum_bool idx0) 12) as [H|_]; [lia|].
    destruct (completeness_bounds idx0) as [Hpos _]; [lia|].
    destruct (Qeq_bool (completeness_of idx0) 0) eqn:Hz.
    { apply Qeq_bool_eq in Hz. rewrite Hz in Hpos.
      exfalso. exact (Qlt_irrefl _ Hpos). }
    fold gp1. fold t1. rewrite Hl1.
    rewrite (refl_idx_same_scan _ p t1) by (repeat split).
    rewrite Hidx1.
    destruct (Nat.leb_spec (sum_bool idx1) 12) as [H|_]; [lia|].
    destruct (Qeq_bool (completeness_of idx1) 0); reflexivity. }
  rewrite (process_run (id, gp) w n Hn). unfold job_result. cbn [fst snd].
  fold p. rewrite Hsf. cbn [fst snd xyo_det hkls set_xyo_det set_hkls].
  eexists. split; [reflexivity|]. cbn [_results spots _jobs unfinished_tasks].
  split; [reflexivity|]. split; [apply lookup_insert_eq|reflexivity].
Qed.

End TwoStages.

(** ** A worker alone on the queue *)

Section RunExtras.

Context {E : Externals}.

(** A spots file that is a table with its columns: at least two lines,
    all of one length, of at least 7 entries. *)
Definition table_wf (t : array2) : Prop :=
  2 <= length t /\ same_columns t = true
  /\ Forall (fun r => 7 <= length r) t.

(** Every file that [pullSpots] writes is such a table. *)
Definition tables_wf : Prop := forall gp it, table_wf (pullSpots gp it).

Lemma table_wf_loads (t : array2) : table_wf t -> load_table t = Ok t.
Proof.
  intros (Hlen & Hsame & Hcols).
  apply load_table_ok; [exact Hlen | exact Hsame|].
  eapply Forall_impl; [exact Hcols|]. simpl. intros. lia.
Qed.

Lemma stages_fun_ok (Hwf : tables_wf) (rest : list nat) :
  forall (p : pkwargs) (it : nat) (gp : array1),
    exists r, fst (fst (stages_fun p it rest gp)) = Ok r.
Proof.
  induction rest as [|it' rest IH]; intros p it gp; simpl;
    rewrite (table_wf_loads _ (Hwf gp it));
    destruct (refl_idx_wf p (pullSpots gp it) (proj2 (proj2 (Hwf gp it))))
      as [idx ->];
    destruct (sum_bool idx <=? 12); simpl; eauto;
    destruct (Qeq_bool (completeness_of idx) 0); simpl; eauto.
Qed.

Lemma job_result_wf (Hwf : tables_wf) (p : pkwargs) (j : job) :
  is_Some (job_result p j).
Proof.
  unfold job_result.
  destruct (stages_fun_ok Hwf [1] p 0 (snd j)) as [[gp c] Hr].
  destruct (stages_fun_keeps [1] p 0 (snd j)) as [_ Hk].
  rewrite Hr in Hk. destruct Hk as [[hk Hh] [xyo Hx]].
  destruct (stages_fun p 0 [1] (snd j)) as [[r t] p'].
  simpl in *. subst r. rewrite Hx, Hh. eauto.
Qed.

Lemma job_result_id (p : pkwargs) (j : job) (r : FitResult) :
  job_result p j = Some r -> grain_id r = fst j.
Proof.
  unfold job_result.
  destruct (stages_fun p 0 [1] (snd j)) as [[[[gp c]|e] t] p'];
    [|discriminate].
  destruct (xyo_det p'); [|discriminate].
  destruct (hkls p'); [|discriminate].
  intros H. injection H as <-. reflexivity.
Qed.

Lemma job_results_length (Hwf : tables_wf) (p : pkwargs) (l : list job) :
  length (omap (job_result p) l) = length l.
Proof.
  induction l as [|j q IHq]; [reflexivity|].
  simpl. destruct (job_result_wf Hwf p j) as [r ->]. simpl.
  f_equal. exact IHq.
Qed.

Lemma run_iter_completes (Hwf : tables_wf) (p0 : pkwargs) (n : nat) :
  forall w,
    same_scan p0 (_p w) ->
    length (items (_jobs w)) = n ->
    n <= unfinished_tasks (_jobs w) ->
    exists w',
      run_iter (S n) w = Some (Ok tt, w')
      /\ items (_jobs w') = []
      /\ unfinished_tasks (_jobs w') = unfinished_tasks (_jobs w) - n
      /\ _results w' = _results w ++ omap (job_result p0) (items (_jobs w)).
Proof.
  induction n as [|n IH]; intros w Hs Hlen Hu.
  - assert (Hq : items (_jobs w) = [])
      by (destruct (items (_jobs w)); [reflexivity|discriminate]).
    exists w. simpl. rewrite (loop_empty _ Hq), Hq. simpl.
    rewrite app_nil_r, Nat.sub_0_r. auto.
  - destruct (items (_jobs w)) as [|j q] eqn:Hq; [discriminate|].
    destruct (unfinished_tasks (_jobs w)) as [|m] eqn:Hm; [lia|].
    pose (w1 := with_jobs (mkQueue q (S m)) w).
    assert (Hl : loop w = process j w1)
      by (rewrite (loop_cons _ _ _ Hq), Hm; reflexivity).
    pose proof (process_run j w1 m eq_refl) as Hp. cbv zeta in Hp.
    destruct (job_result_wf Hwf (_p w1) j) as [r Hr].
    rewrite Hr in Hp.
    assert (Hr0 : job_result p0 j = Some r).
    { rewrite <- Hr. apply job_result_same_scan. exact Hs. }
    destruct (stages_fun_keeps [1] (_p w1) 0 (snd j)) as [Hk _].
    match type of Hp with _ = (_, ?w2) =>
      destruct (IH w2) as (w' & Hrun & Hi & Hu' & Hres) end.
    + eapply same_scan_trans; [exact Hs | exact Hk].
    + simpl in *. lia.
    + simpl. lia.
    + exists w'. split.
      { change (run_iter (S (S n)) w)
          with (match loop w with
                | (Ok _, w') => run_iter (S n) w'
                | (Raise Empty, w') => Some (Ok tt, w')
                | (Raise e, w') => Some (Raise e, w')
                end).
        rewrite Hl, Hp. exact Hrun. }
      split; [exact Hi|]. split.
      { rewrite Hu'. simpl. lia. }
      rewrite Hres. simpl. rewrite Hr0, <- app_assoc. reflexivity.
Qed.

(** X8.  If every spots file is a table with its columns (at least two
    lines, all of one length, of at least 7 entries), the imported routines
    return, and the queue counts at least as many unfinished tasks as it
    holds jobs, [run] ends normally with the queue empty, every job
    acknowledged, and the result list extended by the tuples of the jobs in
    queue order. *)
Theorem run_completes (w : FitGrainsWorker) :
  tables_wf ->
  length (items (_jobs w)) <= unfinished_tasks (_jobs w) ->
  exists w',
    run w = (Ok tt, w')
    /\ items (_jobs w') = []
    /\ unfinished_tasks (_jobs w')
       = unfinished_tasks (_jobs w) - length (items (_jobs w))
    /\ _results w'
       = _results w ++ omap (job_result (_p w)) (items (_jobs w))
    /\ length (_results w')
       = length (_results w) + length (items (_jobs w)).
Proof.
  intros Hwf Hu.
  destruct (run_iter_completes Hwf (_p w) _ w (same_scan_refl _) eq_refl Hu)
    as (w' & Hrun & Hi & Hu' & Hres).
  exists w'. unfold run. rewrite Hrun.
  split; [reflexivity|]. split; [exact Hi|]. split; [exact Hu'|].
  split; [exact Hres|].
  rewrite Hres, length_app. f_equal.
  apply job_results_length. exact Hwf.
Qed.

End RunExtras.

(** ** The pool: lost jobs, schedules and the report *)

(** Every tuple in the result list is the tuple of a job of the batch;
    every job in the queue or held by a process is a job of the batch;
    every process has the scan description the batch started with. *)
Definition batch_inv {E : Externals} (p0 : pkwargs) (jobs0 : list job)
    (s : system) : Prop :=
  Forall (fun r => exists j, j ∈ jobs0 /\ job_result p0 j = Some r)
         (results s)
  /\ Forall (fun j => j ∈ jobs0) (items (job_queue s))
  /\ Forall (fun w => same_scan p0 (fst w)
                      /\ match snd w with
                         | Busy j => j ∈ jobs0
                         | _ => True
                         end)
            (workers s).

Lemma held_nonempty (ws : list (pkwargs * status)) (k : nat) (p : pkwargs)
    (st : status) (i : nat) :
  ws !! k = Some (p, st) -> held st = [i] -> 0 < length (in_flight ws).
Proof.
  intros Hk Hh.
  destruct (in_flight_insert ws k p p st st Hk) as (others & Ho & _).
  rewrite Ho, Hh. simpl. lia.
Qed.

Lemma complete_ids (n : nat) (s : system) :
  pool_inv n s -> length (results s) = n ->
  map grain_id (results s) ≡ₚ seq 0 n
  /\ items (job_queue s) = [] /\ in_flight (workers s) = [].
Proof.
  intros [Hperm _] Hn.
  assert (Hlen : length (map fst (items (job_queue s)))
                 + (length (in_flight (workers s))
                    + length (map grain_id (results s))) = n).
  { rewrite <- !length_app, Hperm. apply length_seq. }
  rewrite (length_map grain_id) in Hlen.
  assert (Hq : map fst (items (job_queue s)) = [])
    by (apply nil_length_inv; lia).
  assert (Hf : in_flight (workers s) = [])
    by (apply nil_length_inv; lia).
  rewrite Hq, Hf in Hperm. simpl in Hperm.
  split; [exact Hperm|]. split; [|exact Hf].
  destruct (items (job_queue s)); [reflexivity|discriminate].
Qed.

Lemma sorted_perm_eq (rs rs' : list FitResult) :
  NoDup (map grain_id rs) -> rs ≡ₚ rs' -> sorted rs = sorted rs'.
Proof.
  intros Hnd Hperm.
  destruct (sorted_sorted rs Hnd) as (rows & Hs & Hp & Hsorted).
  assert (Hnd' : NoDup (map grain_id rs')).
  { change (NoDup (grain_id <$> rs')). rewrite <- Hperm. exact Hnd. }
  destruct (sorted_sorted rs' Hnd') as (rows' & Hs' & Hp' & Hsorted').
  rewrite Hs, Hs'. f_equal.
  apply (StronglySorted_unique id_lt); [assumption..|].
  rewrite Hp, Hp'. exact Hperm.
Qed.

Section PoolExtras.

Context {E : Externals}.

Lemma fire_batch_inv (n : nat) (p0 : pkwargs) (jobs0 : list job) (k : nat)
    (s s' : system) :
  pool_inv n s -> batch_inv p0 jobs0 s -> fire k s = Some s' ->
  batch_inv p0 jobs0 s'.
Proof.
  intros [_ Hcount] (Hres & Hq & Hws) Hfire. unfold fire in Hfire.
  destruct (workers s !! k) as [[p st]|] eqn:Hk; [|discriminate].
  pose proof (Forall_lookup_1 _ _ _ _ Hws Hk) as [Hsc Hst].
  simpl in Hsc, Hst.
  destruct st as [|j| |e j]; try discriminate.
  - unfold get_nowait, view in Hfire. simpl in Hfire.
    destruct (items (job_queue s)) as [|j q] eqn:Hi;
      injection Hfire as <-; unfold batch_inv, commit; simpl.
    + rewrite Hi. split; [exact Hres|]. split; [constructor|].
      apply Forall_insert; [exact Hws|]. simpl. auto.
    + apply Forall_cons in Hq as [Hj Hq].
      split; [exact Hres|]. split; [exact Hq|].
      apply Forall_insert; [exact Hws|]. simpl. auto.
  - assert (Hpos : 0 < length (in_flight (workers s)))
      by (eapply held_nonempty; [exact Hk|reflexivity]).
    destruct (unfinished_tasks (job_queue s)) as [|m] eqn:Hm; [lia|].
    pose proof (process_run j (view s p) m Hm) as Hp. cbv zeta in Hp.
    simpl _p in Hp. rewrite <- (job_result_same_scan p0 p j Hsc) in Hp.
    destruct (stages_fun_keeps [1] p 0 (snd j)) as [Hkeep _].
    rewrite Hp in Hfire.
    destruct (job_result p0 j) as [r|] eqn:Hr;
      injection Hfire as <-; unfold batch_inv, commit; simpl.
    + split.
      { apply Forall_app. split; [exact Hres|].
        constructor; [|constructor]. eauto. }
      split; [exact Hq|].
      apply Forall_insert; [exact Hws|]. simpl. split; [|exact I].
      eapply same_scan_trans; [exact Hsc | exact Hkeep].
    + split; [exact Hres|]. split; [exact Hq|].
      apply Forall_insert; [exact Hws|]. simpl. split; [|exact I].
      eapply same_scan_trans; [exact Hsc | exact Hkeep].
Qed.

Lemma reachable_batch_inv (n : nat) (p0 : pkwargs) (jobs0 : list job)
    (s s' : system) :
  pool_inv n s -> batch_inv p0 jobs0 s -> rtc step s s' ->
  pool_inv n s' /\ batch_inv p0 jobs0 s'.
Proof.
  intros Hinv Hb Hsteps.
  induction Hsteps as [s|s s1 s2 [k Hk] _ IH]; [auto|].
  apply IH.
  - exact (fire_inv n k s s1 Hinv Hk).
  - exact (fire_batch_inv n p0 jobs0 k s s1 Hinv Hb Hk).
Qed.

Lemma start_batch_inv (cfg : config) (quats : array2) (s : system) :
  start cfg quats = Ok s ->
  batch_inv (make_pkwargs cfg) (items (job_queue s)) s
  /\ load_queue quats (mkQueue [] 0) = Ok (job_queue s)
  /\ map fst (items (job_queue s)) = seq 0 (length quats)
  /\ results s = []
  /\ workers s = replicate (multiprocessing cfg) (make_pkwargs cfg, Idle).
Proof.
  unfold start. intros H.
  destruct (load_queue quats (mkQueue [] 0)) as [q|e] eqn:Hq; [|discriminate].
  simpl in H. injection H as <-. simpl.
  split; [|split; [reflexivity|split; [|auto]]].
  - unfold batch_inv. simpl. split; [constructor|].
    split; [apply Forall_forall; auto|].
    apply Forall_replicate. simpl. split; [apply same_scan_refl|exact I].
  - unfold load_queue, enumerate in Hq.
    destruct (angleAxisOfRotMat _) as [phi n].
    apply load_jobs_ids in Hq as [Hi _]. exact Hi.
Qed.

End PoolExtras.

Section PoolTheorems.

Context {E : Externals}.

Lemma fire_keeps_crashed (k k' : nat) (s s' : system) (p : pkwargs)
    (e : exn) (j : job) :
  fire k' s = Some s' ->
  workers s !! k = Some (p, Crashed e j) ->
  workers s' !! k = Some (p, Crashed e j).
Proof.
  intros Hfire Hk. unfold fire in Hfire.
  destruct (Nat.eq_dec k' k) as [->|Hne].
  - rewrite Hk in Hfire. discriminate.
  - destruct (workers s !! k') as [[p' st]|]; [|discriminate].
    destruct st as [|j'| |e' j']; try discriminate.
    + destruct (get_nowait (view s p')) as [[j'|e'] w'];
        injection Hfire as <-; simpl;
        rewrite list_lookup_insert_ne by exact Hne; exact Hk.
    + destruct (process j' (view s p')) as [[u|e'] w'];
        injection Hfire as <-; simpl;
        rewrite list_lookup_insert_ne by exact Hne; exact Hk.
Qed.

(** X9.  A process that died on a job stays dead and keeps the job: in
    every later state of the pool no result carries that grain id and the
    result list is shorter than the batch, so the orchestrator's wait for
    [n_quats] results never ends. *)
Theorem crashed_job_never_reported (cfg : config) (quats : array2)
    (s0 s s' : system) (k : nat) (p : pkwargs) (e : exn) (j : job) :
  start cfg quats = Ok s0 ->
  rtc step s0 s ->
  workers s !! k = Some (p, Crashed e j) ->
  rtc step s s' ->
  workers s' !! k = Some (p, Crashed e j)
  /\ (fst j ∉ map grain_id (results s'))
  /\ length (results s') < length quats
  /\ ~ barrier (length quats) s'.
Proof.
  intros Hstart Hreach Hk Hlater.
  assert (Hk' : workers s' !! k = Some (p, Crashed e j)).
  { clear Hreach. induction Hlater as [s|s s1 s2 [k' Hf] _ IH]; [exact Hk|].
    apply IH. exact (fire_keeps_crashed k k' s s1 p e j Hf Hk). }
  assert (Hinv : pool_inv (length quats) s').
  { eapply reachable_inv; [|exact Hlater].
    eapply reachable_inv; [|exact Hreach].
    apply (start_inv cfg). exact Hstart. }
  destruct Hinv as [Hperm _].
  destruct (in_flight_insert _ k p p (Crashed e j) (Crashed e j) Hk')
    as (others & Ho & _).
  simpl in Ho.
  assert (Hnd : NoDup (map fst (items (job_queue s'))
                       ++ in_flight (workers s')
                       ++ map grain_id (results s'))).
  { rewrite Hperm. apply NoDup_seq. }
  assert (Hlen : length (map fst (items (job_queue s')))
                 + (length (in_flight (workers s'))
                    + length (map grain_id (results s'))) = length quats).
  { rewrite <- !length_app, Hperm. apply length_seq. }
  rewrite (length_map grain_id), Ho in Hlen. simpl in Hlen.
  assert (Hshort : length (results s') < length quats) by lia.
  split; [exact Hk'|]. split; [|split; [exact Hshort|]].
  - apply NoDup_app in Hnd as (_ & _ & Hnd).
    apply NoDup_app in Hnd as (_ & Hdisj & _).
    apply Hdisj. rewrite Ho. left.
  - intros [Hn _]. lia.
Qed.

(** X10.  Without worker processes nothing happens: the pool stays in its
    starting state, and the orchestrator's wait can end only for an empty
    batch. *)
Theorem no_workers_no_progress (cfg : config) (quats : array2)
    (s0 s : system) :
  multiprocessing cfg = 0 ->
  start cfg quats = Ok s0 ->
  rtc step s0 s ->
  s = s0 /\ (barrier (length quats) s <-> quats = []).
Proof.
  intros Hz Hstart Hreach.
  destruct (start_batch_inv cfg quats s0 Hstart)
    as (_ & _ & Hids & Hres & Hws).
  rewrite Hz in Hws. simpl in Hws.
  pose proof (start_inv cfg quats s0 Hstart) as [_ Hcount].
  assert (Hs : s = s0).
  { inversion Hreach as [|? s1 ? [k Hf] _]; [reflexivity|].
    unfold fire in Hf. rewrite Hws in Hf. discriminate. }
  split; [exact Hs|]. subst s. unfold barrier. rewrite Hres. simpl.
  split.
  - intros [Hn _]. destruct quats; [reflexivity|discriminate].
  - intros ->. split; [reflexivity|].
    rewrite Hcount, Hws.
    assert (Hl : length (items (job_queue s0)) = 0).
    { transitivity (length (map fst (items (job_queue s0))));
        [symmetry; apply length_map | rewrite Hids; reflexivity]. }
    rewrite Hl. reflexivity.
Qed.

Lemma unique_job (jobs : list job) (j j' : job) :
  NoDup (map fst jobs) -> j ∈ jobs -> j' ∈ jobs -> fst j = fst j' -> j = j'.
Proof.
  induction jobs as [|x jobs IH]; intros Hnd Hj Hj' Heq.
  - inversion Hj.
  - simpl in Hnd. apply NoDup_cons in Hnd as [Hx Hnd].
    apply elem_of_cons in Hj as [->|Hj];
      apply elem_of_cons in Hj' as [->|Hj']; auto.
    + exfalso. apply Hx. rewrite Heq.
      apply list_elem_of_In, in_map, list_elem_of_In, Hj'.
    + exfalso. apply Hx. rewrite <- Heq.
      apply list_elem_of_In, in_map, list_elem_of_In, Hj.
Qed.

Lemma results_included (p0 p0' : pkwargs) (jobs0 : list job) (n : nat)
    (s s' : system) :
  same_scan p0 p0' ->
  map fst jobs0 = seq 0 n ->
  batch_inv p0 jobs0 s -> batch_inv p0' jobs0 s' ->
  map grain_id (results s') ≡ₚ seq 0 n ->
  forall r, r ∈ results s -> r ∈ results s'.
Proof.
  intros Hsc Hids (Hres & _) (Hres' & _) Hperm r Hr.
  rewrite Forall_forall in Hres, Hres'.
  destruct (Hres r Hr) as (j & Hj & Hjr).
  assert (Hi : fst j ∈ map grain_id (results s')).
  { rewrite Hperm, <- Hids.
    apply list_elem_of_In, in_map, list_elem_of_In, Hj. }
  apply list_elem_of_In, in_map_iff in Hi as (r' & Hid & Hr').
  apply list_elem_of_In in Hr'.
  destruct (Hres' r' Hr') as (j' & Hj' & Hjr').
  assert (Hjj : j' = j).
  { apply (unique_job jobs0); [rewrite Hids; apply NoDup_seq|auto..].
    rewrite <- (job_result_id _ _ _ Hjr'). exact Hid. }
  subst j'. rewrite <- (job_result_same_scan p0 p0' j Hsc) in Hjr'.
  rewrite Hjr in Hjr'. injection Hjr' as <-. exact Hr'.
Qed.

(** X11.  The report does not depend on the schedule nor on the number of
    workers: two runs of the pool on the same quaternions and the same
    scan description, each stopped when its result list has one entry per
    quaternion, hold the same tuples, up to their order, and give the same
    report. *)
Theorem report_independent_of_schedule (cfg cfg' : config) (quats : array2)
    (s0 s0' s s' : system) :
  start cfg quats = Ok s0 ->
  start cfg' quats = Ok s0' ->
  same_scan (make_pkwargs cfg) (make_pkwargs cfg') ->
  rtc step s0 s -> rtc step s0' s' ->
  length (results s) = length quats ->
  length (results s') = length quats ->
  results s ≡ₚ results s' /\ report (results s) = report (results s').
Proof.
  intros Hst Hst' Hsc Hreach Hreach' Hn Hn'.
  destruct (start_batch_inv cfg quats s0 Hst) as (Hb0 & Hq & Hids & _).
  destruct (start_batch_inv cfg' quats s0' Hst') as (Hb0' & Hq' & _).
  assert (Hjobs : items (job_queue s0') = items (job_queue s0)).
  { rewrite Hq in Hq'. injection Hq' as <-. reflexivity. }
  rewrite Hjobs in Hb0'.
  destruct (reachable_batch_inv _ _ _ s0 s (start_inv _ _ _ Hst) Hb0 Hreach)
    as [Hinv Hb].
  destruct (reachable_batch_inv _ _ _ s0' s' (start_inv _ _ _ Hst') Hb0'
              Hreach') as [Hinv' Hb'].
  destruct (complete_ids _ s Hinv Hn) as (Hperm & _).
  destruct (complete_ids _ s' Hinv' Hn') as (Hperm' & _).
  assert (Hnd : NoDup (map grain_id (results s)))
    by (rewrite Hperm; apply NoDup_seq).
  assert (Hnd' : NoDup (map grain_id (results s')))
    by (rewrite Hperm'; apply NoDup_seq).
  assert (HP : results s ≡ₚ results s').
  { apply NoDup_Permutation.
    - apply (NoDup_fmap_1 grain_id). exact Hnd.
    - apply (NoDup_fmap_1 grain_id). exact Hnd'.
    - intros r. split.
      + exact (results_included _ _ _ _ s s' Hsc Hids Hb Hb' Hperm' r).
      + exact (results_included _ _ _ _ s' s (same_scan_sym _ _ Hsc) Hids
                 Hb' Hb Hperm r). }
  split; [exact HP|].
  unfold report. rewrite (sorted_perm_eq _ _ Hnd HP). reflexivity.
Qed.

End PoolTheorems.

Section Liveness.

Context {E : Externals}.

Lemma in_flight_idle (ws : list (pkwargs * status)) (k : nat)
    (p p' : pkwargs) :
  ws !! k = Some (p, Idle) -> in_flight ws = [] ->
  in_flight (<[k := (p', Idle)]> ws) = [].
Proof.
  intros Hk Hnil.
  destruct (in_flight_insert ws k p p' Idle Idle Hk) as (others & Ho & Ho').
  rewrite Hnil in Ho. simpl in *.
  apply Permutation_nil. rewrite Ho', <- Ho. reflexivity.
Qed.

(** Process 0 alone empties the queue: two actions per job. *)
Lemma drain_queue (Hwf : tables_wf) (m : nat) :
  forall (s : system) (p : pkwargs),
    length (items (job_queue s)) = m ->
    unfinished_tasks (job_queue s) = m ->
    workers s !! 0 = Some (p, Idle) ->
    in_flight (workers s) = [] ->
    exists s',
      exec (repeat 0 (2 * m)) s = Some s'
      /\ items (job_queue s') = []
      /\ unfinished_tasks (job_queue s') = 0
      /\ length (results s') = length (results s) + m.
Proof.
  induction m as [|m IH]; intros s p Hlen Hu Hk Hnil.
  - exists s. simpl. split; [reflexivity|].
    split; [destruct (items (job_queue s)); [reflexivity|discriminate]|].
    split; [exact Hu|lia].
  - destruct (items (job_queue s)) as [|j q] eqn:Hq; [discriminate|].
    replace (2 * S m) with (S (S (2 * m))) by lia.
    assert (Hlt : 0 < length (workers s))
      by (eapply lookup_lt_Some; exact Hk).
    (* the dequeue *)
    pose (s1 := mkSystem (mkQueue q (S m)) (results s) (files s)
                  (<[0 := (p, Busy j)]> (workers s))).
    assert (Hf1 : fire 0 s = Some s1).
    { unfold fire. rewrite Hk. unfold get_nowait, view. simpl.
      rewrite Hq, Hu. reflexivity. }
    (* the rest of loop *)
    destruct (job_result_wf Hwf p j) as [r Hr].
    pose proof (process_run j (view s1 p) m eq_refl) as Hp. cbv zeta in Hp.
    simpl _p in Hp. rewrite Hr in Hp.
    match type of Hp with _ = (_, ?w2) =>
      pose (s2 := commit 0 w2 Idle s1) end.
    assert (Hf2 : fire 0 s1 = Some s2).
    { unfold fire. simpl workers.
      rewrite list_lookup_insert_eq by exact Hlt.
      rewrite Hp. reflexivity. }
    destruct (IH s2 (snd (stages_fun p 0 [1] (snd j))))
      as (s' & Hexec & Hi & Hu' & Hres).
    + simpl in Hlen. simpl. lia.
    + reflexivity.
    + simpl. rewrite list_insert_insert_eq.
      apply list_lookup_insert_eq. exact Hlt.
    + simpl. rewrite list_insert_insert_eq.
      eapply in_flight_idle; [exact Hk | exact Hnil].
    + exists s'. simpl exec. rewrite Hf1, Hf2.
      split; [exact Hexec|]. split; [exact Hi|]. split; [exact Hu'|].
      rewrite Hres. simpl. rewrite length_app. simpl. lia.
Qed.

(** X12.  With at least one worker, spots files that are tables with
    their columns (at least two lines, all of one length, of at least 7
    entries) and imported routines that return, the batch can always be
    completed: some schedule leads from the start of the pool to a state
    where the orchestrator passes its wait and [job_queue.join()], with one
    result per quaternion. *)
Theorem some_schedule_completes (cfg : config) (quats : array2)
    (s0 : system) :
  tables_wf ->
  0 < multiprocessing cfg ->
  start cfg quats = Ok s0 ->
  exists schedule s,
    exec schedule s0 = Some s
    /\ rtc step s0 s
    /\ barrier (length quats) s
    /\ map grain_id (results s) ≡ₚ seq 0 (length quats).
Proof.
  intros Hwf Hk Hstart.
  destruct (start_batch_inv cfg quats s0 Hstart)
    as (_ & _ & Hids & Hres & Hws).
  pose proof (start_inv cfg quats s0 Hstart) as Hinv.
  assert (Hnil : in_flight (workers s0) = []).
  { rewrite Hws. clear.
    induction (multiprocessing cfg) as [|m IHm]; [reflexivity|exact IHm]. }
  assert (Hlen : length (items (job_queue s0)) = length quats).
  { transitivity (length (map fst (items (job_queue s0))));
      [symmetry; apply length_map | rewrite Hids; apply length_seq]. }
  assert (Hu : unfinished_tasks (job_queue s0) = length quats).
  { destruct Hinv as [_ Hc]. rewrite Hc, Hnil, Hlen. simpl. lia. }
  assert (H0 : workers s0 !! 0 = Some (make_pkwargs cfg, Idle)).
  { rewrite Hws. destruct (multiprocessing cfg); [lia|reflexivity]. }
  destruct (drain_queue Hwf _ s0 _ Hlen Hu H0 Hnil)
    as (s & Hexec & Hi & Hu' & Hr).
  exists (repeat 0 (2 * length quats)), s.
  pose proof (exec_rtc _ _ _ Hexec) as Hreach.
  split; [exact Hexec|]. split; [exact Hreach|].
  assert (Hn : length (results s) = length quats)
    by (rewrite Hr, Hres; reflexivity).
  split; [split; [exact Hn | exact Hu']|].
  apply (complete_ids _ s (reachable_inv _ _ _ Hinv Hreach) Hn).
Qed.

End Liveness.

(** ** The report: layout *)

Lemma string_length_app (s1 s2 : string) :
  String.length (s1 ++ s2) = String.length s1 + String.length s2.
Proof. induction s1 as [|c s1 IH]; simpl; [reflexivity|]. rewrite IH. reflexivity. Qed.

Lemma spaces_length (n : nat) : String.length (spaces n) = n.
Proof. induction n as [|n IH]; simpl; [reflexivity|]. rewrite IH. reflexivity. Qed.

(** ['%<width>s'] pads on the left and never cuts. *)
Lemma fmt_s_length (width : nat) (s : string) :
  String.length (fmt_s width s) = Nat.max width (String.length s).
Proof. unfold fmt_s. rewrite string_length_app, spaces_length. lia. Qed.

Lemma concat_length_eq (sep : string) (l1 l2 : list string) :
  Forall2 (fun a b => String.length a = String.length b) l1 l2 ->
  String.length (String.concat sep l1) = String.length (String.concat sep l2).
Proof.
  induction 1 as [|a b l1 l2 Hab Hl IH]; [reflexivity|].
  simpl. destruct Hl as [|a' b' l1' l2' Hab' Hl']; [exact Hab|].
  rewrite !string_length_app, Hab. f_equal. f_equal. exact IH.
Qed.

(** A 3 x 3 array; 12 parameters. *)
Definition shape (m : array2) (rows cols : nat) : Prop :=
  length m = rows /\ Forall (fun r => length r = cols) m.

Lemma res_items_shape (r : FitResult) :
  length (g_refined r) = 12 -> shape (eMat r) 3 3 ->
  exists fl, res_items r = Ok fl /\ length fl = 20.
Proof.
  intros Hg [Hm Hrows]. unfold res_items.
  destruct (g_refined r) as [|g0 g]; [discriminate|].
  do 11 (destruct g as [|? g]; [discriminate|]).
  destruct g; [|discriminate].
  destruct (eMat r) as [|r0 [|r1 [|r2 [|r3 m]]]]; try discriminate.
  apply Forall_cons in Hrows as [H0 Hrows].
  apply Forall_cons in Hrows as [H1 Hrows].
  apply Forall_cons in Hrows as [H2 _].
  destruct r0 as [|? [|? [|? [|? ?]]]]; try discriminate.
  destruct r1 as [|? [|? [|? [|? ?]]]]; try discriminate.
  destruct r2 as [|? [|? [|? [|? ?]]]]; try discriminate.
  simpl. eexists. split; reflexivity.
Qed.

Section ReportLayout.

Context {E : Externals}.

(** X13.  The header lines up with the data: a data line whose id prints
    in at most 9 characters and whose floats each print in exactly the
    width of their column is as long as the header line. *)
Theorem header_lines_up_with_rows (r : FitResult) (fl : list Q)
    (line : string) :
  res_items r = Ok fl ->
  row_line r = Ok line ->
  String.length (NilEmpty.string_of_uint (Nat.to_uint (grain_id r))) <= 9 ->
  Forall2 (fun width x => String.length (fmt_g width x) = width)
          len_items fl ->
  String.length line = String.length header_line.
Proof.
  intros Hfl Hline Hid Hw.
  assert (Hl : line = (fmt_d 9 (grain_id r) ++ "  "
                       ++ String.concat "  " (zip_with fmt_g len_items fl)
                       ++ newline)%string).
  { unfold row_line in Hline. rewrite Hfl in Hline. unfold rbind in Hline.
    congruence. }
  subst line. clear Hline. unfold header_line.
  rewrite !string_length_app.
  assert (Hc : String.length (String.concat "  " (zip_with fmt_g len_items fl))
               = String.length
                   (String.concat "  "
                      (zip_with fmt_s len_items (tl header_items)))).
  { apply concat_length_eq.
    assert (Hh : Forall2 (fun width h => String.length (fmt_s width h) = width)
                         len_items (tl header_items)).
    { repeat constructor. }
    clear Hfl. revert Hh. generalize (tl header_items).
    induction Hw as [|w x ws xs Hwx Hws IH]; intros hs Hh;
      inversion Hh as [|w' h ws' hs' Hwh Hhs]; subst; simpl; constructor.
    - congruence.
    - apply IH. exact Hhs. }
  rewrite Hc. unfold fmt_d. rewrite !fmt_s_length.
  change (String.length (hd EmptyString header_items)) with 8.
  change (String.length "  ") with 2.
  change (String.length "#") with 1.
  lia.
Qed.

(** X14.  The report is written, without an exception, for results with
    pairwise distinct ids, 12 parameters each and a 3 x 3 strain tensor:
    it is the header line followed by one line per result. *)
Theorem report_written (rs : list FitResult) :
  NoDup (map grain_id rs) ->
  Forall (fun r => length (g_refined r) = 12 /\ shape (eMat r) 3 3) rs ->
  exists rows lines,
    sorted rs = Ok rows
    /\ collect (map row_line rows) = Ok lines
    /\ length lines = length rs
    /\ report rs = Ok (header_line ++ String.concat "" lines)%string.
Proof.
  intros Hnd Hshape.
  destruct (sorted_sorted rs Hnd) as (rows & Hs & Hp & _).
  assert (Hrows : Forall (fun r => length (g_refined r) = 12
                                   /\ shape (eMat r) 3 3) rows)
    by (rewrite Hp; exact Hshape).
  assert (Hlines : exists lines, collect (map row_line rows) = Ok lines
                                 /\ length lines = length rows).
  { clear Hs Hp. induction Hrows as [|r rows [Hg Hm] _ IH].
    - exists []. auto.
    - destruct IH as (lines & Hl & Hlen).
      destruct (res_items_shape r Hg Hm) as (fl & Hfl & _).
      simpl. unfold row_line at 1. rewrite Hfl. simpl. rewrite Hl. simpl.
      eexists. split; [reflexivity|]. simpl. rewrite Hlen. reflexivity. }
  destruct Hlines as (lines & Hl & Hlen).
  exists rows, lines. split; [exact Hs|]. split; [exact Hl|].
  split; [rewrite Hlen, Hp; reflexivity|].
  unfold report. rewrite Hs. simpl. rewrite Hl. reflexivity.
Qed.

End ReportLayout.

(** ** [read_frames]

    [reader] is the sequence of frames that [reader.read()] delivers,
    [reader.getNFrames()] their number.  A frame is a two-dimensional array;
    [coo_matrix] keeps the shape and, row by row, the entries that are not
    zero, with their positions. *)

Record coo_matrix_t : Type := mkCoo {
  coo_shape : nat * nat;
  coo_entries : list (nat * nat * Q)
}.

(** [frame[frame <= threshold] = 0] *)
Definition threshold_frame (threshold : Q) (frame : array2) : array2 :=
  map (map (fun v => if Qle_bool v threshold then 0%Q else v)) frame.

Definition coo_row (i : nat) (row : list Q) : list (nat * nat * Q) :=
  flat_map (fun jv => if Qeq_bool (snd jv) 0 then [] else [(i, fst jv, snd jv)])
           (enumerate row).

Definition coo_matrix (frame : array2) : coo_matrix_t :=
  mkCoo (length frame, length (hd [] frame))
        (flat_map (fun ir => coo_row (fst ir) (snd ir)) (enumerate frame)).

Section ReadFrames.

Context {E : Externals}.

(** [read_frames(reader, cfg)]: the list [[frame_list, [omega_start,
    omega_step]]]; [threshold] is [cfg.fit_grains.threshold]. *)
Definition read_frames (reader : list array2) (threshold : Q) (cfg : config)
    : list coo_matrix_t * list Q :=
  let frame_list :=
    map (fun frame => coo_matrix (threshold_frame threshold frame)) reader in
  let omega_start := radians (cfg_omega_start cfg) in
  let omega_step := radians (cfg_omega_step cfg) in
  (frame_list, [omega_start; omega_step]).

End ReadFrames.

Lemma enumerate_from_In {A} (l : list A) (a i : nat) (x : A) :
  In (i, x) (combine (seq a (length l)) l)
  <-> a <= i /\ l !! (i - a) = Some x.
Proof.
  revert a. induction l as [|y l IH]; intros a; simpl.
  - split; [contradiction|]. intros [_ H]. discriminate.
  - rewrite IH. split.
    + intros [H|[Hle Hl]].
      * injection H as <- <-. split; [lia|].
        rewrite Nat.sub_diag. reflexivity.
      * split; [lia|]. replace (i - a) with (S (i - S a)) by lia. exact Hl.
    + intros [Hle Hl]. destruct (Nat.eq_dec i a) as [->|Hne].
      * left. rewrite Nat.sub_diag in Hl. simpl in Hl. congruence.
      * right. split; [lia|].
        replace (i - a) with (S (i - S a)) in Hl by lia. exact Hl.
Qed.

Lemma enumerate_In {A} (l : list A) (i : nat) (x : A) :
  In (i, x) (enumerate l) <-> l !! i = Some x.
Proof.
  unfold enumerate. rewrite enumerate_from_In, Nat.sub_0_r.
  split; [tauto|]. intros H. split; [lia|exact H].
Qed.

Lemma coo_entries_iff (frame : array2) (i j : nat) (v : Q) :
  In (i, j, v) (coo_entries (coo_matrix frame))
  <-> exists row, frame !! i = Some row /\ row !! j = Some v
                  /\ Qeq_bool v 0 = false.
Proof.
  unfold coo_matrix, coo_row. simpl. rewrite in_flat_map. split.
  - intros ([i' row] & Hrow & Hin). apply enumerate_In in Hrow.
    simpl in Hin. apply in_flat_map in Hin as ([j' v'] & Hv & Hin).
    apply enumerate_In in Hv. simpl in Hin.
    destruct (Qeq_bool v' 0) eqn:Hz; [contradiction|].
    destruct Hin as [Hin|[]]. injection Hin as <- <- <-. eauto.
  - intros (row & Hrow & Hv & Hz).
    exists (i, row). split; [apply enumerate_In; exact Hrow|].
    simpl. apply in_flat_map. exists (j, v).
    split; [apply enumerate_In; exact Hv|]. simpl. rewrite Hz. left.
    reflexivity.
Qed.

Lemma lookup_map_inv {A B} (f : A -> B) (l : list A) (k : nat) (y : B) :
  map f l !! k = Some y -> exists x, l !! k = Some x /\ y = f x.
Proof.
  revert k. induction l as [|a l IH]; intros [|k] H; simpl in *;
    try discriminate.
  - injection H as <-. eauto.
  - apply IH. exact H.
Qed.

Section ReadFramesFacts.

Context {E : Externals}.

(** X15.  [read_frames] returns one sparse frame per frame of the reader,
    each with the shape of its frame, and the start and the step of the
    scan in radians.  The sparse frame number [k] holds the entry
    [(i, j, v)] exactly when pixel [(i, j)] of frame [k] has the value [v],
    [v] is above the threshold and [v] is not zero: pixels at or below the
    threshold are dropped, the others keep value and position. *)
Theorem read_frames_keeps_above_threshold (reader : list array2)
    (threshold : Q) (cfg : config) :
  let out := read_frames reader threshold cfg in
  length (fst out) = length reader
  /\ snd out = [radians (cfg_omega_start cfg); radians (cfg_omega_step cfg)]
  /\ forall k frame, reader !! k = Some frame ->
       exists sp,
         fst out !! k = Some sp
         /\ coo_shape sp = (length frame, length (hd [] frame))
         /\ forall i j v,
              In (i, j, v) (coo_entries sp)
              <-> exists row, frame !! i = Some row /\ row !! j = Some v
                              /\ (threshold < v)%Q /\ ~ (v == 0)%Q.
Proof.
  intros out. split; [apply length_map|]. split; [reflexivity|].
  intros k frame Hk. eexists. split.
  { unfold out, read_frames. simpl. apply lookup_map. exact Hk. }
  split.
  { simpl. unfold threshold_frame. rewrite length_map.
    destruct frame; simpl; [reflexivity|]. rewrite length_map. reflexivity. }
  intros i j v. rewrite coo_entries_iff. unfold threshold_frame. split.
  - intros (row' & Hrow' & Hv & Hz).
    apply lookup_map_inv in Hrow' as (row & Hrow & ->).
    apply lookup_map_inv in Hv as (u & Hu & Hv).
    destruct (Qle_bool u threshold) eqn:Hle.
    + subst v. discriminate.
    + subst v. exists row. split; [exact Hrow|]. split; [exact Hu|].
      split.
      * apply Qnot_le_lt. intros H. apply Qle_bool_iff in H. congruence.
      * intros H. apply Qeq_bool_iff in H. congruence.
  - intros (row & Hrow & Hv & Hgt & Hnz).
    eexists. split; [apply lookup_map; exact Hrow|].
    assert (Hle : Qle_bool v threshold = false).
    { destruct (Qle_bool v threshold) eqn:H; [|reflexivity].
      apply Qle_bool_iff in H. exfalso. exact (Qlt_not_le _ _ Hgt H). }
    split.
    + etransitivity;
        [exact (lookup_map
                  (fun v => if Qle_bool v threshold then 0%Q else v) _ _ _ Hv)|].
      cbv beta. rewrite Hle. reflexivity.
    + destruct (Qeq_bool v 0) eqn:H; [|reflexivity].
      apply Qeq_bool_iff in H. contradiction.
Qed.

End ReadFramesFacts.

(** * hexrd/cli/findorientations.py: [execute]

    The file system is the set of paths that exist; [os.makedirs] and the
    opening of the log file add a path.  [int], [config.open] and
    [find_orientations] are imported: [py_int] gives the integer of a
    string or [None] where [int] raises ValueError, [config_open] gives
    [cfg.working_dir] for a yml file, [find_orientations] what the search
    does to the file system.  What [execute] does is kept as a list of
    events, in order. *)

Module FindOrientationsCLI.

(** [args.hkls]: the attribute is missing when the namespace comes from
    fit-grains; otherwise it is None or the string given with --hkls. *)
Inductive hkls_attr : Type :=
| Missing
| PyNone
| PyStr (s : string).

Record Namespace : Type := mkArgs {
  yml : string;
  quiet : bool;
  force : bool;
  debug : bool;
  hkls : hkls_attr
}.

Inductive level : Type := DEBUG | INFO | ERROR.

Inductive event : Type :=
| SetLevel (l : level)                 (* logger.setLevel *)
| AddConsole (l : level)               (* logger.addHandler(ch) *)
| InfoBegin                            (* '=== begin find-orientations ===' *)
| ErrorExists (f : string)             (* '%s already exists. ...' *)
| MakeDirs (d : string)                (* os.makedirs *)
| OpenLogFile (f : string) (l : level) (* logging.FileHandler(f, mode='w') *)
| InfoLoggingTo (f : string)           (* 'logging to %s' *)
| AddLogFile                           (* logger.addHandler(fh) *)
| FindOrientations (wd : string) (hk : option (list Z))
| RemoveLogFile                        (* fh.close(); removeHandler(fh) *)
| InfoEnd                              (* '=== end find-orientations ===' *)
| RemoveConsole.                       (* ch.close(); removeHandler(ch) *)

Inductive outcome : Type :=
| Returned
| SystemExit          (* sys.exit() *)
| Raised (e : exn).

Definition comma : ascii := ","%char.

(** [s.split(',')] *)
Fixpoint split_comma (s : string) : list string :=
  match s with
  | EmptyString => [EmptyString]
  | String c s' =>
      if Ascii.eqb c comma then EmptyString :: split_comma s'
      else match split_comma s' with
           | piece :: pieces => String c piece :: pieces
           | [] => [String c EmptyString]
           end
  end.

(** the test [if i] of the comprehension *)
Definition nonempty (s : string) : bool :=
  match s with
  | EmptyString => false
  | String _ _ => true
  end.

Fixpoint last_char (s : string) : option ascii :=
  match s with
  | EmptyString => None
  | String c EmptyString => Some c
  | String _ s' => last_char s'
  end.

(** [os.path.join(a, b)] of posixpath, for a relative [b] *)
Definition path_join (a b : string) : string :=
  match last_char a with
  | None => b
  | Some c => if Ascii.eqb c "/"%char then (a ++ b)%string
              else (a ++ "/" ++ b)%string
  end.

Section Execute.

Variable py_int : string -> option Z.
Variable config_open : string -> string.
Variable find_orientations :
  string -> option (list Z) -> gset string -> gset string.

Definition int_of (s : string) : result Z :=
  match py_int s with
  | Some z => Ok z
  | None => Raise ValueError
  end.

(** "make sure hkls are passed in as a list of ints" *)
Definition parse_hkls (a : hkls_attr) : result (option (list Z)) :=
  match a with
  | Missing => Ok None
  | PyNone => Ok None
  | PyStr s =>
      rbind (collect (map int_of (List.filter nonempty (split_comma s))))
            (fun l => Ok (Some l))
  end.

Definition execute (args : Namespace) (fs : gset string)
    : outcome * gset string * list event :=
  match parse_hkls (hkls args) with
  | Raise e => (Raised e, fs, [])
  | Ok hk =>
      let log_level :=
        if quiet args then ERROR
        else if debug args then DEBUG else INFO in
      let begin := [SetLevel log_level; AddConsole log_level; InfoBegin] in
      let working_dir := config_open (yml args) in
      let quats_f := path_join working_dir "accepted_orientations.dat" in
      if bool_decide (quats_f ∈ fs) && negb (force args)
      then (SystemExit, fs, begin ++ [ErrorExists quats_f])
      else
        let made := if bool_decide (working_dir ∈ fs) then []
                    else [MakeDirs working_dir] in
        let fs1 := if bool_decide (working_dir ∈ fs) then fs
                   else {[working_dir]} ∪ fs in
        let logfile := path_join working_dir "find-orientations.log" in
        let fs2 := {[logfile]} ∪ fs1 in
        (Returned, find_orientations working_dir hk fs2,
         begin ++ made
         ++ [OpenLogFile logfile log_level; InfoLoggingTo logfile; AddLogFile;
             FindOrientations working_dir hk;
             RemoveLogFile; InfoEnd; RemoveConsole])
  end.

End Execute.

(** ** Properties of [execute] *)

Fixpoint has_comma (s : string) : bool :=
  match s with
  | EmptyString => false
  | String c s' => Ascii.eqb c comma || has_comma s'
  end.

Lemma split_comma_cons (s : string) :
  exists piece pieces, split_comma s = piece :: pieces.
Proof.
  induction s as [|c s (piece & pieces & IH)]; simpl; [eauto|].
  rewrite IH. destruct (Ascii.eqb c comma); eauto.
Qed.

Lemma split_comma_app (s1 s2 : string) :
  split_comma (s1 ++ String comma s2) = split_comma s1 ++ split_comma s2.
Proof.
  induction s1 as [|c s1 IH]; simpl.
  - reflexivity.
  - rewrite IH. destruct (Ascii.eqb c comma); [reflexivity|].
    destruct (split_comma_cons s1) as (piece & pieces & ->). reflexivity.
Qed.

Lemma split_comma_plain (s : string) :
  has_comma s = false -> split_comma s = [s].
Proof.
  induction s as [|c s IH]; simpl; [reflexivity|].
  intros H. apply orb_false_iff in H as [Hc Hs].
  rewrite Hc, (IH Hs). reflexivity.
Qed.

Lemma split_comma_concat (x : string) (l : list string) :
  Forall (fun s => has_comma s = false) (x :: l) ->
  split_comma (String.concat "," (x :: l)) = x :: l.
Proof.
  revert x. induction l as [|y l IH]; intros x H.
  - apply Forall_cons in H as [Hx _]. simpl. apply split_comma_plain, Hx.
  - apply Forall_cons in H as [Hx H].
    change (String.concat "," (x :: y :: l))
      with (x ++ String comma (String.concat "," (y :: l)))%string.
    rewrite split_comma_app, (split_comma_plain x Hx), (IH y H).
    reflexivity.
Qed.

Section ExecuteFacts.

Variable py_int : string -> option Z.
Variable config_open : string -> string.
Variable find_orientations :
  string -> option (list Z) -> gset string -> gset string.

(** X16.  The --hkls string is read back as the list it was written from:
    for integers whose text is not empty, holds no comma and is read back
    by [int], joining the texts with commas and passing the string to
    [execute]'s conversion gives the list again; the empty list is written
    as the empty string and read back as the empty list, not as None. *)
Theorem hkls_round_trip (show : Z -> string) (l : list Z) :
  Forall (fun z => py_int (show z) = Some z
                   /\ nonempty (show z) = true
                   /\ has_comma (show z) = false) l ->
  parse_hkls py_int (PyStr (String.concat "," (map show l))) = Ok (Some l).
Proof.
  intros H. unfold parse_hkls.
  destruct l as [|z l]; [reflexivity|]. cbn [map].
  rewrite split_comma_concat.
  2:{ change (show z :: map show l) with (map show (z :: l)).
      apply Forall_forall. intros s Hs.
      apply list_elem_of_In, in_map_iff in Hs as (z' & <- & Hz').
      rewrite Forall_forall in H.
      apply (H z' (proj2 (list_elem_of_In _ _) Hz')). }
  change (show z :: map show l) with (map show (z :: l)).
  induction H as [|z' l' (Hint & Hne & _) _ IH]; [reflexivity|].
  simpl. rewrite Hne. simpl. unfold int_of at 1. rewrite Hint. simpl.
  simpl in IH.
  destruct (collect (map (int_of py_int)
                         (List.filter nonempty (map show l')))) as [zs|e];
    simpl in *; [|discriminate].
  injection IH as ->. reflexivity.
Qed.

(** X17.  Empty pieces of the --hkls string do not count: a doubled comma
    reads as one, and a comma at the start or at the end reads as none. *)
Theorem hkls_empty_pieces_dropped (s1 s2 : string) :
  parse_hkls py_int (PyStr (s1 ++ "," ++ "," ++ s2))
    = parse_hkls py_int (PyStr (s1 ++ "," ++ s2))
  /\ parse_hkls py_int (PyStr ("," ++ s2)) = parse_hkls py_int (PyStr s2)
  /\ parse_hkls py_int (PyStr (s1 ++ ",")) = parse_hkls py_int (PyStr s1).
Proof.
  unfold parse_hkls.
  change (s1 ++ "," ++ "," ++ s2)%string
    with (s1 ++ String comma (EmptyString ++ String comma s2))%string.
  change (s1 ++ "," ++ s2)%string with (s1 ++ String comma s2)%string.
  change ("," ++ s2)%string with (EmptyString ++ String comma s2)%string.
  change (s1 ++ ",")%string with (s1 ++ String comma EmptyString)%string.
  rewrite !split_comma_app, !List.filter_app. simpl.
  rewrite !app_nil_r. auto.
Qed.

(** X18.  A piece of the --hkls string that [int] does not accept stops
    [execute] at once with ValueError: nothing is logged, nothing is
    created, the search is not called. *)
Theorem bad_hkls_aborts_first (args : Namespace) (fs : gset string)
    (s piece : string) :
  hkls args = PyStr s ->
  In piece (split_comma s) -> nonempty piece = true ->
  py_int piece = None ->
  execute py_int config_open find_orientations args fs
  = (Raised ValueError, fs, []).
Proof.
  intros Hs Hin Hne Hbad. unfold execute, parse_hkls. rewrite Hs.
  assert (Hc : collect (map (int_of py_int)
                            (List.filter nonempty (split_comma s)))
               = Raise ValueError).
  { assert (Hf : In piece (List.filter nonempty (split_comma s)))
      by (apply filter_In; auto).
    induction (List.filter nonempty (split_comma s)) as [|x l IH];
      [contradiction|].
    simpl. unfold int_of at 1. destruct (py_int x) as [z|] eqn:Hx;
      [|reflexivity].
    simpl. destruct Hf as [->|Hf]; [congruence|].
    rewrite (IH Hf). reflexivity. }
  rewrite Hc. reflexivity.
Qed.

Definition is_search (ev : event) : bool :=
  match ev with
  | FindOrientations _ _ => true
  | _ => false
  end.

Definition is_makedirs (ev : event) : bool :=
  match ev with
  | MakeDirs _ => true
  | _ => false
  end.

(** X19.  [execute] does not overwrite: when accepted_orientations.dat
    exists in the working directory and --force is not given, it logs the
    error and leaves through [sys.exit()] with the file system as it was,
    without creating a directory, opening the log file or calling the
    search. *)
Theorem refuses_to_overwrite (args : Namespace) (fs : gset string)
    (hk : option (list Z)) :
  parse_hkls py_int (hkls args) = Ok hk ->
  path_join (config_open (yml args)) "accepted_orientations.dat" ∈ fs ->
  force args = false ->
  exists events,
    execute py_int config_open find_orientations args fs
    = (SystemExit, fs, events)
    /\ List.filter is_search events = []
    /\ List.filter is_makedirs events = []
    /\ last events
       = Some (ErrorExists
                 (path_join (config_open (yml args))
                            "accepted_orientations.dat")).
Proof.
  intros Hp Hex Hf. unfold execute. rewrite Hp, Hf.
  rewrite (bool_decide_eq_true_2 _ Hex). simpl.
  eexists. split; [reflexivity|]. auto.
Qed.

(** X20.  Otherwise (the file is absent, or --force is given) [execute]
    returns after calling the search exactly once, with the converted
    hkls, on a file system that holds everything that was there, the
    working directory and the log file; the directory is created only if
    it was missing, and both log handlers are removed at the end. *)
Theorem searches_once (args : Namespace) (fs : gset string)
    (hk : option (list Z)) :
  parse_hkls py_int (hkls args) = Ok hk ->
  (path_join (config_open (yml args)) "accepted_orientations.dat" ∉ fs
   \/ force args = true) ->
  let wd := config_open (yml args) in
  exists fs2 events,
    execute py_int config_open find_orientations args fs
    = (Returned, find_orientations wd hk fs2, events)
    /\ fs ⊆ fs2 /\ wd ∈ fs2
    /\ path_join wd "find-orientations.log" ∈ fs2
    /\ List.filter is_search events = [FindOrientations wd hk]
    /\ (List.filter is_makedirs events = [] <-> wd ∈ fs)
    /\ (exists before, events = before ++ [RemoveLogFile; InfoEnd; RemoveConsole]).
Proof.
  intros Hp Hcase wd. unfold execute. rewrite Hp. fold wd.
  assert (Hg : bool_decide (path_join wd "accepted_orientations.dat" ∈ fs)
               && negb (force args) = false).
  { destruct Hcase as [Hno|Hf].
    - rewrite (bool_decide_eq_false_2 _ Hno). reflexivity.
    - rewrite Hf. apply andb_false_r. }
  rewrite Hg. clear Hcase Hg Hp.
  destruct (decide (wd ∈ fs)) as [Hin|Hout].
  - rewrite (bool_decide_eq_true_2 _ Hin).
    eexists _, _. split; [reflexivity|].
    split; [set_solver|]. split; [set_solver|]. split; [set_solver|].
    split; [reflexivity|]. split; [split; auto|].
    eexists. rewrite app_nil_l.
    change [OpenLogFile ?f ?l; ?a; ?b; ?c; RemoveLogFile; InfoEnd; RemoveConsole]
      with ([OpenLogFile f l; a; b; c] ++ [RemoveLogFile; InfoEnd; RemoveConsole]).
    rewrite app_assoc. reflexivity.
  - rewrite (bool_decide_eq_false_2 _ Hout).
    eexists _, _. split; [reflexivity|].
    split; [set_solver|]. split; [set_solver|]. split; [set_solver|].
    split; [reflexivity|]. split; [split; [discriminate|contradiction]|].
    eexists.
    change [OpenLogFile ?f ?l; ?a; ?b; ?c; RemoveLogFile; InfoEnd; RemoveConsole]
      with ([OpenLogFile f l; a; b; c] ++ [RemoveLogFile; InfoEnd; RemoveConsole]).
    rewrite !app_assoc. reflexivity.
Qed.

End ExecuteFacts.

End FindOrientationsCLI.

(** * The further properties on sample data *)

(** [pullSpots] writes two lines of 3 entries: a table without its
    column 6. *)
Definition sample_externals_short : Externals :=
  sample_externals_with [[0; 1; 0]; [1; 1; 0]]%Q.

(** [pullSpots] writes a line of 10 entries and a line of 3. *)
Definition sample_externals_ragged : Externals :=
  sample_externals_with [Sample.row 0 1; [0; 1; 0]%Q].

Lemma sample_tables_wf : tables_wf (E := Sample.externals).
Proof.
  intros gp it. unfold pullSpots. simpl.
  destruct (_ || _);
    (split; [vm_compute; lia | split; [vm_compute; reflexivity|]]);
    apply Forall_forall; intros r Hr;
    apply list_elem_of_In in Hr; vm_compute in Hr;
    repeat (destruct Hr as [<-|Hr]; [vm_compute; lia|]); contradiction.
Qed.

Lemma compl_zero_iff_insufficient_sample :
  (spots sample_worker_big !! 0 = Some Sample.big_table
   /\ 2 <= length Sample.big_table
   /\ same_columns Sample.big_table = true
   /\ refl_idx (E := Sample.externals) (_p sample_worker_big)
        Sample.big_table = Ok sample_idx_big)
  /\ exists gp' c,
       fst (fit_grains (E := Sample.externals) 0 sample_gp0
              sample_worker_big) = Ok (gp', c)
       /\ (Qeq_bool c 0 = true <-> sum_bool sample_idx_big <= 12)
       /\ (12 < sum_bool sample_idx_big -> (0 < c)%Q).
Proof.
  assert (H1 : spots sample_worker_big !! 0 = Some Sample.big_table)
    by (vm_compute; reflexivity).
  assert (Hl : 2 <= length Sample.big_table) by (vm_compute; lia).
  assert (Hs : same_columns Sample.big_table = true)
    by (vm_compute; reflexivity).
  assert (H2 : refl_idx (E := Sample.externals) (_p sample_worker_big)
                 Sample.big_table = Ok sample_idx_big)
    by (vm_compute; reflexivity).
  split; [split; [exact H1 | split; [exact Hl | split; [exact Hs | exact H2]]]|].
  exact (compl_zero_iff_insufficient (E := Sample.externals) 0 sample_gp0
           _ _ _ H1 Hl Hs H2).
Defined.

Lemma stored_reflection_shapes_sample :
  refl_idx (E := Sample.externals) Sample.p0 Sample.small_table
    = Ok sample_idx_small
  /\ length (select_rows sample_idx_small Sample.small_table) = 2
  /\ length (centroids (E := Sample.externals) Sample.p0 sample_idx_small
               Sample.small_table) = 2.
Proof.
  assert (H : refl_idx (E := Sample.externals) Sample.p0 Sample.small_table
              = Ok sample_idx_small) by (vm_compute; reflexivity).
  split; [exact H|].
  destruct (stored_reflection_shapes (E := Sample.externals) _ _ _ H)
    as (H1 & _ & _ & H2 & _).
  split; [exact H1 | exact H2].
Defined.

Lemma short_row_loses_job_sample :
  (same_columns
     (data_lines (pullSpots (Externals := sample_externals_ragged)
                    sample_gp0 0)) = false
   /\ process (E := sample_externals_ragged) (0, sample_gp0) Sample.worker0
      = (Raise ValueError,
         with_spots {[ 0 := [Sample.row 0 1; [0; 1; 0]%Q] ]} Sample.worker0))
  /\ (same_columns
        (data_lines (pullSpots (Externals := sample_externals_short)
                       sample_gp0 0)) = true
      /\ (exists r, In r (data_lines
                            (pullSpots (Externals := sample_externals_short)
                               sample_gp0 0))
                    /\ length r < 7)
      /\ process (E := sample_externals_short) (0, sample_gp0) Sample.worker0
         = (Raise IndexError,
            with_spots {[ 0 := [[0; 1; 0]; [1; 1; 0]]%Q ]} Sample.worker0)).
Proof.
  assert (H1 : same_columns
                 (data_lines (pullSpots (Externals := sample_externals_ragged)
                                sample_gp0 0)) = false)
    by (vm_compute; reflexivity).
  assert (H2 : same_columns
                 (data_lines (pullSpots (Externals := sample_externals_short)
                                sample_gp0 0)) = true)
    by (vm_compute; reflexivity).
  assert (H3 : exists r,
             In r (data_lines (pullSpots (Externals := sample_externals_short)
                                 sample_gp0 0))
             /\ length r < 7).
  { exists [0; 1; 0]%Q. split; [left; reflexivity | simpl; lia]. }
  split.
  - split; [exact H1|].
    exact (proj1 (short_row_loses_job (E := sample_externals_ragged) 0
                    sample_gp0 Sample.worker0) H1).
  - split; [exact H2|]. split; [exact H3|].
    exact (proj2 (short_row_loses_job (E := sample_externals_short) 0
                    sample_gp0 Sample.worker0) H2 (or_intror H3)).
Defined.

Lemma result_independent_of_worker_sample :
  (same_scan (_p Sample.worker0) (_p sample_worker_fitted)
   /\ unfinished_tasks (_jobs Sample.worker0) <> 0
   /\ unfinished_tasks (_jobs sample_worker_fitted) <> 0)
  /\ fst (process (E := Sample.externals) (2, sample_gp2) Sample.worker0)
     = fst (process (E := Sample.externals) (2, sample_gp2)
              sample_worker_fitted).
Proof.
  assert (H1 : same_scan (_p Sample.worker0) (_p sample_worker_fitted))
    by (repeat split).
  assert (H2 : unfinished_tasks (_jobs Sample.worker0) <> 0)
    by (vm_compute; discriminate).
  assert (H3 : unfinished_tasks (_jobs sample_worker_fitted) <> 0)
    by (vm_compute; discriminate).
  split; [split; [exact H1 | split; [exact H2 | exact H3]]|].
  exact (proj1 (result_independent_of_worker (E := Sample.externals)
                  (2, sample_gp2) _ _ H1 H2 H3)).
Defined.

Definition sample_gp0_second : array1 :=
  fitGrain (Externals := Sample.externals)
    (centroids (E := Sample.externals) Sample.p0 sample_idx_big
       Sample.big_table)
    (hkl_columns (select_rows sample_idx_big Sample.big_table))
    (firstn 3 sample_gp0_refined) (firstn 3 (skipn 3 sample_gp0_refined))
    (skipn 6 sample_gp0_refined) gFlag gScl (omega_period Sample.p0).

Lemma both_stages_result_sample :
  (same_columns (pullSpots (Externals := Sample.externals) sample_gp0 0)
     = true
   /\ refl_idx (E := Sample.externals) Sample.p0
        (pullSpots (Externals := Sample.externals) sample_gp0 0)
      = Ok sample_idx_big
   /\ 12 < sum_bool sample_idx_big
   /\ unfinished_tasks (_jobs Sample.worker0) = 3)
  /\ exists w',
       process (E := Sample.externals) (0, sample_gp0) Sample.worker0
         = (Ok tt, w')
       /\ map g_refined (_results w') = [sample_gp0_second]
       /\ map compl (_results w') = [completeness_of sample_idx_big]
       /\ unfinished_tasks (_jobs w') = 2.
Proof.
  assert (H1 : refl_idx (E := Sample.externals) (_p Sample.worker0)
                 (pullSpots (Externals := Sample.externals) sample_gp0 0)
               = Ok sample_idx_big) by (vm_compute; reflexivity).
  assert (H0 : same_columns
                 (pullSpots (Externals := Sample.externals) sample_gp0 0)
               = true) by (vm_compute; reflexivity).
  assert (H2 : 12 < sum_bool sample_idx_big) by (vm_compute; lia).
  assert (H3 : unfinished_tasks (_jobs Sample.worker0) = 3)
    by (vm_compute; reflexivity).
  split; [split; [exact H0 | split; [exact H1 | split; [exact H2 | exact H3]]]|].
  destruct (both_stages_result (E := Sample.externals) 0 sample_gp0
              Sample.worker0 sample_idx_big sample_idx_big 2 H0 H1 H2)
    as (w' & Hp & Hr & _ & Hu).
  - vm_compute. reflexivity.
  - vm_compute. reflexivity.
  - exact H2.
  - exact H3.
  - exists w'. split; [exact Hp|]. rewrite Hr. split; [|split; [|exact Hu]].
    + vm_compute. reflexivity.
    + vm_compute. reflexivity.
Defined.

Lemma run_completes_sample :
  (tables_wf (E := Sample.externals)
   /\ length (items (_jobs Sample.worker0))
      <= unfinished_tasks (_jobs Sample.worker0))
  /\ exists w',
       run (E := Sample.externals) Sample.worker0 = (Ok tt, w')
       /\ items (_jobs w') = []
       /\ unfinished_tasks (_jobs w') = 0
       /\ length (_results w') = 3.
Proof.
  assert (H : length (items (_jobs Sample.worker0))
              <= unfinished_tasks (_jobs Sample.worker0))
    by (vm_compute; lia).
  split; [split; [exact sample_tables_wf | exact H]|].
  destruct (run_completes (E := Sample.externals) Sample.worker0
              sample_tables_wf H) as (w' & Hr & Hi & Hu & _ & Hl).
  exists w'. split; [exact Hr|]. split; [exact Hi|].
  split; [rewrite Hu | rewrite Hl]; vm_compute; reflexivity.
Defined.

(** The sample batch with tables that lack their columns: process 0
    takes grain 0 and dies on it; then process 1 takes grain 1 and dies. *)
Definition sample_short_system0 : system :=
  match start (E := sample_externals_short) Sample.cfg Sample.quats with
  | Ok s => s
  | Raise _ => mkSystem (mkQueue [] 0) [] ∅ []
  end.

Definition sample_short_system1 : system :=
  match exec (E := sample_externals_short) [0; 0] sample_short_system0 with
  | Some s => s
  | None => sample_short_system0
  end.

Definition sample_short_system2 : system :=
  match exec (E := sample_externals_short) [1; 1] sample_short_system1 with
  | Some s => s
  | None => sample_short_system1
  end.

Lemma crashed_job_never_reported_sample :
  (start (E := sample_externals_short) Sample.cfg Sample.quats
     = Ok sample_short_system0
   /\ rtc (step (E := sample_externals_short))
        sample_short_system0 sample_short_system1
   /\ workers sample_short_system1 !! 0
      = Some (Sample.p0, Crashed IndexError (0, sample_gp0))
   /\ rtc (step (E := sample_externals_short))
        sample_short_system1 sample_short_system2)
  /\ length (results sample_short_system2) < 3
  /\ ~ barrier 3 sample_short_system2.
Proof.
  assert (H1 : start (E := sample_externals_short) Sample.cfg Sample.quats
               = Ok sample_short_system0) by (vm_compute; reflexivity).
  assert (H2 : rtc (step (E := sample_externals_short))
                 sample_short_system0 sample_short_system1).
  { apply (exec_rtc [0; 0]). vm_compute. reflexivity. }
  assert (H3 : workers sample_short_system1 !! 0
               = Some (Sample.p0, Crashed IndexError (0, sample_gp0)))
    by (vm_compute; reflexivity).
  assert (H4 : rtc (step (E := sample_externals_short))
                 sample_short_system1 sample_short_system2).
  { apply (exec_rtc [1; 1]). vm_compute. reflexivity. }
  split; [split; [exact H1 | split; [exact H2 | split; [exact H3 | exact H4]]]|].
  destruct (crashed_job_never_reported (E := sample_externals_short)
              Sample.cfg Sample.quats _ _ _ 0 _ _ _ H1 H2 H3 H4)
    as (_ & _ & Hlt & Hnb).
  split; [exact Hlt | exact Hnb].
Defined.

Definition sample_cfg_no_workers : config :=
  mkConfig 0 (1 # 4) 1440 [-(355 # 113); 355 # 113]%Q 0.

Definition sample_idle_system : system :=
  match start (E := Sample.externals) sample_cfg_no_workers Sample.quats with
  | Ok s => s
  | Raise _ => mkSystem (mkQueue [] 0) [] ∅ []
  end.

Lemma no_workers_no_progress_sample :
  (multiprocessing sample_cfg_no_workers = 0
   /\ start (E := Sample.externals) sample_cfg_no_workers Sample.quats
      = Ok sample_idle_system
   /\ rtc (step (E := Sample.externals)) sample_idle_system
        sample_idle_system)
  /\ ~ barrier 3 sample_idle_system.
Proof.
  assert (H2 : start (E := Sample.externals) sample_cfg_no_workers
                 Sample.quats = Ok sample_idle_system)
    by (vm_compute; reflexivity).
  assert (H3 : rtc (step (E := Sample.externals)) sample_idle_system
                 sample_idle_system) by apply rtc_refl.
  split; [split; [reflexivity | split; [exact H2 | exact H3]]|].
  destruct (no_workers_no_progress (E := Sample.externals)
              sample_cfg_no_workers Sample.quats _ _ eq_refl H2 H3)
    as [_ Hb].
  intros Hbar. apply Hb in Hbar. discriminate.
Defined.

(** The sample batch with one worker. *)
Definition sample_cfg_one_worker : config :=
  mkConfig 0 (1 # 4) 1440 [-(355 # 113); 355 # 113]%Q 1.

Definition sample_single_system0 : system :=
  match start (E := Sample.externals) sample_cfg_one_worker Sample.quats with
  | Ok s => s
  | Raise _ => mkSystem (mkQueue [] 0) [] ∅ []
  end.

Definition sample_single_system_end : system :=
  match exec (E := Sample.externals) (repeat 0 6) sample_single_system0 with
  | Some s => s
  | None => sample_single_system0
  end.

Lemma report_independent_of_schedule_sample :
  (start (E := Sample.externals) Sample.cfg Sample.quats = Ok sample_system0
   /\ start (E := Sample.externals) sample_cfg_one_worker Sample.quats
      = Ok sample_single_system0
   /\ same_scan (make_pkwargs Sample.cfg) (make_pkwargs sample_cfg_one_worker)
   /\ rtc (step (E := Sample.externals)) sample_system0 sample_system_end
   /\ rtc (step (E := Sample.externals)) sample_single_system0
        sample_single_system_end
   /\ length (results sample_system_end) = length Sample.quats
   /\ length (results sample_single_system_end) = length Sample.quats)
  /\ map grain_id (results sample_system_end) = [1; 0; 2]
  /\ map grain_id (results sample_single_system_end) = [0; 1; 2]
  /\ report (E := Sample.externals) (results sample_system_end)
     = report (E := Sample.externals) (results sample_single_system_end).
Proof.
  assert (H1 : start (E := Sample.externals) Sample.cfg Sample.quats
               = Ok sample_system0) by (vm_compute; reflexivity).
  assert (H2 : start (E := Sample.externals) sample_cfg_one_worker
                 Sample.quats = Ok sample_single_system0)
    by (vm_compute; reflexivity).
  assert (H3 : same_scan (make_pkwargs Sample.cfg)
                 (make_pkwargs sample_cfg_one_worker)) by (repeat split).
  assert (H4 : rtc (step (E := Sample.externals))
                 sample_system0 sample_system_end).
  { apply (exec_rtc sample_schedule). vm_compute. reflexivity. }
  assert (H5 : rtc (step (E := Sample.externals))
                 sample_single_system0 sample_single_system_end).
  { apply (exec_rtc (repeat 0 6)). vm_compute. reflexivity. }
  assert (H6 : length (results sample_system_end) = length Sample.quats)
    by (vm_compute; reflexivity).
  assert (H7 : length (results sample_single_system_end)
               = length Sample.quats) by (vm_compute; reflexivity).
  split; [repeat (split; [assumption|]); assumption|].
  split; [vm_compute; reflexivity|]. split; [vm_compute; reflexivity|].
  exact (proj2 (report_independent_of_schedule (E := Sample.externals)
                  _ _ _ _ _ _ _ H1 H2 H3 H4 H5 H6 H7)).
Defined.

Lemma some_schedule_completes_sample :
  (tables_wf (E := Sample.externals)
   /\ 0 < multiprocessing Sample.cfg
   /\ start (E := Sample.externals) Sample.cfg Sample.quats
      = Ok sample_system0)
  /\ exists schedule s,
       exec (E := Sample.externals) schedule sample_system0 = Some s
       /\ barrier 3 s.
Proof.
  assert (H2 : 0 < multiprocessing Sample.cfg) by (vm_compute; lia).
  assert (H3 : start (E := Sample.externals) Sample.cfg Sample.quats
               = Ok sample_system0) by (vm_compute; reflexivity).
  split; [split; [exact sample_tables_wf | split; [exact H2 | exact H3]]|].
  destruct (some_schedule_completes (E := Sample.externals) Sample.cfg
              Sample.quats _ sample_tables_wf H2 H3)
    as (schedule & s & He & _ & Hb & _).
  exists schedule, s. split; [exact He | exact Hb].
Defined.

Definition sample_r2 : FitResult :=
  nth 2 sample_results_run (mkFitResult 0 [] 0 [] 0).

Definition sample_row2 : list Q :=
  match res_items sample_r2 with
  | Ok fl => fl
  | Raise _ => []
  end.

Definition sample_line2 : string :=
  match row_line (E := Sample.externals) sample_r2 with
  | Ok line => line
  | Raise _ => EmptyString
  end.

Lemma header_lines_up_with_rows_sample :
  (res_items sample_r2 = Ok sample_row2
   /\ row_line (E := Sample.externals) sample_r2 = Ok sample_line2
   /\ String.length
        (NilEmpty.string_of_uint (Nat.to_uint (grain_id sample_r2))) <= 9
   /\ Forall2 (fun width x =>
                 String.length (fmt_g (Externals := Sample.externals) width x)
                 = width)
              len_items sample_row2)
  /\ String.length sample_line2 = String.length header_line
  /\ String.length header_line = 343.
Proof.
  assert (H1 : res_items sample_r2 = Ok sample_row2)
    by (vm_compute; reflexivity).
  assert (H2 : row_line (E := Sample.externals) sample_r2 = Ok sample_line2)
    by (vm_compute; reflexivity).
  assert (H3 : String.length
                 (NilEmpty.string_of_uint (Nat.to_uint (grain_id sample_r2)))
               <= 9) by (vm_compute; lia).
  assert (H4 : Forall2 (fun width x =>
                          String.length
                            (fmt_g (Externals := Sample.externals) width x)
                          = width)
                       len_items sample_row2).
  { unfold sample_row2. rewrite H1. unfold len_items.
    vm_compute map. vm_compute sample_row2.
    repeat (constructor; [vm_compute; reflexivity|]). constructor. }
  split; [split; [exact H1 | split; [exact H2 | split; [exact H3 | exact H4]]]|].
  split; [|vm_compute; reflexivity].
  exact (header_lines_up_with_rows (E := Sample.externals) _ _ _ H1 H2 H3 H4).
Defined.

Lemma report_written_sample :
  (NoDup (map grain_id sample_results_pool)
   /\ Forall (fun r => length (g_refined r) = 12 /\ shape (eMat r) 3 3)
             sample_results_pool)
  /\ exists rows lines,
       sorted sample_results_pool = Ok rows
       /\ collect (map (row_line (E := Sample.externals)) rows) = Ok lines
       /\ length lines = 3.
Proof.
  assert (H1 : NoDup (map grain_id sample_results_pool)).
  { apply NoDup_ListNoDup. vm_compute.
    repeat (constructor; [simpl; intuition discriminate|]). constructor. }
  assert (H2 : Forall (fun r => length (g_refined r) = 12
                               /\ shape (eMat r) 3 3) sample_results_pool).
  { vm_compute. repeat constructor. }
  split; [split; [exact H1 | exact H2]|].
  destruct (report_written (E := Sample.externals) sample_results_pool H1 H2)
    as (rows & lines & Hs & Hl & Hn & _).
  exists rows, lines. split; [exact Hs|]. split; [exact Hl|].
  rewrite Hn. vm_compute. reflexivity.
Defined.

(** Sample stand-ins for [int], [config.open] and [find_orientations]. *)
Definition sample_int (s : string) : option Z :=
  option_map Z.of_int (NilEmpty.int_of_string s).

Definition sample_show (z : Z) : string :=
  NilEmpty.string_of_int (Z.to_int z).

Definition sample_config_open (yml : string) : string := "work"%string.

Definition sample_find_orientations (wd : string) (hk : option (list Z))
    (fs : gset string) : gset string :=
  {[ FindOrientationsCLI.path_join wd "accepted_orientations.dat" ]} ∪ fs.

Lemma hkls_round_trip_sample :
  Forall (fun z => sample_int (sample_show z) = Some z
                   /\ FindOrientationsCLI.nonempty (sample_show z) = true
                   /\ FindOrientationsCLI.has_comma (sample_show z) = false)
         [1; 1; 0; -2]%Z
  /\ FindOrientationsCLI.parse_hkls sample_int
       (FindOrientationsCLI.PyStr "1,1,0,-2") = Ok (Some [1; 1; 0; -2]%Z).
Proof.
  assert (H : Forall (fun z => sample_int (sample_show z) = Some z
                     /\ FindOrientationsCLI.nonempty (sample_show z) = true
                     /\ FindOrientationsCLI.has_comma (sample_show z) = false)
                [1; 1; 0; -2]%Z).
  { repeat (constructor; [vm_compute; auto|]). constructor. }
  split; [exact H|].
  exact (FindOrientationsCLI.hkls_round_trip sample_int sample_show _ H).
Defined.

Definition sample_args (force : bool) (hkls : FindOrientationsCLI.hkls_attr)
    : FindOrientationsCLI.Namespace :=
  FindOrientationsCLI.mkArgs "config.yml" false force false hkls.

Lemma bad_hkls_aborts_first_sample :
  (FindOrientationsCLI.hkls
     (sample_args false (FindOrientationsCLI.PyStr "1,a,0"))
     = FindOrientationsCLI.PyStr "1,a,0"
   /\ In "a"%string (FindOrientationsCLI.split_comma "1,a,0")
   /\ FindOrientationsCLI.nonempty "a" = true
   /\ sample_int "a" = None)
  /\ FindOrientationsCLI.execute sample_int sample_config_open
       sample_find_orientations
       (sample_args false (FindOrientationsCLI.PyStr "1,a,0")) ∅
     = (FindOrientationsCLI.Raised ValueError, ∅, []).
Proof.
  assert (H2 : In "a"%string (FindOrientationsCLI.split_comma "1,a,0"))
    by (vm_compute; auto).
  assert (H4 : sample_int "a" = None) by (vm_compute; reflexivity).
  split; [repeat split; assumption|].
  exact (FindOrientationsCLI.bad_hkls_aborts_first sample_int
           sample_config_open sample_find_orientations
           (sample_args false (FindOrientationsCLI.PyStr "1,a,0")) ∅
           _ _ eq_refl H2 eq_refl H4).
Defined.

Definition sample_fs_done : gset string :=
  {[ "work/accepted_orientations.dat"%string ]}.

Lemma refuses_to_overwrite_sample :
  (FindOrientationsCLI.parse_hkls sample_int
     (FindOrientationsCLI.hkls (sample_args false FindOrientationsCLI.PyNone))
     = Ok None
   /\ FindOrientationsCLI.path_join (sample_config_open "config.yml")
        "accepted_orientations.dat" ∈ sample_fs_done
   /\ FindOrientationsCLI.force
        (sample_args false FindOrientationsCLI.PyNone) = false)
  /\ exists events,
       FindOrientationsCLI.execute sample_int sample_config_open
         sample_find_orientations
         (sample_args false FindOrientationsCLI.PyNone) sample_fs_done
       = (FindOrientationsCLI.SystemExit, sample_fs_done, events)
       /\ List.filter FindOrientationsCLI.is_search events = [].
Proof.
  assert (H2 : FindOrientationsCLI.path_join (sample_config_open "config.yml")
                 "accepted_orientations.dat" ∈ sample_fs_done).
  { apply elem_of_singleton. vm_compute. reflexivity. }
  split; [split; [reflexivity | split; [exact H2 | reflexivity]]|].
  destruct (FindOrientationsCLI.refuses_to_overwrite sample_int
              sample_config_open sample_find_orientations
              (sample_args false FindOrientationsCLI.PyNone) sample_fs_done
              None eq_refl H2 eq_refl) as (events & He & Hs & _).
  exists events. split; [exact He | exact Hs].
Defined.

Lemma searches_once_sample :
  (FindOrientationsCLI.parse_hkls sample_int
     (FindOrientationsCLI.hkls
        (sample_args true (FindOrientationsCLI.PyStr "1,1,0")))
     = Ok (Some [1; 1; 0]%Z)
   /\ (FindOrientationsCLI.path_join (sample_config_open "config.yml")
         "accepted_orientations.dat" ∉ sample_fs_done
       \/ FindOrientationsCLI.force
            (sample_args true (FindOrientationsCLI.PyStr "1,1,0")) = true))
  /\ exists fs2 events,
       FindOrientationsCLI.execute sample_int sample_config_open
         sample_find_orientations
         (sample_args true (FindOrientationsCLI.PyStr "1,1,0")) sample_fs_done
       = (FindOrientationsCLI.Returned,
          sample_find_orientations "work" (Some [1; 1; 0]%Z) fs2, events)
       /\ List.filter FindOrientationsCLI.is_search events
          = [FindOrientationsCLI.FindOrientations "work" (Some [1; 1; 0]%Z)].
Proof.
  assert (H1 : FindOrientationsCLI.parse_hkls sample_int
                 (FindOrientationsCLI.hkls
                    (sample_args true (FindOrientationsCLI.PyStr "1,1,0")))
               = Ok (Some [1; 1; 0]%Z)) by (vm_compute; reflexivity).
  assert (H2 : FindOrientationsCLI.path_join (sample_config_open "config.yml")
                 "accepted_orientations.dat" ∉ sample_fs_done
               \/ FindOrientationsCLI.force
                    (sample_args true (FindOrientationsCLI.PyStr "1,1,0"))
                  = true) by (right; reflexivity).
  split; [split; [exact H1 | exact H2]|].
  destruct (FindOrientationsCLI.searches_once sample_int sample_config_open
              sample_find_orientations
              (sample_args true (FindOrientationsCLI.PyStr "1,1,0"))
              sample_fs_done _ H1 H2)
    as (fs2 & events & He & _ & _ & _ & Hs & _).
  exists fs2, events. split; [exact He | exact Hs].
Defined.
